(** * Calendar booking component: civil-time conversion, phone validation,
      authenticated API client and the booking page's handlers.

    The development embeds the JavaScript sources shallowly:
    - [Js]          the part of the JavaScript runtime the sources call
                    (strings, numbers as text, JSON values, [Date], the
                    Europe/London rules of [Intl.DateTimeFormat]);
    - [DateUtils]   [utils/dateUtils.js] (the Europe/London version);
    - [Api]         [utils/api.js];
    - [TimeSlotSelector] the slot labels of
                    [components/TimeSlotSelector.jsx];
    - [Phone], [BookingPage] [components/BookingPage.jsx].
    Definitions come first: the sources, then the vocabulary of the
    properties with the sample inputs.  The properties follow. *)

From Stdlib Require Import String Ascii ZArith NArith List Bool Lia.
From Stdlib Require Import DecimalString.
From Stdlib Require DecimalPos DecimalN DecimalFacts.
Import ListNotations.

Set Warnings "-register-all".

Local Open Scope string_scope.
Local Open Scope Z_scope.

(* ===================================================================== *)
(** * Part I: definitions                                                 *)
(* ===================================================================== *)

(** ** The JavaScript runtime *)

Module Js.

(** *** Strings

    A JavaScript string is a sequence of UTF-16 code units.  The model
    keeps the code units below 256, one [ascii] each, so that [length] is
    the [.length] of the source. *)

Definition code (c : ascii) : N := N_of_ascii c.

(** [\d] *)
Definition isDigit (c : ascii) : bool :=
  ((48 <=? code c) && (code c <=? 57))%N.

(** [\s], restricted to the code units of the model: TAB, LF, VT, FF, CR,
    SPACE and NO-BREAK SPACE. *)
Definition isWhiteSpace (c : ascii) : bool :=
  existsb (N.eqb (code c)) [9; 10; 11; 12; 13; 32; 160]%N.

(** [s.replace(/[cls]/g, '')]: every code unit of the class is removed. *)
Fixpoint removeAll (cls : ascii -> bool) (s : string) : string :=
  match s with
  | EmptyString => EmptyString
  | String c r => if cls c then removeAll cls r else String c (removeAll cls r)
  end.

(** [s.replace(/^[cls]+/, '')]: the leading run of the class is removed. *)
Fixpoint removeLeading (cls : ascii -> bool) (s : string) : string :=
  match s with
  | EmptyString => EmptyString
  | String c r => if cls c then removeLeading cls r else s
  end.

(** [s.startsWith(p)] *)
Fixpoint startsWith (s p : string) {struct p} : bool :=
  match p with
  | EmptyString => true
  | String a p' =>
      match s with
      | EmptyString => false
      | String b s' => Ascii.eqb a b && startsWith s' p'
      end
  end.

(** [s.substring(n)] *)
Fixpoint substring (n : nat) (s : string) : string :=
  match n with
  | O => s
  | S n' => match s with EmptyString => EmptyString | String _ r => substring n' r end
  end.

(** [s.replace(/^p/, '')] for a literal [p]. *)
Definition removePrefix (p s : string) : string :=
  if startsWith s p then substring (String.length p) s else s.

Definition isEmpty (s : string) : bool :=
  match s with EmptyString => true | _ => false end.

Definition trimStart (s : string) : string := removeLeading isWhiteSpace s.

Fixpoint trimEnd (s : string) : string :=
  match s with
  | EmptyString => EmptyString
  | String c r =>
      let r' := trimEnd r in
      if isWhiteSpace c && isEmpty r' then EmptyString else String c r'
  end.

(** [s.trim()] *)
Definition trim (s : string) : string := trimEnd (trimStart s).

Definition upperChar (c : ascii) : ascii :=
  if ((97 <=? code c) && (code c <=? 122))%N
  then ascii_of_N (code c - 32) else c.

(** [s.toUpperCase()].  The letters a-z are mapped; the other code units
    are kept.  The sources only compare the result with the words CANCELED
    and CANCELLED, and no code unit outside a-z has an upper-case form made
    of the letters of these words. *)
Fixpoint toUpperCase (s : string) : string :=
  match s with
  | EmptyString => EmptyString
  | String c r => String (upperChar c) (toUpperCase r)
  end.

Fixpoint repeat0 (n : nat) : string :=
  match n with O => EmptyString | S n' => String "0" (repeat0 n') end.

(** [s.padStart(n, '0')] *)
Definition padStart0 (n : nat) (s : string) : string :=
  repeat0 (n - String.length s) ++ s.

(** *** Numbers as text *)

(** [String(z)] for an integer. *)
Definition String_ (z : Z) : string := NilZero.string_of_int (Z.to_int z).

Definition digitValue (c : ascii) : Z := Z.of_N (code c) - 48.

Fixpoint digitsValue (acc : Z) (s : string) : Z :=
  match s with
  | EmptyString => acc
  | String c r => if isDigit c then digitsValue (10 * acc + digitValue c) r else acc
  end.

(** [parseInt(s, 10)]: leading white space and a sign are accepted, the
    digits that follow are read, the rest is ignored; [None] is NaN. *)
Definition parseInt (s : string) : option Z :=
  let t := trimStart s in
  let '(neg, u) :=
    match t with
    | String "-" r => (true, r)
    | String "+" r => (false, r)
    | _ => (false, t)
    end in
  match u with
  | String c _ =>
      if isDigit c then Some (if neg then - digitsValue 0 u else digitsValue 0 u)
      else None
  | EmptyString => None
  end.

Fixpoint allDigits (s : string) : bool :=
  match s with
  | EmptyString => true
  | String c r => isDigit c && allDigits r
  end.

(** [Number(s)] on the strings the sources produce: an empty (or blank)
    string is 0, a run of digits is its value, anything else is NaN. *)
Definition ToNumber (s : string) : option Z :=
  let t := trim s in
  if isEmpty t then Some 0
  else if allDigits t then Some (digitsValue 0 t) else None.

(** *** Exceptions *)

Record JsError := mkError {
  name : string;
  message : string;
  status : option Z          (* the [status] the API client attaches *)
}.

Definition Error (msg : string) : JsError := mkError "Error" msg None.
Definition RangeError (msg : string) : JsError := mkError "RangeError" msg None.
Definition TypeError (msg : string) : JsError := mkError "TypeError" msg None.

(** The outcome of a call that may throw. *)
Inductive result (A : Type) : Type :=
| Ok (a : A)
| Throw (e : JsError).
Arguments Ok {A} a.
Arguments Throw {A} e.

End Js.

(** ** [Date] and [Intl.DateTimeFormat] *)

Module JsDate.
Import Js.

(** A time value: milliseconds since 1970-01-01T00:00:00Z; [None] is NaN,
    the time value of an invalid [Date]. *)
Definition timeValue := option Z.

Definition msPerMinute : Z := 60000.
Definition msPerHour : Z := 3600000.
Definition msPerDay : Z := 86400000.

(** Day number of the civil date [y]-[m]-[d] ([m] from 1), counted from
    1970-01-01, in the proleptic Gregorian calendar. *)
Definition daysFromCivil (y m d : Z) : Z :=
  let y' := if m <=? 2 then y - 1 else y in
  let era := y' / 400 in
  let yoe := y' - era * 400 in
  let doy := (153 * (if 2 <? m then m - 3 else m + 9) + 2) / 5 + d - 1 in
  let doe := yoe * 365 + yoe / 4 - yoe / 100 + doy in
  era * 146097 + doe - 719468.

(** The civil date (year, month from 1, day) of a day number. *)
Definition civilFromDays (z : Z) : Z * Z * Z :=
  let z' := z + 719468 in
  let era := z' / 146097 in
  let doe := z' - era * 146097 in
  let yoe := (doe - doe / 1460 + doe / 36524 - doe / 146096) / 365 in
  let doy := doe - (365 * yoe + yoe / 4 - yoe / 100) in
  let mp := (5 * doy + 2) / 153 in
  let d := doy - (153 * mp + 2) / 5 + 1 in
  let m := if mp <? 10 then mp + 3 else mp - 9 in
  ((yoe + era * 400) + (if m <=? 2 then 1 else 0), m, d).

(** Day of the week of a day number, 0 for Sunday. *)
Definition weekDay (day : Z) : Z := (day + 4) mod 7.

Definition MakeDay (year month date : Z) : Z :=
  daysFromCivil (year + month / 12) (month mod 12 + 1) 1 + date - 1.

Definition TimeClip (t : Z) : timeValue :=
  if Z.abs t <=? 8640000000000000 then Some t else None.

(** [Date.UTC(year, month, date, hours, minutes, 0)], [month] from 0. *)
Definition Date_UTC (year month date hours minutes : Z) : timeValue :=
  let yr := if (0 <=? year) && (year <=? 99) then 1900 + year else year in
  TimeClip (MakeDay yr month date * msPerDay + hours * msPerHour + minutes * msPerMinute).

(** The fields of a civil date and time of day. *)
Record Civil := mkCivil {
  cYear : Z; cMonth : Z (* from 1 *); cDay : Z;
  cHour : Z; cMinute : Z; cSecond : Z; cMilli : Z;
  cWeekDay : Z
}.

(** The fields of [t] read as a civil time at offset 0. *)
Definition civilOf (t : Z) : Civil :=
  let day := t / msPerDay in
  let tm := t mod msPerDay in
  let '(y, m, d) := civilFromDays day in
  mkCivil y m d (tm / msPerHour) (tm mod msPerHour / msPerMinute)
          (tm mod msPerMinute / 1000) (tm mod 1000) (weekDay day).

Definition pad (n : nat) (z : Z) : string := padStart0 n (String_ z).

(** [d.toISOString()] *)
Definition toISOString (d : timeValue) : result string :=
  match d with
  | None => Throw (RangeError "Invalid time value")
  | Some t =>
      let c := civilOf t in
      let year :=
        if (0 <=? cYear c) && (cYear c <=? 9999) then pad 4 (cYear c)
        else (if cYear c <? 0 then "-" else "+") ++ pad 6 (Z.abs (cYear c)) in
      Ok (year ++ "-" ++ pad 2 (cMonth c) ++ "-" ++ pad 2 (cDay c) ++ "T" ++
          pad 2 (cHour c) ++ ":" ++ pad 2 (cMinute c) ++ ":" ++ pad 2 (cSecond c) ++
          "." ++ pad 3 (cMilli c) ++ "Z")
  end.

(** *** The zone Europe/London

    The rule of the IANA time zone database in force since 1996: summer
    time (UTC+1) from 01:00 UTC on the last Sunday of March to 01:00 UTC on
    the last Sunday of October, UTC+0 otherwise.  Before 1996 the zone
    followed other rules (summer time ending on other days, UTC+1 all year
    from 1968 to 1971, two hours of summer time in the 1940s, local mean
    time before 1847), which the model does not hold: [londonOffset] is the
    offset of the zone at the instants from [ruleStart] on, and the
    properties stated for any date carry that bound. *)

(** 1996-01-01T00:00:00Z *)
Definition ruleStart : Z := 820454400000.

Definition lastSunday (y m : Z) : Z :=
  let last := daysFromCivil y m 31 in last - weekDay last.

Definition summerStart (y : Z) : Z := lastSunday y 3 * msPerDay + msPerHour.
Definition summerEnd (y : Z) : Z := lastSunday y 10 * msPerDay + msPerHour.

Definition londonOffset (t : Z) : Z :=
  let y := cYear (civilOf t) in
  if (summerStart y <=? t) && (t <? summerEnd y) then msPerHour else 0.

(** The civil fields shown in Europe/London at the instant [t]. *)
Definition londonCivil (t : Z) : Civil := civilOf (t + londonOffset t).

(** [new Intl.DateTimeFormat('en-GB', { timeZone: 'Europe/London',
      year: 'numeric', month: '2-digit', day: '2-digit', hour: '2-digit',
      minute: '2-digit', hour12: false }).formatToParts(d)]:
    the list of [{type, value}] parts; the hour runs from 00 to 23. *)
Definition formatToParts_London (d : timeValue) : result (list (string * string)) :=
  match d with
  | None => Throw (RangeError "Invalid time value")
  | Some t =>
      let c := londonCivil t in
      Ok [ ("day", pad 2 (cDay c)); ("literal", "/");
           ("month", pad 2 (cMonth c)); ("literal", "/");
           ("year", String_ (cYear c)); ("literal", ", ");
           ("hour", pad 2 (cHour c)); ("literal", ":");
           ("minute", pad 2 (cMinute c)) ]
  end.

(** [parts.find(p => p.type === ty)] *)
Definition findPart (ty : string) (parts : list (string * string)) : option (string * string) :=
  find (fun p => String.eqb (fst p) ty) parts.

Definition weekDayName (w : Z) : string :=
  nth (Z.to_nat w)
      ["Sunday"; "Monday"; "Tuesday"; "Wednesday"; "Thursday"; "Friday"; "Saturday"] "".

Definition monthName (m : Z) : string :=
  nth (Z.to_nat (m - 1))
      ["January"; "February"; "March"; "April"; "May"; "June"; "July"; "August";
       "September"; "October"; "November"; "December"] "".

(** The en-GB long date of civil fields: weekday, a comma, day, month
    name, year.  Releases of the locale data differ on the comma; the
    model prints it. *)
Definition enGB_longDate (weekday year month day : Z) : string :=
  weekDayName weekday ++ ", " ++ String_ day ++ " " ++ monthName month ++ " " ++ String_ year.

(** The en-GB 12-hour time of a time of day: hour without padding, minute
    on two digits, lower-case day period. *)
Definition enGB_time12 (hour minute : Z) : string :=
  let h := hour mod 12 in
  String_ (if h =? 0 then 12 else h) ++ ":" ++ pad 2 minute ++
  (if hour <? 12 then " am" else " pm").

(** [d.toLocaleDateString('en-GB', { weekday: 'long', year: 'numeric',
      month: 'long', day: 'numeric', timeZone: 'Europe/London' })] *)
Definition toLocaleDateString_London (d : timeValue) : string :=
  match d with
  | None => "Invalid Date"
  | Some t =>
      let c := londonCivil t in
      enGB_longDate (cWeekDay c) (cYear c) (cMonth c) (cDay c)
  end.

(** [d.toLocaleTimeString('en-GB', { hour: 'numeric', minute: '2-digit',
      hour12: true, timeZone: 'Europe/London' })] *)
Definition toLocaleTimeString_London (d : timeValue) : string :=
  match d with
  | None => "Invalid Date"
  | Some t => let c := londonCivil t in enGB_time12 (cHour c) (cMinute c)
  end.

(** [t.toLocaleTimeString('en-US', { hour: 'numeric', minute: '2-digit',
      hour12: true })] for a time of day.  The day period follows a space;
    recent locale data put a narrow no-break space there, which the
    pattern of the converter accepts as white space all the same. *)
Definition enUS_time12 (hour minute : Z) : string :=
  let h := hour mod 12 in
  String_ (if h =? 0 then 12 else h) ++ ":" ++ pad 2 minute ++
  (if hour <? 12 then " AM" else " PM").

(** *** [new Date(string)]

    [Date_parse] reads the date-time forms of ECMAScript's date string
    format that name their offset, [YYYY-MM-DDTHH:mm(:ss(.s+)?)?] followed
    by [Z] or by [+HH:mm] or [-HH:mm], with fields of the calendar and of
    the clock: the instant they name is the same in every engine and in
    every zone.  [None] is any other string.  The engine reads other
    strings too: the date-only forms, the forms without an offset in the
    viewer's zone, 24:00:00, a day up to 31 in any month, and forms of its
    own; [new_Date] below leaves their reading to the engine. *)

Fixpoint takeDigits (n : nat) (s : string) : option (Z * string) :=
  match n with
  | O => Some (0, s)
  | S n' =>
      match s with
      | String c r =>
          if isDigit c then
            match takeDigits n' r with
            | Some (v, rest) => Some (digitValue c * 10 ^ Z.of_nat n' + v, rest)
            | None => None
            end
          else None
      | EmptyString => None
      end
  end.

Definition expect (c : ascii) (s : string) : option string :=
  match s with
  | String c' r => if Ascii.eqb c c' then Some r else None
  | EmptyString => None
  end.

Definition bind {A B} (o : option A) (f : A -> option B) : option B :=
  match o with Some a => f a | None => None end.

Definition parseOffset (s : string) : option Z :=
  match s with
  | String "Z" EmptyString => Some 0
  | String sg r =>
      if Ascii.eqb sg "+" || Ascii.eqb sg "-" then
        bind (takeDigits 2 r) (fun '(hh, r1) =>
        bind (expect ":" r1) (fun r2 =>
        bind (takeDigits 2 r2) (fun '(mm, r3) =>
        if isEmpty r3 && (hh <? 24) && (mm <? 60) then
          Some ((if Ascii.eqb sg "-" then -1 else 1) * (hh * msPerHour + mm * msPerMinute))
        else None)))
      else None
  | EmptyString => None
  end.

(** Seconds and milliseconds, when present: [(ms, rest)]. *)
Definition parseSeconds (s : string) : option (Z * string) :=
  match s with
  | String ":" r =>
      bind (takeDigits 2 r) (fun '(ss, r1) =>
      match r1 with
      | String "." r2 =>
          let digits :=
            (String.length r2 - String.length (removeLeading isDigit r2))%nat in
          if (digits =? 0)%nat then None
          else
            bind (takeDigits (Nat.min digits 3) r2) (fun '(v, _) =>
            Some (ss * 1000 + v * 10 ^ Z.of_nat (3 - Nat.min digits 3),
                  removeLeading isDigit r2))
      | _ => Some (ss * 1000, r1)
      end)
  | _ => Some (0, s)
  end.

Definition daysInMonth (y m : Z) : Z :=
  daysFromCivil (y + m / 12) (m mod 12 + 1) 1 - daysFromCivil y m 1.

Definition Date_parse (s : string) : timeValue :=
  bind (takeDigits 4 s) (fun '(y, r1) =>
  bind (expect "-" r1) (fun r2 =>
  bind (takeDigits 2 r2) (fun '(mo, r3) =>
  bind (expect "-" r3) (fun r4 =>
  bind (takeDigits 2 r4) (fun '(d, r5) =>
  bind (expect "T" r5) (fun r6 =>
  bind (takeDigits 2 r6) (fun '(hh, r7) =>
  bind (expect ":" r7) (fun r8 =>
  bind (takeDigits 2 r8) (fun '(mi, r9) =>
  bind (parseSeconds r9) (fun '(ms, r10) =>
  bind (parseOffset r10) (fun off =>
  if (1 <=? mo) && (mo <=? 12) && (1 <=? d) && (d <=? daysInMonth y mo)
     && (hh <? 24) && (mi <? 60) && (ms <? 60000)
  then TimeClip (daysFromCivil y mo d * msPerDay + hh * msPerHour
                 + mi * msPerMinute + ms - off)
  else None))))))))))).

(** What the engine makes of the strings whose reading [Date_parse] does
    not fix: a time value, NaN for a string it does not read. *)
Class Engine := mkEngine {
  otherDate : string -> timeValue
}.

(** [new Date(s)] for a string [s]. *)
Definition new_Date {engine : Engine} (s : string) : timeValue :=
  match Date_parse s with
  | Some t => Some t
  | None => otherDate s
  end.

(** An engine that reads no string besides those of [Date_parse]. *)
Definition standardOnly : Engine := mkEngine (fun _ => None).

End JsDate.

(** ** [components/TimeSlotSelector.jsx]: the slot labels *)

Module TimeSlotSelector.
Import Js JsDate.

Record Slot := mkSlot { timeString : string; hour : Z; minute : Z }.

(** The inner loop of [generateTimeSlots]: minutes 0, 15, 30 and 45. *)
Definition slotsOfHour (hour : Z) : list Slot :=
  map (fun minute => mkSlot (enUS_time12 hour minute) hour minute) [0; 15; 30; 45].

(** [generateTimeSlots]: the hours 0 to 23, a quarter of an hour apart,
    on a day whose clock does not change in the viewer's zone. *)
Definition generateTimeSlots : list Slot :=
  flat_map slotsOfHour (map Z.of_nat (seq 0 24)).

End TimeSlotSelector.

(** ** [utils/dateUtils.js], the Europe/London version *)

Module DateUtils.
Import Js JsDate.

(** The selected [Date], through what the sources read of it:
    [getFullYear()], [getMonth()] (from 0) and [getDate()]. *)
Record LocalDate := mkLocalDate {
  getFullYear : Z;
  getMonth : Z;
  getDate : Z
}.

(** The longest prefix of [s] in the class, and what follows it. *)
Fixpoint span (cls : ascii -> bool) (s : string) : string * string :=
  match s with
  | EmptyString => (EmptyString, EmptyString)
  | String c r =>
      if cls c then let '(p, q) := span cls r in (String c p, q)
      else (EmptyString, s)
  end.

Definition isAorP (c : ascii) : bool :=
  let u := upperChar c in Ascii.eqb u "A" || Ascii.eqb u "P".
Definition isM (c : ascii) : bool := Ascii.eqb (upperChar c) "M".

(** A match of [(\d+):(\d+)\s*(AM|PM)], letter case ignored, that starts
    at the first code unit of [s]: the three groups.  Each repetition
    takes its longest run; a shorter one is followed by a code unit of the
    same class, which the next element of the pattern refuses. *)
Definition timeMatchHere (s : string) : option (string * string * string) :=
  let '(g1, r1) := span isDigit s in
  if isEmpty g1 then None
  else
    match r1 with
    | String ":" r2 =>
        let '(g2, r3) := span isDigit r2 in
        if isEmpty g2 then None
        else
          match removeLeading isWhiteSpace r3 with
          | String a (String b _) =>
              if isAorP a && isM b then Some (g1, g2, String a (String b EmptyString))
              else None
          | _ => None
          end
    | _ => None
    end.

(** [s.match(/(\d+):(\d+)\s*(AM|PM)/i)]: the leftmost match. *)
Fixpoint timeMatch (s : string) : option (string * string * string) :=
  match timeMatchHere s with
  | Some m => Some m
  | None =>
      match s with
      | EmptyString => None
      | String _ r => timeMatch r
      end
  end.

(** The hour on the 24-hour clock. *)
Definition to24Hour (period : string) (hours : Z) : Z :=
  if String.eqb period "PM" && negb (hours =? 12) then hours + 12
  else if String.eqb period "AM" && (hours =? 12) then 0
  else hours.

(** A number that is NaN makes the date built from it invalid, and the
    formatter throws on an invalid date. *)
Definition number {A} (n : option Z) (k : Z -> result A) : result A :=
  match n with
  | Some z => k z
  | None => Throw (RangeError "Invalid time value")
  end.

Definition partValue (ty : string) (parts : list (string * string)) : string :=
  match findPart ty parts with Some p => snd p | None => EmptyString end.

(** The instant [convertToISO8601] returns, before it is printed. *)
Definition convertToInstant (date : LocalDate) (timeString : string) : result timeValue :=
  match timeMatch timeString with
  | None => Throw (Error "Invalid time format")
  | Some (m1, m2, m3) =>
      number (parseInt m1) (fun hours0 =>
      number (parseInt m2) (fun minutes =>
      let period := toUpperCase m3 in
      let hours := to24Hour period hours0 in
      let year := getFullYear date in
      let month := padStart0 2 (String_ (getMonth date + 1)) in
      let day := padStart0 2 (String_ (getDate date)) in
      let hour := padStart0 2 (String_ hours) in
      let minute := padStart0 2 (String_ minutes) in
      number (parseInt month) (fun month' =>
      number (parseInt day) (fun ukDay =>
      number (ToNumber hour) (fun ukHourField =>
      number (ToNumber minute) (fun ukMinuteField =>
      let ukMonth := month' - 1 in
      let referenceUTC := Date_UTC year ukMonth ukDay ukHourField ukMinuteField in
      match formatToParts_London referenceUTC with
      | Throw e => Throw e
      | Ok ukDisplay =>
          number (parseInt (partValue "hour" ukDisplay)) (fun ukHour =>
          number (parseInt (partValue "minute" ukDisplay)) (fun ukMinute =>
          number (parseInt hour) (fun targetHour =>
          number (parseInt minute) (fun targetMinute =>
          number referenceUTC (fun referenceTime =>
          let hourDiff := targetHour - ukHour in
          let minuteDiff := targetMinute - ukMinute in
          let totalDiffMinutes := hourDiff * 60 + minuteDiff in
          Ok (TimeClip (referenceTime + totalDiffMinutes * 60000)))))))
      end))))))
  end.

(** [convertToISO8601] *)
Definition convertToISO8601 (date : LocalDate) (timeString : string) : result string :=
  match convertToInstant date timeString with
  | Throw e => Throw e
  | Ok adjustedUTC => toISOString adjustedUTC
  end.

(** [parseISO8601] *)
Definition parseISO8601 {engine : Engine} (isoString : string) : timeValue :=
  new_Date isoString.

Record Display := mkDisplay {
  date : string;
  time : string;
  timezone : string
}.

(** [formatISO8601ForDisplay] *)
Definition formatISO8601ForDisplay {engine : Engine} (isoString : string) : Display :=
  let d := parseISO8601 isoString in
  let ukTimezone := "Europe/London" in
  mkDisplay (toLocaleDateString_London d) (toLocaleTimeString_London d) ukTimezone.

(** [getUserTimezone] *)
Definition getUserTimezone : string := "Europe/London".

(** [toISODateString] *)
Definition toISODateString (date : LocalDate) : string :=
  let year := getFullYear date in
  let month := padStart0 2 (String_ (getMonth date + 1)) in
  let day := padStart0 2 (String_ (getDate date)) in
  String_ year ++ "-" ++ month ++ "-" ++ day.

End DateUtils.

(** ** [utils/api.js] *)

Module Api.
Import Js.

(** *** JSON values, as [response.json()] yields them.  The sources test
    the numbers of a body and print them, and never compute with them: a
    number is held as the string [String()] prints for it, [42], [1.5],
    [1e+21]; zero, of either sign, prints as [0]. *)
Inductive json : Type :=
| JNull
| JBool (b : bool)
| JNum (shown : string)
| JStr (s : string)
| JArr (items : list json)
| JObj (fields : list (string * json)).

(** A JavaScript value read from a JSON value: [None] is [undefined]. *)
Definition value := option json.

Definition truthy (v : value) : bool :=
  match v with
  | None | Some JNull => false
  | Some (JBool b) => b
  | Some (JNum shown) => negb (String.eqb shown "0")
  | Some (JStr s) => negb (isEmpty s)
  | Some (JArr _) | Some (JObj _) => true
  end.

(** The last binding of [key]: a repeated key keeps its last value. *)
Fixpoint lookup (key : string) (fields : list (string * json)) : value :=
  match fields with
  | [] => None
  | (k, v) :: rest =>
      match lookup key rest with
      | Some v' => Some v'
      | None => if String.eqb k key then Some v else None
      end
  end.

(** [j.key], for a key that no string, number, boolean or array has as a
    property of its own: reading it off [null] throws. *)
Definition getProp (key : string) (j : json) : result value :=
  match j with
  | JNull => Throw (TypeError ("Cannot read properties of null (reading '" ++ key ++ "')"))
  | JObj fields => Ok (lookup key fields)
  | _ => Ok None
  end.

(** What the conversion of an object to a primitive value throws when
    neither [toString] nor [valueOf] gives one; the text is V8's, as are
    the texts of the other errors of the runtime. *)
Definition cannotConvert : JsError :=
  TypeError "Cannot convert object to primitive value".

(** [items.join(',')], the elements converted by [print]: a [null]
    element prints as nothing, and the first conversion that throws ends
    the join. *)
Section Join.
Variable print : json -> result string.

Fixpoint join (items : list json) : result string :=
  match items with
  | [] => Ok EmptyString
  | x :: rest =>
      match (match x with JNull => Ok EmptyString | _ => print x end) with
      | Throw e => Throw e
      | Ok first =>
          match rest with
          | [] => Ok first
          | _ =>
              match join rest with
              | Throw e => Throw e
              | Ok more => Ok (first ++ "," ++ more)
              end
          end
      end
  end.

End Join.

(** [String(j)].  An array is joined with commas.  An object of a body
    inherits [toString] and [valueOf] from [Object.prototype]; a [toString]
    key of its own hides the inherited method and, being no function, is
    passed over, [valueOf], inherited or hidden likewise, gives no
    primitive value, and the conversion throws. *)
Fixpoint ToString (j : json) : result string :=
  match j with
  | JNull => Ok "null"
  | JBool true => Ok "true"
  | JBool false => Ok "false"
  | JNum shown => Ok shown
  | JStr s => Ok s
  | JArr items => join ToString items
  | JObj fields =>
      match lookup "toString" fields with
      | Some _ => Throw cannotConvert
      | None => Ok "[object Object]"
      end
  end.

(** *** Requests and responses *)

Inductive Body : Type :=
| TextBody (text : string)
| FormBody (fields : list (string * string)).   (* [new URLSearchParams({...})] *)

Record Request := mkRequest {
  url : string;
  method : option string;
  headers : list (string * string);
  body : option Body
}.

Record Response := mkResponse {
  status : Z;
  statusText : string;
  jsonBody : option json      (* [None]: [response.json()] rejects *)
}.

(** [response.ok] *)
Definition ok (r : Response) : bool := (200 <=? status r) && (status r <=? 299).

Definition response_json (r : Response) : result json :=
  match jsonBody r with
  | Some j => Ok j
  | None => Throw (mkError "SyntaxError" "Unexpected end of JSON input" None)
  end.

(** [headers[key] = v] on an object: the key keeps its place when it is
    there already, and is added last otherwise. *)
Fixpoint setKey {V : Type} (key : string) (v : V) (obj : list (string * V)) : list (string * V) :=
  match obj with
  | [] => [(key, v)]
  | (k, v') :: rest =>
      if String.eqb k key then (k, v) :: rest else (k, v') :: setKey key v rest
  end.

(** [{ ...obj, ...more }] *)
Definition spread {V : Type} (obj more : list (string * V)) : list (string * V) :=
  fold_left (fun acc kv => setKey (fst kv) (snd kv) acc) more obj.

(** The [options] argument of [apiRequest]. *)
Record Options := mkOptions {
  o_method : option string;
  o_headers : list (string * string);
  o_body : option Body
}.

Definition noOptions : Options := mkOptions None [] None.

(** *** The world: [localStorage], the requests sent so far, and the
    network, which answers a request given the requests before it. *)

Inductive FetchOutcome : Type :=
| Fulfilled (r : Response)
| Rejected (e : JsError).

Record World := mkWorld {
  auth_token : option string;               (* [localStorage['auth_token']] *)
  sent : list Request;                      (* oldest first *)
  network : list Request -> Request -> FetchOutcome
}.

(** Computations that read and change the world and may throw; what was
    done before a throw stays done. *)
Definition M (A : Type) : Type := World -> result A * World.

Definition ret {A} (a : A) : M A := fun w => (Ok a, w).
Definition throw {A} (e : JsError) : M A := fun w => (Throw e, w).
Definition bindM {A B} (m : M A) (k : A -> M B) : M B :=
  fun w => match m w with
           | (Ok a, w') => k a w'
           | (Throw e, w') => (Throw e, w')
           end.
Definition tryCatch {A} (m : M A) (handler : JsError -> M A) : M A :=
  fun w => match m w with
           | (Ok a, w') => (Ok a, w')
           | (Throw e, w') => handler e w'
           end.
Definition lift {A} (r : result A) : M A := fun w => (r, w).

Notation "x <- m ;; k" := (bindM m (fun x => k))
  (at level 61, m at next level, right associativity).
Notation "m ;;; k" := (bindM m (fun _ => k))
  (at level 61, right associativity).

(** [fetch(url, init)] *)
Definition fetch (req : Request) : M Response :=
  fun w =>
    let w' := mkWorld (auth_token w) (sent w ++ [req]) (network w) in
    match network w (sent w) req with
    | Fulfilled r => (Ok r, w')
    | Rejected e => (Throw e, w')
    end.

(** The build-time settings [import.meta.env.VITE_*]. *)
Record Env := mkEnv {
  VITE_API_BASE_URL : option string;
  VITE_AUTH_EMAIL : option string;
  VITE_AUTH_PASSWORD : option string
}.

(** [setting || fallback] *)
Definition orElse (setting : option string) (fallback : string) : string :=
  match setting with
  | Some s => if isEmpty s then fallback else s
  | None => fallback
  end.

Definition API_BASE_URL (env : Env) : string := orElse (VITE_API_BASE_URL env) "http://localhost:8000".
Definition AUTH_EMAIL (env : Env) : string := orElse (VITE_AUTH_EMAIL env) "frontend-service@email.com".
Definition AUTH_PASSWORD (env : Env) : string := orElse (VITE_AUTH_PASSWORD env) "password".

(** [getAuthToken], [setAuthToken], [removeAuthToken] *)
Definition getAuthToken : M (option string) := fun w => (Ok (auth_token w), w).
Definition setAuthToken (token : string) : M unit :=
  fun w => (Ok tt, mkWorld (Some token) (sent w) (network w)).
Definition removeAuthToken : M unit :=
  fun w => (Ok tt, mkWorld None (sent w) (network w)).

(** The [else if (typeof errorData === 'string')] of [handleApiError]:
    a body that is a string is the message, any other body leaves the
    initial ['An error occurred']. *)
Definition stringOrDefault (errorData : json) : json :=
  match errorData with
  | JStr _ => errorData
  | _ => JStr "An error occurred"
  end.

(** [handleApiError]: the [try] computes the message, the [catch]
    replaces it by the status line.  [new Error(errorMessage)] converts the
    message to a string after the [try]: a conversion that throws makes
    [handleApiError] throw. *)
Definition handleApiError (response : Response) : result JsError :=
  let tried : result json :=
    match response_json response with
    | Throw e => Throw e
    | Ok errorData =>
        match getProp "detail" errorData with
        | Throw e => Throw e
        | Ok detail =>
            match detail with
            | Some d => if truthy detail then Ok d else Ok (stringOrDefault errorData)
            | None => Ok (stringOrDefault errorData)
            end
        end
    end in
  let errorMessage : json :=
    match tried with
    | Ok m => m
    | Throw _ => JStr ("HTTP " ++ String_ (status response) ++ ": " ++ statusText response)
    end in
  match ToString errorMessage with
  | Ok msg => Ok (mkError "Error" msg (Some (status response)))
  | Throw e => Throw e
  end.

Definition loginRequest (env : Env) : Request :=
  mkRequest (API_BASE_URL env ++ "/auth/login") (Some "POST")
            [("Content-Type", "application/x-www-form-urlencoded")]
            (Some (FormBody [("username", AUTH_EMAIL env); ("password", AUTH_PASSWORD env)])).

(** [login]: the token it returns, as the string its callers print.
    [localStorage.setItem] converts the token to that string, and throws
    when the conversion does. *)
Definition login (env : Env) : M string :=
  response <- fetch (loginRequest env) ;;
  if negb (ok response) then
    e <- lift (handleApiError response) ;; throw e
  else
    data <- lift (response_json response) ;;
    token <- lift (getProp "access_token" data) ;;
    if negb (truthy token) then throw (Error "No access token received from login")
    else
      token' <- lift (match token with Some j => ToString j | None => Ok EmptyString end) ;;
      setAuthToken token' ;;; ret token'.

(** [ensureAuthenticated] *)
Definition ensureAuthenticated (env : Env) : M string :=
  token <- getAuthToken ;;
  match token with
  | Some t => if isEmpty t then login env else ret t
  | None => login env
  end.

Definition tokenPresent (token : option string) : bool :=
  match token with Some t => negb (isEmpty t) | None => false end.

Definition bearer (token : string) : string := "Bearer " ++ token.

(** The headers of the first request of [apiRequest]. *)
Definition requestHeaders (token : option string) (options : Options) : list (string * string) :=
  let headers := spread [("Content-Type", "application/json")] (o_headers options) in
  match token with
  | Some t => if isEmpty t then headers else setKey "Authorization" (bearer t) headers
  | None => headers
  end.

(** [{ ...options, headers }] sent to [url] *)
Definition requestOf (url : string) (options : Options) (headers : list (string * string)) : Request :=
  mkRequest url (o_method options) headers (o_body options).

(** [apiRequest] *)
Definition apiRequest (env : Env) (endpoint : string) (options : Options) : M Response :=
  token <- getAuthToken ;;
  let url := API_BASE_URL env ++ endpoint in
  let headers := requestHeaders token options in
  response <- fetch (requestOf url options headers) ;;
  if (status response =? 401) && tokenPresent token then
    tryCatch
      (newToken <- login env ;;
       let headers' := setKey "Authorization" (bearer newToken) headers in
       fetch (requestOf url options headers'))
      (fun loginError => ret response)
  else ret response.

(** [formatPhoneNumber] *)
Definition formatPhoneNumber (phone : string) : string :=
  let cleaned := removeAll (fun c => negb (isDigit c || Ascii.eqb c "+")) phone in
  if startsWith cleaned "+" then cleaned else "+" ++ cleaned.

(** [checkScheduledCall]: [None] is the [null] returned on a 404. *)
Definition checkScheduledCall (env : Env) (candidateId : string) : M (option json) :=
  response <- apiRequest env ("/schedule/candidates/" ++ candidateId ++ "/scheduled-call") noOptions ;;
  if negb (ok response) then
    if status response =? 404 then ret None
    else e <- lift (handleApiError response) ;; throw e
  else
    data <- lift (response_json response) ;; ret (Some data).

End Api.

(** ** [components/BookingPage.jsx]: phone numbers *)

Module Phone.
Import Js.

(** The table of [isValidUKPhone], in the order of the source. *)
Definition validPrefixes : list string :=
  [ "7";
    "20"; "23"; "24"; "28"; "29";
    "113"; "114"; "115"; "116"; "117"; "118"; "119";
    "121"; "131"; "141"; "151"; "161"; "171"; "181"; "191";
    "1" ].

(** [isValidUKPhone], with the prefix table as a parameter. *)
Definition isValidUKPhoneWith (prefixes : list string) (phone : string) : bool :=
  let cleaned := removeAll isWhiteSpace phone in
  if negb (startsWith cleaned "+44") then false
  else
    let nationalNumber := substring 3 cleaned in
    if (String.length nationalNumber <? 10)%nat || (11 <? String.length nationalNumber)%nat
    then false
    else existsb (fun prefix => startsWith nationalNumber prefix) prefixes.

Definition isValidUKPhone (phone : string) : bool :=
  isValidUKPhoneWith validPrefixes phone.

(** The national significant number [isValidUKPhone] measures. *)
Definition nationalNumber (phone : string) : string :=
  substring 3 (removeAll isWhiteSpace phone).

(** [confirmedPhoneNumber.replace(/^\+44/, '').replace(/\s/g, '').trim()] *)
Definition enteredDigits (confirmedPhoneNumber : string) : string :=
  trim (removeAll isWhiteSpace (removePrefix "+44" confirmedPhoneNumber)).

Definition isZero (c : ascii) : bool := Ascii.eqb c "0".

(** The string [handleConfirmSchedule] builds and validates:
    [digits.replace(/^0+/, '')] behind ['+44']. *)
Definition normalizePhone (confirmedPhoneNumber : string) : string :=
  "+44" ++ removeLeading isZero (enteredDigits confirmedPhoneNumber).

(** [handleConfirmSchedule] up to its [try]: either the message given to
    [setError], or the number handed to the call handlers. *)
Definition handleConfirmSchedule_phone (confirmedPhoneNumber : string)
  : string + string :=
  let digits := enteredDigits confirmedPhoneNumber in
  if isEmpty digits then inl "Please enter a valid UK phone number"
  else
    let phoneNumber := normalizePhone confirmedPhoneNumber in
    if negb (isValidUKPhone phoneNumber)
    then inl "Please enter a valid UK phone number (10-11 digits after +44)"
    else inr phoneNumber.

(** The [disabled] attribute of the modal's confirm button. *)
Definition confirmDisabled (isLoading isTriggeringCall : bool)
    (confirmedPhoneNumber : string) : bool :=
  if isLoading || isTriggeringCall then true
  else
    let digits := enteredDigits confirmedPhoneNumber in
    if isEmpty digits then true
    else negb (isValidUKPhone ("+44" ++ digits)).

(** The [onChange] handler of the phone input: digits only, at most 11. *)
Definition phoneInput_onChange (value confirmedPhoneNumber : string) : string :=
  let value' := removeAll (fun c => negb (isDigit c)) value in
  if (String.length value' <=? 11)%nat then value' else confirmedPhoneNumber.

End Phone.

(** ** [components/BookingPage.jsx]: state and handlers *)

Module BookingPage.
Import Js JsDate DateUtils Phone.

(** The body of the scheduled-call status endpoint, with the types of its
    contract: two booleans, a call that may be [null], a phone number that
    may be [null]; inside the call both fields may be missing. *)
Record NextScheduledCall := mkNext {
  scheduled : option string;
  call_status : option string
}.

Record StatusData := mkStatusData {
  has_scheduled_call : bool;
  next_scheduled_call : option NextScheduledCall;
  is_future : bool;
  candidate_phone_number : option string
}.

Record ScheduledCallInfo := mkInfo {
  scheduledTime : timeValue;
  isFuture : bool;
  info_status : option string
}.

(** The component's [useState] cells that the handlers below touch. *)
Record State := mkState {
  selectedDate : option LocalDate;
  selectedTime : option string;
  isSubmitted : bool;
  isLoading : bool;
  error : option string;
  bookingData : option (list (string * Api.json));
  scheduledCallInfo : option ScheduledCallInfo;
  candidatePhoneNumber : option string;
  isCheckingCall : bool;
  isTriggeringCall : bool;
  showConfirmationModal : bool;
  isImmediateCall : bool;
  confirmedPhoneNumber : string;
  isCanceling : bool
}.

Definition initialState : State :=
  mkState None None false false None None None None false false false false "" false.

Definition setSelectedDate v (s : State) : State :=
  mkState v (selectedTime s) (isSubmitted s) (isLoading s) (error s) (bookingData s)
    (scheduledCallInfo s) (candidatePhoneNumber s) (isCheckingCall s) (isTriggeringCall s)
    (showConfirmationModal s) (isImmediateCall s) (confirmedPhoneNumber s) (isCanceling s).
Definition setSelectedTime v (s : State) : State :=
  mkState (selectedDate s) v (isSubmitted s) (isLoading s) (error s) (bookingData s)
    (scheduledCallInfo s) (candidatePhoneNumber s) (isCheckingCall s) (isTriggeringCall s)
    (showConfirmationModal s) (isImmediateCall s) (confirmedPhoneNumber s) (isCanceling s).
Definition setIsSubmitted v (s : State) : State :=
  mkState (selectedDate s) (selectedTime s) v (isLoading s) (error s) (bookingData s)
    (scheduledCallInfo s) (candidatePhoneNumber s) (isCheckingCall s) (isTriggeringCall s)
    (showConfirmationModal s) (isImmediateCall s) (confirmedPhoneNumber s) (isCanceling s).
Definition setIsLoading v (s : State) : State :=
  mkState (selectedDate s) (selectedTime s) (isSubmitted s) v (error s) (bookingData s)
    (scheduledCallInfo s) (candidatePhoneNumber s) (isCheckingCall s) (isTriggeringCall s)
    (showConfirmationModal s) (isImmediateCall s) (confirmedPhoneNumber s) (isCanceling s).
Definition setError v (s : State) : State :=
  mkState (selectedDate s) (selectedTime s) (isSubmitted s) (isLoading s) v (bookingData s)
    (scheduledCallInfo s) (candidatePhoneNumber s) (isCheckingCall s) (isTriggeringCall s)
    (showConfirmationModal s) (isImmediateCall s) (confirmedPhoneNumber s) (isCanceling s).
Definition setBookingData v (s : State) : State :=
  mkState (selectedDate s) (selectedTime s) (isSubmitted s) (isLoading s) (error s) v
    (scheduledCallInfo s) (candidatePhoneNumber s) (isCheckingCall s) (isTriggeringCall s)
    (showConfirmationModal s) (isImmediateCall s) (confirmedPhoneNumber s) (isCanceling s).
Definition setScheduledCallInfo v (s : State) : State :=
  mkState (selectedDate s) (selectedTime s) (isSubmitted s) (isLoading s) (error s) (bookingData s)
    v (candidatePhoneNumber s) (isCheckingCall s) (isTriggeringCall s)
    (showConfirmationModal s) (isImmediateCall s) (confirmedPhoneNumber s) (isCanceling s).
Definition setCandidatePhoneNumber v (s : State) : State :=
  mkState (selectedDate s) (selectedTime s) (isSubmitted s) (isLoading s) (error s) (bookingData s)
    (scheduledCallInfo s) v (isCheckingCall s) (isTriggeringCall s)
    (showConfirmationModal s) (isImmediateCall s) (confirmedPhoneNumber s) (isCanceling s).
Definition setIsCheckingCall v (s : State) : State :=
  mkState (selectedDate s) (selectedTime s) (isSubmitted s) (isLoading s) (error s) (bookingData s)
    (scheduledCallInfo s) (candidatePhoneNumber s) v (isTriggeringCall s)
    (showConfirmationModal s) (isImmediateCall s) (confirmedPhoneNumber s) (isCanceling s).
Definition setIsTriggeringCall v (s : State) : State :=
  mkState (selectedDate s) (selectedTime s) (isSubmitted s) (isLoading s) (error s) (bookingData s)
    (scheduledCallInfo s) (candidatePhoneNumber s) (isCheckingCall s) v
    (showConfirmationModal s) (isImmediateCall s) (confirmedPhoneNumber s) (isCanceling s).
Definition setShowConfirmationModal v (s : State) : State :=
  mkState (selectedDate s) (selectedTime s) (isSubmitted s) (isLoading s) (error s) (bookingData s)
    (scheduledCallInfo s) (candidatePhoneNumber s) (isCheckingCall s) (isTriggeringCall s)
    v (isImmediateCall s) (confirmedPhoneNumber s) (isCanceling s).
Definition setIsImmediateCall v (s : State) : State :=
  mkState (selectedDate s) (selectedTime s) (isSubmitted s) (isLoading s) (error s) (bookingData s)
    (scheduledCallInfo s) (candidatePhoneNumber s) (isCheckingCall s) (isTriggeringCall s)
    (showConfirmationModal s) v (confirmedPhoneNumber s) (isCanceling s).
Definition setConfirmedPhoneNumber v (s : State) : State :=
  mkState (selectedDate s) (selectedTime s) (isSubmitted s) (isLoading s) (error s) (bookingData s)
    (scheduledCallInfo s) (candidatePhoneNumber s) (isCheckingCall s) (isTriggeringCall s)
    (showConfirmationModal s) (isImmediateCall s) v (isCanceling s).
Definition setIsCanceling v (s : State) : State :=
  mkState (selectedDate s) (selectedTime s) (isSubmitted s) (isLoading s) (error s) (bookingData s)
    (scheduledCallInfo s) (candidatePhoneNumber s) (isCheckingCall s) (isTriggeringCall s)
    (showConfirmationModal s) (isImmediateCall s) (confirmedPhoneNumber s) v.

(** A string that may be [null], used as a condition. *)
Definition present (v : option string) : bool :=
  match v with Some s => negb (isEmpty s) | None => false end.

(** The phone number of the response, brought to the +44 form. *)
Definition withCountryCode (phone : string) : string :=
  if startsWith phone "44" && negb (startsWith phone "+44") then "+" ++ phone
  else if startsWith phone "0" then "+44" ++ substring 1 phone
  else phone.

(** [callStatus !== 'CANCELED' && callStatus !== 'CANCELLED'] *)
Definition notCanceled (callStatus : option string) : bool :=
  match callStatus with
  | Some s => negb (String.eqb s "CANCELED") && negb (String.eqb s "CANCELLED")
  | None => true
  end.

(** [scheduledTime && scheduledTime > new Date()], the clock reading [now]:
    [None] is the [null] of a missing instant, [Some None] an invalid date,
    which compares false. *)
Definition laterThan (now : Z) (scheduledTime : option timeValue) : bool :=
  match scheduledTime with
  | Some (Some t) => now <? t
  | _ => false
  end.

(** The [if (data && data.has_scheduled_call === true && ...)] of
    [loadScheduledCall]: the value given to [setScheduledCallInfo]. *)
Definition scheduledCallInfoOf {engine : Engine} (now : Z) (data : option StatusData)
  : option ScheduledCallInfo :=
  match data with
  | Some d =>
      match Bool.eqb (has_scheduled_call d) true, next_scheduled_call d with
      | true, Some next =>
          let callStatus := option_map toUpperCase (call_status next) in
          let scheduledTime :=
            match scheduled next with
            | Some s => if isEmpty s then None else Some (new_Date s)
            | None => None
            end in
          let isFuture := is_future d in
          if notCanceled callStatus && isFuture && laterThan now scheduledTime
          then Some (mkInfo (match scheduledTime with Some t => t | None => None end)
                            isFuture (call_status next))
          else None
      | _, _ => None
      end
  | None => None
  end.

(** [loadScheduledCall]; [fetched] is what [await checkScheduledCall]
    gives, [now] the clock when the instant is compared. *)
Definition loadScheduledCall {engine : Engine} (candidateId : option string) (now : Z)
    (fetched : result (option StatusData)) (st : State) : State :=
  if negb (present candidateId) then st
  else
    let st1 := setIsCheckingCall true st in
    let st2 :=
      match fetched with
      | Ok data =>
          let phoneOfData :=
            match data with Some d => candidate_phone_number d | None => None end in
          let st' :=
            if present phoneOfData then
              let phone :=
                withCountryCode (match phoneOfData with Some p => p | None => EmptyString end) in
              setConfirmedPhoneNumber (removePrefix "+44" phone)
                (setCandidatePhoneNumber (Some phone) st1)
            else
              setConfirmedPhoneNumber EmptyString (setCandidatePhoneNumber None st1) in
          setScheduledCallInfo (scheduledCallInfoOf now data) st'
      | Throw err => setScheduledCallInfo None st1
      end in
    setIsCheckingCall false st2.

(** [handleDateSelect] and [handleTimeSelect], scrolling apart. *)
Definition handleDateSelect (date : LocalDate) (st : State) : State :=
  setShowConfirmationModal false
    (setError None (setSelectedTime None (setSelectedDate (Some date) st))).

Definition handleTimeSelect (time : string) (st : State) : State :=
  setError None (setSelectedTime (Some time) st).

(** [err.message || fallback] *)
Definition messageOr (err : JsError) (fallback : string) : string :=
  if isEmpty (message err) then fallback else message err.

(** The body of the cancel endpoint. *)
Record CancelResult := mkCancelResult { canceled_count : Z }.

(** [handleCancelScheduledCall]; [confirmed] is the answer to
    [window.confirm], [canceled] what [await cancelScheduledCall] gives,
    [fetched] and [now] serve the reload that follows a cancellation. *)
Definition handleCancelScheduledCall {engine : Engine}
    (candidateId : option string) (confirmed : bool)
    (canceled : result CancelResult) (now : Z) (fetched : result (option StatusData))
    (st : State) : State :=
  if negb (present candidateId) then
    setError (Some "Missing required parameter: candidate_id must be provided") st
  else if negb confirmed then st
  else
    let st1 := setError None (setIsCanceling true st) in
    let st2 :=
      match canceled with
      | Ok result =>
          if 0 <? canceled_count result then
            setSelectedTime None
              (setSelectedDate None (loadScheduledCall candidateId now fetched st1))
          else setError (Some "No scheduled calls found to cancel") st1
      | Throw err =>
          setError (Some (messageOr err "Failed to cancel call. Please try again.")) st1
      end in
    setIsCanceling false st2.

(** The conversion inside [handleScheduleCall]: the instant given to the
    API for a selected date and a parsed label. *)
Definition selectedDateTime (selectedDate : LocalDate) (hours minutes : Z) : result timeValue :=
  let year := getFullYear selectedDate in
  let month := getMonth selectedDate in
  let day := getDate selectedDate in
  let ukTimeMs := Date_UTC year month day hours minutes in
  match formatToParts_London ukTimeMs with
  | Throw e => Throw e
  | Ok ukDisplay =>
      number (parseInt (partValue "hour" ukDisplay)) (fun displayedUKHour =>
      number (parseInt (partValue "minute" ukDisplay)) (fun displayedUKMinute =>
      number ukTimeMs (fun ukTime =>
      let hourOffset := hours - displayedUKHour in
      let minuteOffset := minutes - displayedUKMinute in
      let totalOffsetMs := (hourOffset * 60 + minuteOffset) * 60000 in
      Ok (TimeClip (ukTime - totalOffsetMs)))))
  end.

(** The argument of [scheduleCall]. *)
Record ScheduleCallData := mkScheduleCallData {
  candidate_id : string;
  candidate_phone_number_ : string;
  scheduled_datetime : string
}.

(** [phoneNumberToUse || confirmedPhoneNumber] *)
Definition phoneToUse (phoneNumberToUse : option string) (st : State) : string :=
  match phoneNumberToUse with
  | Some p => if isEmpty p then confirmedPhoneNumber st else p
  | None => confirmedPhoneNumber st
  end.

Definition existingFuture (st : State) : bool :=
  match scheduledCallInfo st with Some i => isFuture i | None => false end.

(** [handleScheduleCall].  [confirmed] answers [window.confirm] when a
    future call exists, [scheduleCall] is the API call, [fetched] what the
    reload receives; [now] is the clock at the past check, [later] the clock
    at the reload.  The result is the new state and the data sent, if any;
    an exception of the formatter is not caught by the handler. *)
Definition handleScheduleCall {engine : Engine} (candidateId : option string)
    (phoneNumberToUse : option string) (now : Z) (confirmed : bool)
    (scheduleCall : ScheduleCallData -> result (list (string * Api.json)))
    (later : Z) (fetched : result (option StatusData)) (st : State)
  : result (State * option ScheduleCallData) :=
  let phoneNumber := phoneToUse phoneNumberToUse st in
  match candidateId with
  | Some cid =>
    if isEmpty cid then
      Ok (setError (Some "Missing required parameter: candidate_id must be provided") st, None)
    else if isEmpty (trim phoneNumber) then
      Ok (setError (Some "Please enter a valid phone number") st, None)
    else
      match selectedDate st, selectedTime st with
      | Some date, Some label =>
        if isEmpty label then Ok (setError (Some "Please select both a date and time") st, None)
        else
        match timeMatch label with
        | None => Ok (setError (Some "Invalid time format") st, None)
        | Some (m1, m2, m3) =>
            number (parseInt m1) (fun hours0 =>
            number (parseInt m2) (fun minutes =>
            let hours := to24Hour (toUpperCase m3) hours0 in
            match selectedDateTime date hours minutes with
            | Throw e => Throw e
            | Ok instant =>
                if match instant with Some t => t <=? now | None => false end then
                  Ok (setError (Some "Cannot schedule a call in the past") st, None)
                else if existingFuture st && negb confirmed then Ok (st, None)
                else
                  let st1 := setError None (setIsLoading true st) in
                  match toISOString instant with
                  | Throw err =>
                      Ok (setIsLoading false
                            (setError (Some (messageOr err "Failed to schedule call. Please try again.")) st1),
                          None)
                  | Ok scheduledDatetime =>
                      let data := mkScheduleCallData cid phoneNumber scheduledDatetime in
                      match scheduleCall data with
                      | Ok result =>
                          let booking :=
                            Api.setKey "status" (Api.JStr "SCHEDULED")
                              (Api.setKey "scheduled_at" (Api.JStr scheduledDatetime) result) in
                          let st2 := setIsSubmitted true (setBookingData (Some booking) st1) in
                          let st3 := loadScheduledCall candidateId later fetched st2 in
                          Ok (setIsLoading false (setShowConfirmationModal false st3), Some data)
                      | Throw err =>
                          Ok (setIsLoading false
                                (setError (Some (messageOr err "Failed to schedule call. Please try again.")) st1),
                              Some data)
                      end
                  end
            end))
        end
      | _, _ => Ok (setError (Some "Please select both a date and time") st, None)
      end
  | None =>
      Ok (setError (Some "Missing required parameter: candidate_id must be provided") st, None)
  end.

(** The [disabled] attribute of the modal's confirm button, on a state. *)
Definition confirmButtonDisabled (st : State) : bool :=
  confirmDisabled (isLoading st) (isTriggeringCall st) (confirmedPhoneNumber st).

End BookingPage.

(** ** The vocabulary of the properties and the sample inputs *)

Module PhoneTerms.
Import Js Phone.

(** No code unit of [s] is in the class. *)
Fixpoint hasNone (cls : ascii -> bool) (s : string) : bool :=
  match s with
  | EmptyString => true
  | String c r => negb (cls c) && hasNone cls r
  end.

(** The prefixes that decide the outcome. *)
Definition decidingPrefixes : list string :=
  [ "7"; "1"; "20"; "23"; "24"; "28"; "29" ].

(** The table without its three-digit city codes. *)
Definition withoutCityCodes : list string :=
  filter (fun p => negb (String.length p =? 3)%nat) validPrefixes.

(** The code units [formatPhoneNumber] removes. *)
Definition dropped (c : ascii) : bool := negb (isDigit c || Ascii.eqb c "+").

End PhoneTerms.

Module ScheduledCallTerms.
Import Js JsDate DateUtils BookingPage.

(** A status that reads CANCELED or CANCELLED once letter case is
    ignored. *)
Definition canceledSpelling (s : string) : Prop :=
  toUpperCase s = "CANCELED" \/ toUpperCase s = "CANCELLED".

(** A status answer with a scheduled call that is to come. *)
Definition futureCall : StatusData :=
  mkStatusData true (Some (mkNext (Some "2025-03-10T14:30:00Z") (Some "SCHEDULED")))
               true (Some "07700123456").

End ScheduledCallTerms.

Module ApiTerms.
Import Js Api.

(** The token a login answer grants: the answer is a 2xx response whose
    JSON body is an object with a truthy [access_token] that can be
    converted to a string. *)
Definition grantedToken (answer : FetchOutcome) : option string :=
  match answer with
  | Fulfilled r =>
      if ok r then
        match jsonBody r with
        | Some (JObj fields) =>
            match lookup "access_token" fields with
            | Some j =>
                if truthy (Some j) then
                  match ToString j with Ok tok => Some tok | Throw _ => None end
                else None
            | None => None
            end
        | _ => None
        end
      else None
  | Rejected _ => None
  end.

(** The world once the requests [reqs] have been sent. *)
Definition after (w : World) (reqs : list Request) : World :=
  mkWorld (auth_token w) (sent w ++ reqs) (network w).

(** A network that wants the token [fresh]: the login grants it, any other
    request is refused with a 401 unless it carries it. *)
Definition demoNetwork (_ : list Request) (req : Request) : FetchOutcome :=
  if String.eqb (url req) "http://localhost:8000/auth/login" then
    Fulfilled (mkResponse 200 "OK" (Some (JObj [("access_token", JStr "fresh")])))
  else if existsb (fun kv => String.eqb (fst kv) "Authorization"
                             && String.eqb (snd kv) "Bearer fresh") (headers req)
  then Fulfilled (mkResponse 200 "OK" (Some (JObj [("has_scheduled_call", JBool false)])))
  else Fulfilled (mkResponse 401 "Unauthorized"
                    (Some (JObj [("detail", JStr "Could not validate credentials")]))).

(** A world with a stale token stored and nothing sent yet. *)
Definition demoEnv : Env := mkEnv None None None.
Definition demoWorld : World := mkWorld (Some "stale") [] demoNetwork.
Definition demoRequest (token : string) : Request :=
  mkRequest "http://localhost:8000/schedule" None
    [("Content-Type", "application/json"); ("Authorization", bearer token)] None.

(** The status line of a response. *)
Definition statusLine (response : Response) : string :=
  "HTTP " ++ String_ (status response) ++ ": " ++ statusText response.

(** The message as the specification words it: the [detail] of the body
    when there is one, the body itself when it is a string, otherwise the
    status line. *)
Definition messageAsStated (response : Response) : result string :=
  match jsonBody response with
  | Some (JObj fields) =>
      match lookup "detail" fields with
      | Some d => ToString d
      | None => Ok (statusLine response)
      end
  | Some (JStr s) => Ok s
  | _ => Ok (statusLine response)
  end.

(** The [detail] that [handleApiError] makes the message: the truthy
    [detail] of a body that is an object. *)
Definition detailOf (response : Response) : option json :=
  match jsonBody response with
  | Some (JObj fields) =>
      match lookup "detail" fields with
      | Some d => if truthy (Some d) then Some d else None
      | None => None
      end
  | _ => None
  end.

(** The value converts to a string. *)
Definition printable (j : json) : bool :=
  match ToString j with Ok _ => true | Throw _ => false end.

(** The body has a [detail] that does not convert to a string: an object
    with a [toString] key of its own, or an array that holds one. *)
Definition unprintableDetail (response : Response) : bool :=
  match detailOf response with
  | Some d => negb (printable d)
  | None => false
  end.

(** Induction on a JSON value, the items of an array included. *)
Section JsonInduction.
Variable P : json -> Prop.
Hypothesis Hnull : P JNull.
Hypothesis Hbool : forall b, P (JBool b).
Hypothesis Hnum : forall shown, P (JNum shown).
Hypothesis Hstr : forall s, P (JStr s).
Hypothesis Harr : forall items, Forall P items -> P (JArr items).
Hypothesis Hobj : forall fields, P (JObj fields).

Fixpoint json_items_ind (j : json) : P j :=
  match j with
  | JNull => Hnull
  | JBool b => Hbool b
  | JNum shown => Hnum shown
  | JStr s => Hstr s
  | JArr items =>
      Harr items
        ((fix all (l : list json) : Forall P l :=
            match l with
            | [] => Forall_nil P
            | x :: rest => Forall_cons x (json_items_ind x) (all rest)
            end) items)
  | JObj fields => Hobj fields
  end.

End JsonInduction.

End ApiTerms.

Module DateTerms.
Import Js JsDate DateUtils TimeSlotSelector.

(** The en-GB long date of a selected date, as the display prints it. *)
Definition longDateOf (d : LocalDate) : string :=
  let day := daysFromCivil (getFullYear d) (getMonth d + 1) (getDate d) in
  enGB_longDate (weekDay day) (getFullYear d) (getMonth d + 1) (getDate d).

(** The en-GB 12-hour time of a slot, as the display prints it. *)
Definition wallClockOf (slot : Slot) : string := enGB_time12 (hour slot) (minute slot).

(** Converting the selection and formatting the result gives the selected
    date and the slot's time back. *)
Definition roundTrips {engine : Engine} (d : LocalDate) (slot : Slot) : bool :=
  match convertToISO8601 d (timeString slot) with
  | Ok iso =>
      let shown := formatISO8601ForDisplay iso in
      String.eqb (date shown) (longDateOf d) && String.eqb (time shown) (wallClockOf slot)
  | Throw _ => false
  end.

(** A number below 60 survives being printed on two digits and read back,
    by [parseInt] and by [Number]. *)
Definition twoDigitOk (n : Z) : bool :=
  match parseInt (padStart0 2 (String_ n)), ToNumber (padStart0 2 (String_ n)) with
  | Some a, Some b => (a =? n) && (b =? n)
  | _, _ => false
  end.

(** The label of a slot is read back as the slot's hour and minute. *)
Definition slotOk (slot : Slot) : bool :=
  match timeMatch (timeString slot) with
  | Some (m1, m2, m3) =>
      match parseInt m1, parseInt m2 with
      | Some h0, Some m =>
          (to24Hour (toUpperCase m3) h0 =? hour slot) && (m =? minute slot)
          && (0 <=? hour slot) && (hour slot <? 24)
          && (0 <=? minute slot) && (minute slot <? 60)
      | _, _ => false
      end
  | None => false
  end.

(** What [convertToISO8601] adds to the reference instant [ref], which
    reads the selected fields at offset 0: nothing in winter, minus one
    hour in summer before 23:00, plus 23 hours in summer from 23:00 on. *)
Definition shift (ref hour : Z) : Z :=
  if londonOffset ref =? 0 then 0
  else if hour <? 23 then - msPerHour
  else 23 * msPerHour.

(** Sample dates: [getMonth] counts from 0. *)
Definition march10 : LocalDate := mkLocalDate 2025 2 10.
Definition july15 : LocalDate := mkLocalDate 2025 6 15.
Definition january15 : LocalDate := mkLocalDate 2025 0 15.

End DateTerms.

Module ScheduleTerms.
Import Js JsDate DateUtils BookingPage.
Import DateTerms.

(** 2025-03-10T14:30:00Z in milliseconds. *)
Definition halfPastTwo : Z := 1741617000000.

(** A state with a date, a slot and a phone number chosen. *)
Definition readyState : State :=
  setConfirmedPhoneNumber "7700123456"
    (setSelectedTime (Some "2:30 PM") (setSelectedDate (Some march10) initialState)).

End ScheduleTerms.

Module CancelTerms.
Import Js JsDate DateUtils BookingPage.

(** A state with a date and a slot chosen. *)
Definition pickedState : State :=
  setSelectedTime (Some "2:30 PM")
    (setSelectedDate (Some (mkLocalDate 2025 2 10)) initialState).

End CancelTerms.

(** ** More of the sources *)

(** *** [components/TimeSlotSelector.jsx]: the slots offered and their
    groups *)

Module SlotSelector.
Import Js JsDate DateUtils TimeSlotSelector.

Definition popularTimes : list string :=
  ["9:00 AM"; "10:00 AM"; "11:00 AM"; "12:00 PM"; "1:00 PM"; "2:00 PM";
   "3:00 PM"; "4:00 PM"; "5:00 PM"; "6:00 PM"].




Record Groups := mkGroups {
  popular : list Slot;
  morning : list Slot;
  afternoon : list Slot;
  evening : list Slot;
  night : list Slot
}.

(** [popularTimes.includes(slot.timeString)] *)
Definition isPopular (slot : Slot) : bool :=
  existsb (String.eqb (timeString slot)) popularTimes.

(** The body of the [forEach] of [groupedSlots]: the slot is pushed onto
    one group. *)
Definition pushSlot (groups : Groups) (slot : Slot) : Groups :=
  if isPopular slot then
    mkGroups (popular groups ++ [slot]) (morning groups) (afternoon groups)
             (evening groups) (night groups)
  else if (6 <=? hour slot) && (hour slot <? 12) then
    mkGroups (popular groups) (morning groups ++ [slot]) (afternoon groups)
             (evening groups) (night groups)
  else if (12 <=? hour slot) && (hour slot <? 18) then
    mkGroups (popular groups) (morning groups) (afternoon groups ++ [slot])
             (evening groups) (night groups)
  else if (18 <=? hour slot) && (hour slot <? 24) then
    mkGroups (popular groups) (morning groups) (afternoon groups)
             (evening groups ++ [slot]) (night groups)
  else
    mkGroups (popular groups) (morning groups) (afternoon groups)
             (evening groups) (night groups ++ [slot]).

(** [groupedSlots] *)
Definition groupedSlots (validSlots : list Slot) : Groups :=
  fold_left pushSlot validSlots (mkGroups [] [] [] [] []).

(** [toggleGroup]: the new value of [expandedGroups]. *)
Definition toggleGroup (groupName : string) (prev : list string) : list string :=
  if existsb (String.eqb groupName) prev
  then filter (fun g => negb (String.eqb g groupName)) prev
  else prev ++ [groupName].

End SlotSelector.

(** *** [components/BookingPage.jsx]: the phone input of the modal *)

Module PhoneInput.
Import Js Phone.

(** The [value] of the input. *)
Definition inputValue (confirmedPhoneNumber : string) : string :=
  removeAll isWhiteSpace (removePrefix "+44" confirmedPhoneNumber).

(** The [onBlur] handler, the input showing [inputValue]: the new
    [confirmedPhoneNumber]. *)
Definition onBlur (confirmedPhoneNumber : string) : string :=
  let digits := removeAll isWhiteSpace (inputValue confirmedPhoneNumber) in
  if isEmpty digits then confirmedPhoneNumber else "+44" ++ digits.

(** The validation line under the input: [None] when it is not rendered,
    otherwise whether it reads as valid. *)
Definition validationHint (confirmedPhoneNumber : string) : option bool :=
  if negb (isEmpty confirmedPhoneNumber)
     && (0 <? String.length (removeAll isWhiteSpace (removePrefix "+44" confirmedPhoneNumber)))%nat
  then
    let digits := removeAll isWhiteSpace (removePrefix "+44" confirmedPhoneNumber) in
    let fullNumber := "+44" ++ digits in
    Some (isValidUKPhone fullNumber)
  else None.

End PhoneInput.

(** *** [components/BookingPage.jsx]: the confirmation and the immediate
    call *)

Module BookingFlows.
Import Js JsDate DateUtils Phone BookingPage.

(** The argument of [triggerImmediateCall]. *)
Record ImmediateCallData := mkImmediateCallData {
  ic_candidate_id : option string;
  ic_candidate_phone_number : string
}.

(** [handleImmediateCallConfirm]; [triggerImmediateCall] is the API call,
    [later] and [fetched] serve the reload. *)
Definition handleImmediateCallConfirm {engine : Engine}
    (candidateId : option string) (phoneNumber : string)
    (triggerImmediateCall : ImmediateCallData -> result (list (string * Api.json)))
    (later : Z) (fetched : result (option StatusData)) (st : State) : State :=
  let st1 := setError None (setIsTriggeringCall true st) in
  let st2 :=
    match triggerImmediateCall (mkImmediateCallData candidateId phoneNumber) with
    | Ok result =>
        let booking := Api.setKey "status" (Api.JStr "TRIGGERED") result in
        let st' := setIsSubmitted true (setBookingData (Some booking) st1) in
        setShowConfirmationModal false (loadScheduledCall candidateId later fetched st')
    | Throw err =>
        setError (Some (messageOr err "Failed to trigger call. Please try again.")) st1
    end in
  setIsLoading false (setIsImmediateCall false (setIsTriggeringCall false st2)).

(** What a run of [handleConfirmSchedule] hands to the API. *)
Inductive Sent : Type :=
| NothingSent
| ScheduledSent (data : ScheduleCallData)
| ImmediateSent (data : ImmediateCallData).

(** [handleConfirmSchedule]: the phone number is checked, then the
    scheduling or the immediate call runs inside a [try] whose [catch]
    resets [isLoading]. *)
Definition handleConfirmSchedule {engine : Engine}
    (candidateId : option string) (now : Z) (confirmed : bool)
    (scheduleCall : ScheduleCallData -> result (list (string * Api.json)))
    (triggerImmediateCall : ImmediateCallData -> result (list (string * Api.json)))
    (later : Z) (fetched : result (option StatusData)) (st : State) : State * Sent :=
  match handleConfirmSchedule_phone (confirmedPhoneNumber st) with
  | inl msg => (setError (Some msg) st, NothingSent)
  | inr phoneNumber =>
      let st1 := setIsLoading true (setError None st) in
      if isImmediateCall st then
        (handleImmediateCallConfirm candidateId phoneNumber triggerImmediateCall later fetched st1,
         ImmediateSent (mkImmediateCallData candidateId phoneNumber))
      else
        match handleScheduleCall candidateId (Some phoneNumber) now confirmed
                scheduleCall later fetched st1 with
        | Ok (st2, Some data) => (st2, ScheduledSent data)
        | Ok (st2, None) => (st2, NothingSent)
        | Throw err => (setIsLoading false st1, NothingSent)
        end
  end.

(** [handleCancelConfirmation] *)
Definition handleCancelConfirmation (st : State) : State :=
  setError None (setIsImmediateCall false (setShowConfirmationModal false st)).

(** [handleImmediateCall]; [fetched] is what [await checkScheduledCall]
    gives when the phone number is not known yet. *)
Definition handleImmediateCall (candidateId : option string)
    (fetched : result (option StatusData)) (st : State) : State :=
  if negb (present candidateId) then
    setError (Some "Missing required parameter: candidate_id must be provided") st
  else
    let openModal (s : State) : State :=
      setError None (setShowConfirmationModal true (setIsImmediateCall true s)) in
    if present (candidatePhoneNumber st) then
      let phone :=
        withCountryCode (match candidatePhoneNumber st with Some p => p | None => EmptyString end) in
      openModal (setConfirmedPhoneNumber (removePrefix "+44" phone) st)
    else
      let st1 := setIsTriggeringCall true st in
      match fetched with
      | Ok data =>
          let phoneOfData :=
            match data with Some d => candidate_phone_number d | None => None end in
          if negb (present phoneOfData) then
            setIsTriggeringCall false
              (setError (Some "Candidate has no phone number. Cannot make a call.") st1)
          else
            let phoneNumberToUse :=
              match phoneOfData with Some p => p | None => EmptyString end in
            let phone := withCountryCode phoneNumberToUse in
            openModal
              (setIsTriggeringCall false
                 (setConfirmedPhoneNumber (removePrefix "+44" phone)
                    (setCandidatePhoneNumber (Some phoneNumberToUse) st1)))
      | Throw err =>
          setIsTriggeringCall false
            (setError (Some "Failed to get candidate information. Please try again.") st1)
      end.

(** Whether the confirmation modal is rendered. *)
Definition confirmationModalShown (st : State) : bool :=
  showConfirmationModal st &&
  (isImmediateCall st ||
   (match selectedDate st with Some _ => true | None => false end && present (selectedTime st))).

End BookingFlows.

(** *** [main.jsx]: the start of the application *)

Module Startup.
Import Js Api.

(** [main.jsx]: the application is rendered when [ensureAuthenticated]
    resolves, and in the [catch] when it rejects; the result tells whether
    it was rendered. *)
Definition main (env : Env) : M bool :=
  tryCatch (bindM (ensureAuthenticated env) (fun _ => ret true))
           (fun error => ret true).

End Startup.

(** *** More vocabulary *)

Module FlowTerms.
Import Js JsDate DateUtils BookingPage.

(** The selection, the booking shown, the scheduled call, the phone numbers
    and the modal are the same in both states. *)
Definition keepsBooking (st st' : State) : Prop :=
  selectedDate st' = selectedDate st /\
  selectedTime st' = selectedTime st /\
  isSubmitted st' = isSubmitted st /\
  bookingData st' = bookingData st /\
  scheduledCallInfo st' = scheduledCallInfo st /\
  candidatePhoneNumber st' = candidatePhoneNumber st /\
  confirmedPhoneNumber st' = confirmedPhoneNumber st /\
  showConfirmationModal st' = showConfirmationModal st.

(** What [loadScheduledCall] never touches. *)
Definition keepsForm (st st' : State) : Prop :=
  selectedDate st' = selectedDate st /\
  selectedTime st' = selectedTime st /\
  isSubmitted st' = isSubmitted st /\
  isLoading st' = isLoading st /\
  error st' = error st /\
  bookingData st' = bookingData st /\
  isTriggeringCall st' = isTriggeringCall st /\
  showConfirmationModal st' = showConfirmationModal st /\
  isImmediateCall st' = isImmediateCall st /\
  isCanceling st' = isCanceling st.

(** A state ready for the confirm button: a slot of 10 March 2025 chosen
    and a valid number typed. *)
Definition confirmState : State :=
  setShowConfirmationModal true
    (setConfirmedPhoneNumber "7700123456"
       (setSelectedTime (Some "2:30 PM")
          (setSelectedDate (Some (mkLocalDate 2025 2 10)) initialState))).

End FlowTerms.

Module SlotTerms.
Import Js JsDate DateUtils TimeSlotSelector SlotSelector.

(** A slot that is not a popular time and whose hour is in [lo, hi). *)
Definition inPeriod (lo hi : Z) (slot : Slot) : bool :=
  negb (isPopular slot) && (lo <=? hour slot) && (hour slot <? hi).

(** A slot that is not a popular time and whose hour is outside [6, 24). *)
Definition atNight (slot : Slot) : bool :=
  negb (isPopular slot) && negb ((6 <=? hour slot) && (hour slot <? 24)).



End SlotTerms.

Module CalendarTerms.
Import Js JsDate.

(** A leap year of the Gregorian calendar. *)
Definition leapYear (y : Z) : bool :=
  (y mod 4 =? 0) && (negb (y mod 100 =? 0) || (y mod 400 =? 0)).

(** The number of days of month [m] (from 1) of year [y]. *)
Definition monthLength (y m : Z) : Z :=
  if m =? 2 then (if leapYear y then 29 else 28)
  else if (m =? 4) || (m =? 6) || (m =? 9) || (m =? 11) then 30
  else 31.

End CalendarTerms.

Module DisplayTerms.
Import Js JsDate DateUtils TimeSlotSelector BookingPage.
Import DateTerms.

(** The value of a decimal numeral. *)
Definition valueOf (d : Decimal.uint) : Z := Z.of_N (Pos.of_uint d).

(** The number of digits of a numeral. *)
Definition size (d : Decimal.uint) : Z := Z.of_nat (Decimal.nb_digits d).

(** The fraction of a second as [toISOString] prints it, followed by Z:
    three digits, which is where the run of digits ends. *)
Definition fractionOk (ms : Z) : bool :=
  let r := pad 3 ms ++ "Z" in
  (String.length r - String.length (removeLeading isDigit r) =? 3)%nat &&
  String.eqb (removeLeading isDigit r) "Z".

(** What the display shows of the instant [t]. *)
Definition shownInLondon (t : Z) : Display :=
  mkDisplay (toLocaleDateString_London (Some t)) (toLocaleTimeString_London (Some t))
            "Europe/London".

(** The first instant of year 0 and the first instant of year 10000. *)
Definition year0 : Z := -62167219200000.
Definition year10000 : Z := 253402300800000.

(** A date of the calendar in the years 1996 to 9999: the years of the
    zone rule of [londonOffset], which [toISOString] prints on four
    digits. *)
Definition validDate (d : LocalDate) : bool :=
  (1996 <=? getFullYear d) && (getFullYear d <=? 9999) &&
  (0 <=? getMonth d) && (getMonth d <=? 11) &&
  (1 <=? getDate d) && (getDate d <=? daysInMonth (getFullYear d) (getMonth d + 1)).

(** A state with a slot of 15 July 2025 chosen. *)
Definition summerState : State :=
  setConfirmedPhoneNumber "7700123456"
    (setSelectedTime (Some "2:30 PM") (setSelectedDate (Some july15) initialState)).

End DisplayTerms.

(** ** The date picker *)

Module DatePicker.
Import Js JsDate.

(** A [Date] of the viewer's zone as the picker uses it: the day number of
    its local calendar day.  The picker reads the year, the month, the day
    of the month and the day of the week of its dates, and compares dates
    set to the start of their day. *)
Definition LocalDay := Z.

(** [new Date(year, month, date)] *)
Definition newDate (year month date : Z) : LocalDay :=
  MakeDay (if (0 <=? year) && (year <=? 99) then 1900 + year else year) month date.

Definition getFullYear (d : LocalDay) : Z := let '(y, _, _) := civilFromDays d in y.
Definition getMonth (d : LocalDay) : Z := let '(_, m, _) := civilFromDays d in m - 1.
Definition getDate (d : LocalDay) : Z := let '(_, _, day) := civilFromDays d in day.
Definition getDay (d : LocalDay) : Z := weekDay d.

(** The integers from 1 to [n], the values of the loop variable [i]. *)
Definition upTo (n : Z) : list Z := map Z.of_nat (seq 1 (Z.to_nat n)).

(** [getDaysInMonth]; [None] is an empty cell. *)
Definition getDaysInMonth (date : LocalDay) : list (option LocalDay) :=
  let year := getFullYear date in
  let month := getMonth date in
  let firstDay := newDate year month 1 in
  let lastDay := newDate year (month + 1) 0 in
  let daysInMonth := getDate lastDay in
  let startingDayOfWeek := getDay firstDay in
  (repeat None (Z.to_nat startingDayOfWeek)
   ++ map (fun i => Some (newDate year month i)) (upTo daysInMonth))%list.

(** [isPastDate]; [today] is the start of the current day. *)
Definition isPastDate (today : LocalDay) (date : option LocalDay) : bool :=
  match date with
  | None => false
  | Some d => d <? today
  end.

(** [handleDateClick]: the date handed to [onDateSelect], if any. *)
Definition handleDateClick (today : LocalDay) (date : option LocalDay) : option LocalDay :=
  match date with
  | Some d => if negb (isPastDate today date) then Some d else None
  | None => None
  end.

Definition goToPreviousMonth (currentMonth : LocalDay) : LocalDay :=
  newDate (getFullYear currentMonth) (getMonth currentMonth - 1) 1.

Definition goToNextMonth (currentMonth : LocalDay) : LocalDay :=
  newDate (getFullYear currentMonth) (getMonth currentMonth + 1) 1.

End DatePicker.

(** ** The booking form *)

Module LegacyFlows.
Import Js JsDate DateUtils BookingPage.

(** A number of the URL, [None] for NaN: [clientId] and [durationMinutes]
    come from [parseInt]. *)
Definition truthyNumber (n : option Z) : bool :=
  match n with Some z => negb (z =? 0) | None => false end.

(** The object handed to [createBooking]. *)
Record BookingRequest := mkBookingRequest {
  br_candidate_id : option Z;
  br_client_id : option Z;
  br_scheduled_at : string;
  br_duration_minutes : option Z;
  br_timezone : string
}.

(** What a submission handed to the API. *)
Inductive Submitted :=
| NothingSubmitted
| CallScheduled (data : ScheduleCallData)
| BookingCreated (data : BookingRequest).

(** [handleLegacyBooking]; [name] and [email] are the two inputs of the
    form, [convertToISO8601] and [getUserTimezone] the functions imported
    from the date utilities, [createBooking] the API call. *)
Definition handleLegacyBooking (candidateId : option string) (clientId : option Z)
    (durationMinutes : option Z) (name email : string)
    (convertToISO8601 : LocalDate -> string -> result string)
    (getUserTimezone : string)
    (createBooking : BookingRequest -> result (list (string * Api.json)))
    (st : State) : State * Submitted :=
  if negb (present candidateId) || negb (truthyNumber clientId) then
    (setError (Some "Missing required parameters: candidate_id and client_id must be provided in the URL") st,
     NothingSubmitted)
  else
    match selectedDate st, selectedTime st with
    | Some date, Some time =>
        if negb (isEmpty time) && negb (isEmpty name) && negb (isEmpty email) then
          let st1 := setIsLoading true st in
          match convertToISO8601 date time with
          | Throw err =>
              (setIsLoading false
                 (setError (Some (messageOr err "Failed to create booking. Please try again."))
                    st1),
               NothingSubmitted)
          | Ok scheduledAt =>
              let data :=
                mkBookingRequest
                  (parseInt (match candidateId with Some c => c | None => "" end))
                  clientId scheduledAt durationMinutes getUserTimezone in
              match createBooking data with
              | Ok booking =>
                  (setIsLoading false
                     (setIsSubmitted true (setBookingData (Some booking) st1)),
                   BookingCreated data)
              | Throw err =>
                  (setIsLoading false
                     (setError
                        (Some (messageOr err "Failed to create booking. Please try again."))
                        st1),
                   BookingCreated data)
              end
          end
        else (st, NothingSubmitted)
    | _, _ => (st, NothingSubmitted)
    end.

(** [handleSubmit]: the schedule API when the candidate and a phone number
    of the candidate are known, the booking API otherwise. *)
Definition handleSubmit {engine : Engine} (candidateId : option string) (clientId : option Z)
    (durationMinutes : option Z) (name email : string)
    (convertToISO8601 : LocalDate -> string -> result string)
    (getUserTimezone : string)
    (createBooking : BookingRequest -> result (list (string * Api.json)))
    (now : Z) (confirmed : bool)
    (scheduleCall : ScheduleCallData -> result (list (string * Api.json)))
    (later : Z) (fetched : result (option StatusData)) (st : State)
  : result (State * Submitted) :=
  let st1 := setError None st in
  if present candidateId && present (candidatePhoneNumber st) then
    match handleScheduleCall candidateId None now confirmed scheduleCall later fetched st1
    with
    | Ok (st', Some data) => Ok (st', CallScheduled data)
    | Ok (st', None) => Ok (st', NothingSubmitted)
    | Throw e => Throw e
    end
  else if truthyNumber clientId then
    Ok (handleLegacyBooking candidateId clientId durationMinutes name email
          convertToISO8601 getUserTimezone createBooking st1)
  else
    Ok (setError (Some "Missing required parameters") st1, NothingSubmitted).

End LegacyFlows.

Module LegacyTerms.
Import Js JsDate DateUtils BookingPage.
Import LegacyFlows.

(** The state after the status of the candidate was loaded and a date
    and a slot were picked. *)
Definition loadedAndPicked {engine : Engine} (candidateId : option string) (now : Z) (data : StatusData)
    (date : LocalDate) (time : string) (st : State) : State :=
  handleTimeSelect time
    (handleDateSelect date (loadScheduledCall candidateId now (Ok (Some data)) st)).

(** A status answer that carries a phone number and no call. *)
Definition statusWithPhone (phone : string) : StatusData :=
  mkStatusData false None false (Some phone).

End LegacyTerms.

(** ** The date utilities of the viewer's zone *)

Module ViewerDateUtils.
Import Js JsDate DateUtils.

(** A number that may be NaN, and [String(n)]. *)
Definition StringN (n : option Z) : string :=
  match n with Some z => String_ z | None => "NaN" end.

Definition mapN (f : Z -> Z) (n : option Z) : option Z :=
  match n with Some z => Some (f z) | None => None end.

(** [hours] on the 24-hour clock, for an [hours] that may be NaN. *)
Definition to24HourN (period : string) (hours : option Z) : option Z :=
  let is12 := match hours with Some h => h =? 12 | None => false end in
  if String.eqb period "PM" && negb is12 then mapN (fun h => h + 12) hours
  else if String.eqb period "AM" && is12 then Some 0
  else hours.

(** What the converter reads of [localDateTime], the copy of the selected
    date after [setHours(hours, minutes, 0, 0)] in the viewer's zone. *)
Record LocalDateTime := mkLocalDateTime {
  getFullYear : option Z;
  getMonth : option Z;
  getDate : option Z;
  getHours : option Z;
  getMinutes : option Z;
  getSeconds : option Z;
  getTimezoneOffset : option Z
}.

(** [convertToISO8601] of the viewer-zone date utilities; [setHours] gives
    the date after [setHours(hours, minutes, 0, 0)]. *)
Definition convertToISO8601 {D : Type}
    (setHours : D -> option Z -> option Z -> LocalDateTime)
    (date : D) (timeString : string) : result string :=
  match timeMatch timeString with
  | None => Throw (Error "Invalid time format")
  | Some (m1, m2, m3) =>
      let hours0 := parseInt m1 in
      let minutes := parseInt m2 in
      let period := toUpperCase m3 in
      let hours := to24HourN period hours0 in
      let localDateTime := setHours date hours minutes in
      let offsetMinutes := getTimezoneOffset localDateTime in
      let offsetHours := mapN (fun o => Z.abs o / 60) offsetMinutes in
      let offsetMins := mapN (fun o => Z.abs o mod 60) offsetMinutes in
      let offsetSign :=
        match offsetMinutes with
        | Some o => if o <=? 0 then "+" else "-"
        | None => "-"
        end in
      let offset :=
        offsetSign ++ padStart0 2 (StringN offsetHours) ++ ":"
        ++ padStart0 2 (StringN offsetMins) in
      let year := getFullYear localDateTime in
      let month := padStart0 2 (StringN (mapN (fun m => m + 1) (getMonth localDateTime))) in
      let day := padStart0 2 (StringN (getDate localDateTime)) in
      let hour := padStart0 2 (StringN (getHours localDateTime)) in
      let minute := padStart0 2 (StringN (getMinutes localDateTime)) in
      let second := padStart0 2 (StringN (getSeconds localDateTime)) in
      Ok (StringN year ++ "-" ++ month ++ "-" ++ day ++ "T" ++ hour ++ ":" ++ minute
          ++ ":" ++ second ++ offset)
  end.

End ViewerDateUtils.

Module ViewerTerms.
Import Js JsDate DateUtils.
Import ViewerDateUtils.
Import DateTerms.

(** A date of the calendar with a four-digit year, a time of day, and an
    offset of less than a day. *)
Definition wellFormed (y m d h mi s o : Z) : bool :=
  (1000 <=? y) && (y <=? 9999) && (0 <=? m) && (m <=? 11) &&
  (1 <=? d) && (d <=? daysInMonth y (m + 1)) &&
  (0 <=? h) && (h <? 24) && (0 <=? mi) && (mi <? 60) && (0 <=? s) && (s <? 60) &&
  (-1440 <? o) && (o <? 1440).

(** A zone three hours ahead of UTC all year: a date keeps its fields,
    [setHours] sets the hour and the minute, the offset is -180. *)
Definition plusThree (date : LocalDate) (hours minutes : option Z) : LocalDateTime :=
  mkLocalDateTime (Some (DateUtils.getFullYear date)) (Some (DateUtils.getMonth date))
                  (Some (DateUtils.getDate date)) hours minutes (Some 0) (Some (-180)).

End ViewerTerms.

(* ===================================================================== *)
(** * Part II: properties                                                 *)
(* ===================================================================== *)

Module PhoneFacts.
Import Js Phone.
Import PhoneTerms.

Example isValidUKPhone_mobile : isValidUKPhone "+447700123456" = true.
Proof. reflexivity. Qed.

Example normalizePhone_trunk : normalizePhone "07700123456" = "+447700123456".
Proof. reflexivity. Qed.

Example normalizePhone_short : normalizePhone "123" = "+44123" /\ isValidUKPhone "+44123" = false.
Proof. split; reflexivity. Qed.

(** *** Strings free of a class of code units *)

Lemma removeAll_hasNone cls s : hasNone cls (removeAll cls s) = true.
Proof.
  induction s as [|c r IH]; simpl; trivial.
  destruct (cls c) eqn:E; simpl; trivial. now rewrite E.
Qed.

Lemma removeAll_fixed cls s : hasNone cls s = true -> removeAll cls s = s.
Proof.
  induction s as [|c r IH]; simpl; trivial.
  destruct (cls c); simpl; [discriminate|]. intros H. now rewrite IH.
Qed.

Lemma removeLeading_fixed cls s : hasNone cls s = true -> removeLeading cls s = s.
Proof. destruct s as [|c r]; simpl; trivial. now destruct (cls c). Qed.

Lemma removeLeading_hasNone cls cls' s :
  hasNone cls s = true -> hasNone cls (removeLeading cls' s) = true.
Proof.
  induction s as [|c r IH]; simpl; trivial.
  intros H. destruct (cls' c); [|exact H].
  apply andb_true_iff in H. now apply IH.
Qed.

Lemma removeLeading_idem cls s :
  removeLeading cls (removeLeading cls s) = removeLeading cls s.
Proof.
  induction s as [|c r IH]; simpl; trivial.
  destruct (cls c) eqn:E; trivial. simpl. now rewrite E.
Qed.

Lemma trimEnd_fixed s : hasNone isWhiteSpace s = true -> trimEnd s = s.
Proof.
  induction s as [|c r IH]; simpl; trivial.
  intros H. apply andb_true_iff in H. destruct H as [Hc Hr].
  rewrite (IH Hr). apply negb_true_iff in Hc. now rewrite Hc.
Qed.

Lemma trim_fixed s : hasNone isWhiteSpace s = true -> trim s = s.
Proof.
  intros H. unfold trim, trimStart.
  rewrite (removeLeading_fixed _ _ H). now apply trimEnd_fixed.
Qed.

Lemma enteredDigits_hasNone x : hasNone isWhiteSpace (enteredDigits x) = true.
Proof.
  unfold enteredDigits. rewrite trim_fixed; apply removeAll_hasNone.
Qed.

Lemma enteredDigits_of_normal d :
  hasNone isWhiteSpace d = true -> enteredDigits ("+44" ++ d) = d.
Proof.
  intros H. unfold enteredDigits.
  change (removePrefix "+44" ("+44" ++ d)) with d.
  rewrite (removeAll_fixed _ _ H). now apply trim_fixed.
Qed.

Lemma normalizePhone_idempotent x :
  normalizePhone (normalizePhone x) = normalizePhone x.
Proof.
  unfold normalizePhone at 2 3.
  set (d := removeLeading isZero (enteredDigits x)).
  assert (Hd : hasNone isWhiteSpace d = true)
    by (apply removeLeading_hasNone, enteredDigits_hasNone).
  unfold normalizePhone. rewrite (enteredDigits_of_normal d Hd).
  unfold d. now rewrite removeLeading_idem.
Qed.

(** *** The prefix table *)

Lemma startsWith_app s p q : startsWith s (p ++ q) = true -> startsWith s p = true.
Proof.
  revert s. induction p as [|a p IH]; intros s; simpl; trivial.
  destruct s as [|b s]; trivial.
  intros H. apply andb_true_iff in H. destruct H as [-> H]. simpl. now apply IH.
Qed.

Lemma startsWith_1xx s q : startsWith s "1" = false -> startsWith s ("1" ++ q) = false.
Proof.
  intros H. destruct (startsWith s ("1" ++ q)) eqn:E; trivial.
  apply startsWith_app in E. congruence.
Qed.

Ltac drop_city_codes s E1 :=
  repeat match goal with
  | |- context [startsWith s (String "1"%char (String ?a ?r))] =>
      rewrite (startsWith_1xx s (String a r) E1
               : startsWith s (String "1"%char (String a r)) = false)
  end.

Lemma table_deciding s :
  existsb (startsWith s) validPrefixes = existsb (startsWith s) decidingPrefixes.
Proof.
  cbn [existsb validPrefixes decidingPrefixes].
  destruct (startsWith s "1") eqn:E1.
  - rewrite !orb_true_r. reflexivity.
  - drop_city_codes s E1. cbn [orb].
    repeat match goal with |- context [startsWith s ?p] =>
      destruct (startsWith s p); cbn [orb]; trivial end.
Qed.

Lemma table_without_city_codes s :
  existsb (startsWith s) validPrefixes = existsb (startsWith s) withoutCityCodes.
Proof.
  change withoutCityCodes with [ "7"; "20"; "23"; "24"; "28"; "29"; "1" ].
  cbn [existsb validPrefixes].
  destruct (startsWith s "1") eqn:E1.
  - rewrite !orb_true_r. reflexivity.
  - drop_city_codes s E1. reflexivity.
Qed.

Lemma allDigits_hasNone n : allDigits n = true -> hasNone isWhiteSpace n = true.
Proof.
  induction n as [|c r IH]; simpl; trivial.
  intros H. apply andb_true_iff in H. destruct H as [Hc Hr].
  rewrite (IH Hr), andb_true_r.
  unfold isDigit in Hc. unfold isWhiteSpace. cbn [existsb].
  apply andb_true_iff in Hc. destruct Hc as [H1 H2].
  apply N.leb_le in H1. apply N.leb_le in H2.
  repeat match goal with |- context [N.eqb ?a ?b] =>
    destruct (N.eqb_spec a b); [lia|] end.
  reflexivity.
Qed.

Lemma isValidUKPhoneWith_national prefixes n :
  hasNone isWhiteSpace n = true ->
  (10 <= String.length n <= 11)%nat ->
  isValidUKPhoneWith prefixes ("+44" ++ n) = existsb (startsWith n) prefixes.
Proof.
  intros Hn [Hlo Hhi]. unfold isValidUKPhoneWith.
  assert (Hc : removeAll isWhiteSpace ("+44" ++ n) = "+44" ++ n).
  { apply removeAll_fixed. exact Hn. }
  rewrite Hc.
  change (startsWith ("+44" ++ n) "+44") with true.
  change (substring 3 ("+44" ++ n)) with n. cbn [negb].
  destruct (Nat.ltb_spec (String.length n) 10); [lia|].
  destruct (Nat.ltb_spec 11 (String.length n)); [lia|].
  reflexivity.
Qed.

(** *** [formatPhoneNumber] *)

Lemma formatPhoneNumber_idempotent x :
  Api.formatPhoneNumber (Api.formatPhoneNumber x) = Api.formatPhoneNumber x.
Proof.
  unfold Api.formatPhoneNumber. fold dropped.
  set (cleaned := removeAll dropped x).
  assert (Hc : removeAll dropped cleaned = cleaned)
    by (apply removeAll_fixed, removeAll_hasNone).
  destruct (startsWith cleaned "+") eqn:E.
  - now rewrite Hc, E.
  - change (removeAll dropped ("+" ++ cleaned)) with (String "+" (removeAll dropped cleaned)).
    rewrite Hc. reflexivity.
Qed.

(** C8. The normalization of [handleConfirmSchedule] (the +44 prefix and
    the white space removed, the leading zeros removed, +44 put in front)
    gives the same string when applied a second time, and so does
    [formatPhoneNumber]. *)
Theorem phone_normalization_idempotent :
  forall x : string,
    normalizePhone (normalizePhone x) = normalizePhone x /\
    Api.formatPhoneNumber (Api.formatPhoneNumber x) = Api.formatPhoneNumber x.
Proof.
  intros x. split.
  - apply normalizePhone_idempotent.
  - apply formatPhoneNumber_idempotent.
Qed.

(** C9. A number whose national significant number (what follows the
    first three code units once the white space is removed) has fewer than
    10 or more than 11 code units is not valid, whatever it starts with. *)
Theorem isValidUKPhone_rejects_length :
  forall phone : string,
    (String.length (nationalNumber phone) < 10 \/
     11 < String.length (nationalNumber phone))%nat ->
    isValidUKPhone phone = false.
Proof.
  intros phone H. unfold isValidUKPhone, isValidUKPhoneWith.
  fold (nationalNumber phone).
  destruct (startsWith (removeAll isWhiteSpace phone) "+44"); [|reflexivity].
  cbn [negb].
  destruct (Nat.ltb_spec (String.length (nationalNumber phone)) 10); [reflexivity|].
  destruct (Nat.ltb_spec 11 (String.length (nationalNumber phone))); [reflexivity|].
  lia.
Qed.

Lemma isValidUKPhone_rejects_length_witness :
  isValidUKPhone "+44 7700 12345 678 90" = false.
Proof.
  apply (isValidUKPhone_rejects_length "+44 7700 12345 678 90").
  right. vm_compute. lia.
Defined.

(** C10. For a national number of 10 or 11 digits the outcome depends on
    its first one or two digits only: the number is valid exactly when it
    starts with 7, 1, 20, 23, 24, 28 or 29, and the table without its
    three-digit city codes accepts the same numbers. *)
Theorem isValidUKPhone_decided_by_leading_digits :
  forall n : string,
    allDigits n = true ->
    (10 <= String.length n <= 11)%nat ->
    (isValidUKPhone ("+44" ++ n) = true <->
     exists p, In p decidingPrefixes /\ startsWith n p = true) /\
    isValidUKPhoneWith withoutCityCodes ("+44" ++ n) = isValidUKPhone ("+44" ++ n).
Proof.
  intros n Hd Hlen.
  pose proof (allDigits_hasNone n Hd) as Hn.
  unfold isValidUKPhone. rewrite !isValidUKPhoneWith_national by assumption.
  split.
  - rewrite table_deciding, existsb_exists. reflexivity.
  - symmetry. apply table_without_city_codes.
Qed.

Lemma isValidUKPhone_decided_by_leading_digits_witness :
  (isValidUKPhone ("+44" ++ "1134960000") = true <->
   exists p, In p decidingPrefixes /\ startsWith "1134960000" p = true) /\
  isValidUKPhoneWith withoutCityCodes ("+44" ++ "1134960000")
  = isValidUKPhone ("+44" ++ "1134960000").
Proof.
  apply (isValidUKPhone_decided_by_leading_digits "1134960000").
  - reflexivity.
  - simpl. lia.
Defined.

(** What the confirm button computes: it is disabled exactly when a
    submission is in flight or +44 followed by the entered digits, with
    their leading zeros kept, is not valid. *)
Lemma confirmDisabled_spec isLoading isTriggeringCall confirmed :
  confirmDisabled isLoading isTriggeringCall confirmed =
  isLoading || isTriggeringCall || negb (isValidUKPhone ("+44" ++ enteredDigits confirmed)).
Proof.
  unfold confirmDisabled.
  destruct (isLoading || isTriggeringCall); [reflexivity|].
  destruct (enteredDigits confirmed); reflexivity.
Qed.

(** Whenever the confirm button is enabled the entered digits have no
    leading zero: the [replace(/^0+/, '')] of [handleConfirmSchedule], which
    only the button calls, never removes anything. *)
Lemma enabled_button_has_no_trunk_zero x :
  confirmDisabled false false x = false ->
  removeLeading isZero (enteredDigits x) = enteredDigits x.
Proof.
  rewrite confirmDisabled_spec. cbn [orb]. intros H.
  apply negb_false_iff in H.
  pose proof (enteredDigits_hasNone x) as Hd.
  set (d := enteredDigits x) in *.
  unfold isValidUKPhone, isValidUKPhoneWith in H.
  assert (Hc : removeAll isWhiteSpace ("+44" ++ d) = "+44" ++ d)
    by (apply removeAll_fixed; exact Hd).
  rewrite Hc in H.
  change (startsWith ("+44" ++ d) "+44") with true in H.
  change (substring 3 ("+44" ++ d)) with d in H. cbn [negb] in H.
  destruct ((String.length d <? 10)%nat || (11 <? String.length d)%nat);
    [discriminate|].
  rewrite table_deciding in H. apply existsb_exists in H.
  destruct H as (p & Hin & Hp).
  destruct d as [|c r]; [reflexivity|].
  assert (Hz : isZero c = false).
  { cbn [In decidingPrefixes] in Hin.
    repeat (destruct Hin as [<- | Hin];
            [cbn [startsWith] in Hp; apply andb_true_iff in Hp;
             destruct Hp as [Hp _]; apply Ascii.eqb_eq in Hp; subst c; reflexivity|]).
    contradiction. }
  cbn [removeLeading]. now rewrite Hz.
Qed.

(** C5. With no submission in flight and 07700123456 typed in the phone
    input, the confirm button is disabled, although the number
    [handleConfirmSchedule] would build from this input, +447700123456, is
    valid: the button keeps the trunk zero that the handler removes. *)
Theorem confirm_button_keeps_trunk_zero :
  let typed := phoneInput_onChange "07700123456" "" in
  typed = "07700123456" /\
  confirmDisabled false false typed = true /\
  normalizePhone typed = "+447700123456" /\
  isValidUKPhone (normalizePhone typed) = true /\
  handleConfirmSchedule_phone typed = inr "+447700123456".
Proof. repeat split. Qed.

End PhoneFacts.

(** ** The scheduled-call query *)

Module ScheduledCallFacts.
Import Js JsDate DateUtils BookingPage.
Import ScheduledCallTerms.

Example canceledSpelling_examples :
  canceledSpelling "canceled" /\ canceledSpelling "Cancelled" /\
  canceledSpelling "CANCELED" /\ ~ canceledSpelling "SCHEDULED".
Proof.
  repeat split; try (left; reflexivity); try (right; reflexivity).
  intros [H | H]; discriminate H.
Qed.

Lemma notCanceled_spelling next :
  notCanceled (option_map toUpperCase (call_status next)) = true ->
  forall s, call_status next = Some s -> ~ canceledSpelling s.
Proof.
  intros H s Hs. rewrite Hs in H. simpl in H.
  apply andb_true_iff in H. destruct H as [H1 H2].
  apply negb_true_iff in H1. apply negb_true_iff in H2.
  apply String.eqb_neq in H1. apply String.eqb_neq in H2.
  intros [E | E]; contradiction.
Qed.

Lemma scheduledCallInfoOf_active {engine : Engine} now data info :
  scheduledCallInfoOf now data = Some info ->
  exists d next s t,
    data = Some d /\
    has_scheduled_call d = true /\
    next_scheduled_call d = Some next /\
    (forall st, call_status next = Some st -> ~ canceledSpelling st) /\
    is_future d = true /\
    scheduled next = Some s /\ new_Date s = Some t /\ now < t /\
    info = mkInfo (Some t) true (call_status next).
Proof.
  unfold scheduledCallInfoOf.
  destruct data as [d|]; [|discriminate].
  destruct (has_scheduled_call d) eqn:Hh; simpl; [|discriminate].
  destruct (next_scheduled_call d) as [next|] eqn:Hn; [|discriminate].
  destruct (notCanceled (option_map toUpperCase (call_status next))) eqn:Hc;
    [|discriminate].
  destruct (is_future d) eqn:Hf; [|discriminate].
  destruct (scheduled next) as [s|] eqn:Hs; [|discriminate].
  destruct (isEmpty s); [discriminate|].
  destruct (new_Date s) as [t|] eqn:Ht; [|discriminate].
  simpl. destruct (Z.ltb_spec now t) as [Hlt|]; [|discriminate].
  intros H. injection H as <-.
  exists d, next, s, t. repeat split; trivial.
  now apply notCanceled_spelling.
Qed.

Lemma scheduledCallInfo_load {engine : Engine} candidateId now fetched st :
  present candidateId = true ->
  scheduledCallInfo (loadScheduledCall candidateId now fetched st) =
  match fetched with
  | Ok data => scheduledCallInfoOf now data
  | Throw _ => None
  end.
Proof.
  intros Hp. unfold loadScheduledCall. rewrite Hp. simpl.
  destruct fetched as [data|e]; [|reflexivity].
  destruct (present _); reflexivity.
Qed.

(** C2. Once [loadScheduledCall] has handled the outcome of the status
    request, a non-null [scheduledCallInfo] means that the request
    answered with [has_scheduled_call] true, a call was present, its status
    was no spelling of canceled, [is_future] was true and the scheduled
    instant, as [new Date] reads the string of the answer in whatever
    engine, lay strictly after the clock; and an answer with
    [has_scheduled_call] true, the status CANCELED and [is_future] true
    leaves [scheduledCallInfo] null. *)
Theorem loadScheduledCall_info_only_when_active {engine : Engine} :
  forall candidateId now fetched st,
    present candidateId = true ->
    (forall info,
       scheduledCallInfo (loadScheduledCall candidateId now fetched st) = Some info ->
       exists d next s t,
         fetched = Ok (Some d) /\
         has_scheduled_call d = true /\
         next_scheduled_call d = Some next /\
         (forall cs, call_status next = Some cs -> ~ canceledSpelling cs) /\
         is_future d = true /\
         scheduled next = Some s /\ new_Date s = Some t /\ now < t /\
         info = mkInfo (Some t) true (call_status next)) /\
    (forall d next,
       fetched = Ok (Some d) ->
       has_scheduled_call d = true ->
       next_scheduled_call d = Some next ->
       call_status next = Some "CANCELED" ->
       is_future d = true ->
       scheduledCallInfo (loadScheduledCall candidateId now fetched st) = None).
Proof.
  intros candidateId now fetched st Hp.
  rewrite (scheduledCallInfo_load _ _ _ _ Hp). split.
  - intros info H. destruct fetched as [data|e]; [|discriminate].
    destruct (scheduledCallInfoOf_active _ _ _ H)
      as (d & next & s & t & -> & H1 & H2 & H3 & H4 & H5 & H6 & H7 & H8).
    exists d, next, s, t. repeat split; assumption.
  - intros d next -> Hh Hn Hc Hf. unfold scheduledCallInfoOf.
    rewrite Hh, Hn, Hc. reflexivity.
Qed.

Lemma loadScheduledCall_info_only_when_active_witness :
  exists d next s t,
    Ok (Some futureCall) = Ok (Some d) /\
    has_scheduled_call d = true /\
    next_scheduled_call d = Some next /\
    (forall cs, call_status next = Some cs -> ~ canceledSpelling cs) /\
    is_future d = true /\
    scheduled next = Some s /\
    new_Date (engine := standardOnly) s = Some t /\ 1741000000000 < t /\
    mkInfo (Some 1741617000000) true (Some "SCHEDULED")
    = mkInfo (Some t) true (call_status next).
Proof.
  apply (proj1 (loadScheduledCall_info_only_when_active
                  (engine := standardOnly)
                  (Some "candidate-1") 1741000000000 (Ok (Some futureCall))
                  initialState eq_refl)).
  vm_compute. reflexivity.
Defined.

End ScheduledCallFacts.

(** ** The authenticated API client *)

Module ApiFacts.
Import Js Api.
Import ApiTerms.

Lemma fetch_run req w :
  fetch req w =
  (match network w (sent w) req with Fulfilled r => Ok r | Rejected e => Throw e end,
   after w [req]).
Proof. unfold fetch, after. now destruct (network w (sent w) req). Qed.

Lemma join_throws print items e :
  Forall (fun x => forall e', print x = Throw e' -> e' = cannotConvert) items ->
  join print items = Throw e -> e = cannotConvert.
Proof.
  induction 1 as [|x rest Hx Hrest IH]; [discriminate|].
  cbn [join].
  destruct (match x with JNull => Ok EmptyString | _ => print x end) as [first|e1] eqn:E.
  - destruct rest as [|y rest']; [discriminate|].
    destruct (join print (y :: rest')) as [more|e2]; [discriminate|].
    intros H. apply IH. congruence.
  - intros H. assert (e1 = e) by congruence. subst e1.
    destruct x; try discriminate E; now apply Hx.
Qed.

(** A conversion to a string throws nothing but the one TypeError. *)
Lemma ToString_throws j : forall e, ToString j = Throw e -> e = cannotConvert.
Proof.
  induction j as [| b | shown | s | items IH | fields] using json_items_ind;
    intros e H; try discriminate H.
  - destruct b; discriminate H.
  - cbn [ToString] in H. now apply (join_throws ToString items).
  - cbn [ToString] in H. destruct (lookup "toString" fields); congruence.
Qed.

Lemma printable_false j : printable j = false -> ToString j = Throw cannotConvert.
Proof.
  unfold printable. destruct (ToString j) as [s|e] eqn:E; [discriminate|].
  intros _. now rewrite (ToString_throws j e E).
Qed.

Lemma printable_true j : printable j = true -> exists s, ToString j = Ok s.
Proof.
  unfold printable. destruct (ToString j) as [s|e]; [eauto|discriminate].
Qed.

(** [handleApiError] on a response, by the [detail] of its body. *)
Lemma handleApiError_detail response :
  handleApiError response =
  match detailOf response with
  | Some d =>
      match ToString d with
      | Ok msg => Ok (mkError "Error" msg (Some (status response)))
      | Throw e => Throw e
      end
  | None =>
      Ok (mkError "Error"
            (match jsonBody response with
             | Some (JStr s) => s
             | Some JNull | None => statusLine response
             | _ => "An error occurred"
             end)
            (Some (status response)))
  end.
Proof.
  unfold handleApiError, detailOf, response_json, statusLine.
  destruct (jsonBody response) as [[| b | shown | s | items | fields]|];
    try reflexivity.
  cbn [getProp]. destruct (lookup "detail" fields) as [d|]; [|reflexivity].
  destruct (truthy (Some d)); reflexivity.
Qed.

(** [handleApiError] returns an error that carries the status, unless the
    [detail] does not convert to a string: then it throws. *)
Lemma handleApiError_outcome response :
  if unprintableDetail response
  then handleApiError response = Throw cannotConvert
  else exists e, handleApiError response = Ok e /\ Js.status e = Some (status response).
Proof.
  rewrite handleApiError_detail. unfold unprintableDetail.
  destruct (detailOf response) as [d|]; [|eexists; split; reflexivity].
  destruct (printable d) eqn:Hp; cbn [negb].
  - destruct (printable_true d Hp) as [msg ->]. eexists. split; reflexivity.
  - now rewrite (printable_false d Hp).
Qed.

(** [login] sends one request; it returns and stores the granted token,
    and throws, leaving the stored token alone, when none is granted. *)
Lemma login_run env w :
  match grantedToken (network w (sent w) (loginRequest env)) with
  | Some tok =>
      login env w = (Ok tok, mkWorld (Some tok) (sent w ++ [loginRequest env]) (network w))
  | None => exists e, login env w = (Throw e, after w [loginRequest env])
  end.
Proof.
  unfold login, bindM. rewrite fetch_run. unfold grantedToken.
  destruct (network w (sent w) (loginRequest env)) as [r|e]; [|eauto].
  destruct (ok r) eqn:Hok; cbn [negb].
  - unfold lift, response_json.
    destruct (jsonBody r) as [[| b | z | s | items | fields]|];
      try (simpl; unfold throw; now eauto).
    cbn [getProp bindM].
    destruct (lookup "access_token" fields) as [j|] eqn:Hl;
      [|simpl; unfold throw; now eauto].
    destruct (truthy (Some j)); cbn [negb]; [|unfold throw; now eauto].
    unfold throw, ret, setAuthToken.
    destruct (ToString j) as [tok|e]; [reflexivity|eauto].
  - unfold lift, throw, bindM.
    destruct (handleApiError r) as [e|e]; eauto.
Qed.

Lemma setKey_In {V} key (v : V) obj : In (key, v) (setKey key v obj).
Proof.
  induction obj as [|[k v'] rest IH]; simpl; [now left|].
  destruct (String.eqb_spec k key) as [->|]; simpl; auto.
Qed.

(** C3. A request sent through [apiRequest] whose first answer is a 401:
    with a stored token, one login request follows; when the login grants a
    token, the original request is sent once more, carrying that token, and
    its answer is the result; when the login fails, nothing more is sent
    and the 401 response is the result.  Without a stored token the first
    request is the only one and its 401 response is the result. *)
Theorem apiRequest_reauthenticates_once :
  forall env endpoint options w response,
    let token := auth_token w in
    let url := API_BASE_URL env ++ endpoint in
    let headers := requestHeaders token options in
    let first := requestOf url options headers in
    network w (sent w) first = Fulfilled response ->
    status response = 401 ->
    let run := apiRequest env endpoint options w in
    (tokenPresent token = true ->
       match grantedToken (network w (sent w ++ [first]) (loginRequest env)) with
       | Some newToken =>
           let retry :=
             requestOf url options (setKey "Authorization" (bearer newToken) headers) in
           sent (snd run) = (sent w ++ [first; loginRequest env; retry])%list /\
           In ("Authorization", bearer newToken) (Api.headers retry) /\
           auth_token (snd run) = Some newToken /\
           fst run = match network w (sent w ++ [first; loginRequest env]) retry with
                     | Fulfilled r => Ok r
                     | Rejected _ => Ok response
                     end
       | None =>
           sent (snd run) = (sent w ++ [first; loginRequest env])%list /\
           auth_token (snd run) = auth_token w /\
           fst run = Ok response
       end) /\
    (tokenPresent token = false ->
       sent (snd run) = (sent w ++ [first])%list /\
       auth_token (snd run) = auth_token w /\
       fst run = Ok response).
Proof.
  intros env endpoint options w response token url headers first Hfirst H401 run.
  assert (Hrun : run =
    (if tokenPresent token then
       tryCatch
         (newToken <- login env ;;
          fetch (requestOf url options (setKey "Authorization" (bearer newToken) headers)))
         (fun _ => ret response)
     else ret response) (after w [first])).
  { unfold run, apiRequest, bindM, getAuthToken.
    fold token. fold url. fold headers. fold first.
    rewrite fetch_run, Hfirst, H401. reflexivity. }
  split; intros Htok; rewrite Htok in Hrun.
  - unfold tryCatch, bindM in Hrun.
    pose proof (login_run env (after w [first])) as Hlogin.
    cbn [sent network after] in Hlogin.
    destruct (grantedToken (network w (sent w ++ [first]) (loginRequest env)))
      as [newToken|].
    + rewrite Hlogin, fetch_run in Hrun. cbn [sent network after auth_token] in Hrun.
      rewrite <- !app_assoc in Hrun. cbn [app] in Hrun.
      cbv zeta. rewrite Hrun.
      destruct (network w (sent w ++ [first; loginRequest env]) _);
        unfold ret, after; cbn [snd fst sent auth_token];
        (split; [rewrite <- app_assoc; reflexivity|]);
        (split; [apply setKey_In|]); split; reflexivity.
    + destruct Hlogin as [e Hlogin]. rewrite Hlogin in Hrun.
      unfold ret, after in Hrun. cbn [sent network auth_token] in Hrun.
      rewrite <- !app_assoc in Hrun. rewrite Hrun. repeat split.
  - rewrite Hrun. repeat split.
Qed.

Lemma apiRequest_reauthenticates_once_witness :
  let run := apiRequest demoEnv "/schedule" noOptions demoWorld in
  sent (snd run) = [demoRequest "stale"; loginRequest demoEnv; demoRequest "fresh"] /\
  In ("Authorization", bearer "fresh") (headers (demoRequest "fresh")) /\
  auth_token (snd run) = Some "fresh" /\
  fst run = Ok (mkResponse 200 "OK" (Some (JObj [("has_scheduled_call", JBool false)]))).
Proof.
  exact (proj1 (apiRequest_reauthenticates_once demoEnv "/schedule" noOptions demoWorld
                  (mkResponse 401 "Unauthorized"
                     (Some (JObj [("detail", JStr "Could not validate credentials")])))
                  eq_refl eq_refl) eq_refl).
Defined.

(** *** [handleApiError] *)

(** C7, as stated, fails: a 500 response whose body is the empty object
    gets the message An error occurred, not the status line. *)
Lemma handleApiError_not_as_stated :
  ~ (forall response,
       exists e, handleApiError response = Ok e /\
                 Js.status e = Some (status response) /\
                 Ok (message e) = messageAsStated response).
Proof.
  intros H.
  destruct (H (mkResponse 500 "Internal Server Error" (Some (JObj []))))
    as (e & He & _ & Hm).
  vm_compute in He. injection He as <-. vm_compute in Hm. discriminate Hm.
Qed.

(** C7, amended. [handleApiError] throws the TypeError of the conversion
    when the body is an object whose truthy [detail] does not convert to a
    string.  In every other case it returns an error value that carries the
    status of the response.  Its message is the [detail] of the body,
    converted to a string, when the body is an object with a truthy
    [detail]; the body itself when the body is a string; the status line
    when the body cannot be read as JSON or is [null]; and An error
    occurred in every other case. *)
Theorem handleApiError_message :
  forall response,
    (unprintableDetail response = true ->
     handleApiError response = Throw cannotConvert) /\
    (unprintableDetail response = false ->
     exists e,
       handleApiError response = Ok e /\
       Js.status e = Some (status response) /\
       (forall fields d,
          jsonBody response = Some (JObj fields) ->
          lookup "detail" fields = Some d -> truthy (Some d) = true ->
          ToString d = Ok (message e)) /\
       (forall s, jsonBody response = Some (JStr s) -> message e = s) /\
       (jsonBody response = None \/ jsonBody response = Some JNull ->
        message e = statusLine response) /\
       (forall body,
          jsonBody response = Some body ->
          body <> JNull ->
          (forall s, body <> JStr s) ->
          (forall fields, body = JObj fields -> truthy (lookup "detail" fields) = false) ->
          message e = "An error occurred")).
Proof.
  intros response. split.
  - intros Hu. pose proof (handleApiError_outcome response) as H.
    now rewrite Hu in H.
  - intros Hu. rewrite handleApiError_detail.
    unfold unprintableDetail in Hu. unfold detailOf in *.
    destruct (jsonBody response) as [body|] eqn:Hb.
    2:{ eexists. split; [reflexivity|]. split; [reflexivity|]. cbn [message].
        repeat split; try discriminate; intros; reflexivity. }
    destruct body as [| b | shown | s | items | fields].
    1-5: eexists; (split; [reflexivity|]); (split; [reflexivity|]); cbn [message];
         (split; [discriminate|]); (split; [congruence|]);
         (split; [intros [H|H]; (discriminate H || reflexivity)|]);
         intros body E Hnull Hstr Hobj; injection E as <-;
         try reflexivity; try contradiction; exfalso; now apply (Hstr s).
    destruct (lookup "detail" fields) as [d|] eqn:Hl.
    + destruct (truthy (Some d)) eqn:Ht.
      * apply negb_false_iff in Hu. destruct (printable_true d Hu) as [msg Hmsg].
        rewrite Hmsg. eexists. split; [reflexivity|]. split; [reflexivity|].
        cbn [message]. split; [|split; [|split]].
        -- intros fields' d' E Hl' _. injection E as <-.
           rewrite Hl in Hl'. injection Hl' as <-. exact Hmsg.
        -- discriminate.
        -- intros [H|H]; discriminate H.
        -- intros body E _ _ Hobj. injection E as <-.
           specialize (Hobj fields eq_refl). rewrite Hl in Hobj.
           rewrite Ht in Hobj. discriminate Hobj.
      * eexists. split; [reflexivity|]. split; [reflexivity|].
        cbn [message]. split; [|split; [|split]].
        -- intros fields' d' E Hl' Ht'. injection E as <-.
           rewrite Hl in Hl'. injection Hl' as <-. rewrite Ht in Ht'. discriminate Ht'.
        -- discriminate.
        -- intros [H|H]; discriminate H.
        -- reflexivity.
    + eexists. split; [reflexivity|]. split; [reflexivity|].
      cbn [message]. split; [|split; [|split]].
      * intros fields' d' E Hl' _. injection E as <-. rewrite Hl in Hl'. discriminate Hl'.
      * discriminate.
      * intros [H|H]; discriminate H.
      * reflexivity.
Qed.

Lemma handleApiError_message_witness :
  handleApiError
    (mkResponse 422 "Unprocessable Entity"
       (Some (JObj [("detail", JObj [("toString", JNum "1")])])))
  = Throw cannotConvert /\
  exists e,
    handleApiError (mkResponse 404 "Not Found"
                      (Some (JObj [("detail", JStr "Candidate not found")]))) = Ok e /\
    Js.status e = Some 404 /\
    Ok "Candidate not found" = Ok (message e).
Proof.
  split.
  - exact (proj1 (handleApiError_message
                    (mkResponse 422 "Unprocessable Entity"
                       (Some (JObj [("detail", JObj [("toString", JNum "1")])]))))
                 eq_refl).
  - destruct (proj2 (handleApiError_message
                       (mkResponse 404 "Not Found"
                          (Some (JObj [("detail", JStr "Candidate not found")]))))
                    eq_refl)
      as (e & He & Hs & Hd & _).
    exists e. split; [exact He|]. split; [exact Hs|].
    exact (Hd [("detail", JStr "Candidate not found")] (JStr "Candidate not found")
              eq_refl eq_refl eq_refl).
Defined.

End ApiFacts.

(** ** The civil-time converter *)

Module DateFacts.
Import Js JsDate DateUtils TimeSlotSelector.
Import DateTerms.

Example generateTimeSlots_count : length generateTimeSlots = 96%nat.
Proof. reflexivity. Qed.

Example summer_2025 :
  toISOString (Some (summerStart 2025)) = Ok "2025-03-30T01:00:00.000Z" /\
  toISOString (Some (summerEnd 2025)) = Ok "2025-10-26T01:00:00.000Z".
Proof. split; vm_compute; reflexivity. Qed.

(** On a winter date every slot comes back. *)
Example january15_all_round_trip {engine : Engine} :
  forallb (roundTrips january15) generateTimeSlots = true.
Proof. vm_compute. reflexivity. Qed.

(** On a summer date the four slots of the last hour do not, and they are
    the only ones. *)
Example july15_failing_slots {engine : Engine} :
  map timeString (filter (fun slot => negb (roundTrips july15 slot)) generateTimeSlots)
  = ["11:00 PM"; "11:15 PM"; "11:30 PM"; "11:45 PM"].
Proof. vm_compute. reflexivity. Qed.

(** *** What [convertToISO8601] computes, for every date and slot *)

Lemma twoDigitOk_all : forallb twoDigitOk (map Z.of_nat (seq 0 60)) = true.
Proof. vm_compute. reflexivity. Qed.

Lemma two_digits n :
  0 <= n < 60 ->
  parseInt (padStart0 2 (String_ n)) = Some n /\
  ToNumber (padStart0 2 (String_ n)) = Some n.
Proof.
  intros Hn. pose proof twoDigitOk_all as A. rewrite forallb_forall in A.
  assert (Hin : In n (map Z.of_nat (seq 0 60))).
  { apply in_map_iff. exists (Z.to_nat n). split; [lia|]. apply in_seq. lia. }
  specialize (A n Hin). unfold twoDigitOk in A.
  destruct (parseInt _) as [a|]; [|discriminate].
  destruct (ToNumber _) as [b|]; [|discriminate].
  apply andb_true_iff in A. destruct A as [A B].
  apply Z.eqb_eq in A. apply Z.eqb_eq in B. now subst.
Qed.

Lemma slotOk_all : forallb slotOk generateTimeSlots = true.
Proof. vm_compute. reflexivity. Qed.

Lemma slot_label slot :
  In slot generateTimeSlots ->
  exists m1 m2 m3 h0,
    timeMatch (timeString slot) = Some (m1, m2, m3) /\
    parseInt m1 = Some h0 /\ parseInt m2 = Some (minute slot) /\
    to24Hour (toUpperCase m3) h0 = hour slot /\
    0 <= hour slot < 24 /\ 0 <= minute slot < 60.
Proof.
  intros Hin. pose proof slotOk_all as A. rewrite forallb_forall in A.
  specialize (A slot Hin). unfold slotOk in A.
  destruct (timeMatch (timeString slot)) as [[[m1 m2] m3]|]; [|discriminate].
  destruct (parseInt m1) as [h0|] eqn:P1; [|discriminate].
  destruct (parseInt m2) as [m|] eqn:P2; [|discriminate].
  repeat (apply andb_true_iff in A; destruct A as [A ?]).
  exists m1, m2, m3, h0.
  repeat match goal with
  | H : (_ =? _) = true |- _ => apply Z.eqb_eq in H
  | H : (_ <=? _) = true |- _ => apply Z.leb_le in H
  | H : (_ <? _) = true |- _ => apply Z.ltb_lt in H
  end.
  subst. repeat split; trivial.
Qed.

Lemma cHour_civilOf t : cHour (civilOf t) = t mod msPerDay / msPerHour.
Proof. unfold civilOf. now destruct (civilFromDays _) as [[y m] d]. Qed.

Lemma cMinute_civilOf t :
  cMinute (civilOf t) = t mod msPerDay mod msPerHour / msPerMinute.
Proof. unfold civilOf. now destruct (civilFromDays _) as [[y m] d]. Qed.

(** The hour and the minute London shows at an instant that reads [h]:[m]
    at offset 0. *)
Lemma london_fields day h m :
  0 <= h < 24 -> 0 <= m < 60 ->
  let ref := day * msPerDay + h * msPerHour + m * msPerMinute in
  let c := londonCivil ref in
  0 <= cHour c < 24 /\ 0 <= cMinute c < 60 /\
  ((h - cHour c) * 60 + (m - cMinute c)) * 60000 = shift ref h.
Proof.
  intros Hh Hm ref c. subst c. unfold londonCivil, shift.
  rewrite cHour_civilOf, cMinute_civilOf.
  assert (Hoff : londonOffset ref = 0 \/ londonOffset ref = msPerHour).
  { unfold londonOffset. destruct (_ && _); auto. }
  unfold msPerDay, msPerHour, msPerMinute in *.
  assert (Hmod : forall x, 0 <= x < 86400000 ->
                   (day * 86400000 + x) mod 86400000 = x).
  { intros x Hx. rewrite Z.add_comm, Z.mod_add by lia. apply Z.mod_small. lia. }
  destruct Hoff as [-> | ->].
  - cbn [Z.eqb]. rewrite Z.add_0_r. unfold ref.
    replace (day * 86400000 + h * 3600000 + m * 60000)
      with (day * 86400000 + (h * 3600000 + m * 60000)) by lia.
    rewrite Hmod by lia.
    assert (E1 : (h * 3600000 + m * 60000) / 3600000 = h)
      by (symmetry; apply (Z.div_unique _ _ h (m * 60000)); lia).
    assert (E2 : (h * 3600000 + m * 60000) mod 3600000 = m * 60000)
      by (symmetry; apply (Z.mod_unique _ _ h (m * 60000)); lia).
    rewrite E1, E2, Z.div_mul by lia. lia.
  - change (3600000 =? 0) with false. cbv iota.
    destruct (Z.ltb_spec h 23) as [H23|H23]; unfold ref.
    + replace (day * 86400000 + h * 3600000 + m * 60000 + 3600000)
        with (day * 86400000 + ((h + 1) * 3600000 + m * 60000)) by lia.
      rewrite Hmod by lia.
      assert (E1 : ((h + 1) * 3600000 + m * 60000) / 3600000 = h + 1)
        by (symmetry; apply (Z.div_unique _ _ (h + 1) (m * 60000)); lia).
      assert (E2 : ((h + 1) * 3600000 + m * 60000) mod 3600000 = m * 60000)
        by (symmetry; apply (Z.mod_unique _ _ (h + 1) (m * 60000)); lia).
      rewrite E1, E2, Z.div_mul by lia. lia.
    + assert (h = 23) by lia. subst h.
      replace (day * 86400000 + 23 * 3600000 + m * 60000 + 3600000)
        with ((day + 1) * 86400000 + (0 * 3600000 + m * 60000)) by lia.
      rewrite Z.add_comm, Z.mod_add, Z.mod_small by lia.
      assert (E1 : (0 * 3600000 + m * 60000) / 3600000 = 0)
        by (symmetry; apply (Z.div_unique _ _ 0 (m * 60000)); lia).
      assert (E2 : (0 * 3600000 + m * 60000) mod 3600000 = m * 60000)
        by (symmetry; apply (Z.mod_unique _ _ 0 (m * 60000)); lia).
      rewrite E1, E2, Z.div_mul by lia. lia.
Qed.

Lemma london_parts t :
  exists parts,
    formatToParts_London (Some t) = Ok parts /\
    partValue "hour" parts = padStart0 2 (String_ (cHour (londonCivil t))) /\
    partValue "minute" parts = padStart0 2 (String_ (cMinute (londonCivil t))).
Proof. eexists. repeat split. Qed.

(** For every selected date and every slot, [convertToISO8601] computes the
    reference instant moved by [shift]. *)
Lemma convertToInstant_shift d slot ref :
  In slot generateTimeSlots ->
  0 <= getMonth d <= 11 -> 1 <= getDate d <= 31 ->
  Date_UTC (getFullYear d) (getMonth d) (getDate d) (hour slot) (minute slot) = Some ref ->
  convertToInstant d (timeString slot) = Ok (TimeClip (ref + shift ref (hour slot))).
Proof.
  intros Hin Hmo Hda Href.
  destruct (slot_label slot Hin) as (m1 & m2 & m3 & h0 & Hm & H1 & H2 & H3 & Hh & Hmi).
  unfold convertToInstant. rewrite Hm. cbv beta iota. rewrite H1, H2.
  cbn [number]. cbv zeta. rewrite H3.
  destruct (two_digits (getMonth d + 1)) as [Pmo _]; [lia|].
  destruct (two_digits (getDate d)) as [Pda _]; [lia|].
  destruct (two_digits (hour slot)) as [Ph Nh]; [lia|].
  destruct (two_digits (minute slot)) as [Pmi Nmi]; [lia|].
  rewrite Pmo, Pda, Nh, Nmi. cbn [number].
  replace (getMonth d + 1 - 1) with (getMonth d) by lia.
  rewrite Href.
  destruct (london_parts ref) as (parts & -> & -> & ->).
  assert (Hday : exists day, ref = day * msPerDay + hour slot * msPerHour
                                  + minute slot * msPerMinute).
  { unfold Date_UTC, TimeClip in Href.
    destruct (Z.abs _ <=? _); [|discriminate]. injection Href as <-. eauto. }
  destruct Hday as [day Hday].
  pose proof (london_fields day (hour slot) (minute slot) Hh Hmi) as F.
  cbv zeta in F. rewrite <- Hday in F. destruct F as (Fh & Fm & Fs).
  destruct (two_digits (cHour (londonCivil ref))) as [-> _]; [lia|].
  destruct (two_digits (cMinute (londonCivil ref))) as [-> _]; [lia|].
  rewrite Ph, Pmi. cbn [number]. rewrite Fs. reflexivity.
Qed.

(** In winter, and in summer before the last hour, the result is the
    reference instant moved back by London's offset. *)
Lemma convertToInstant_before_last_hour d slot ref :
  In slot generateTimeSlots ->
  0 <= getMonth d <= 11 -> 1 <= getDate d <= 31 ->
  Date_UTC (getFullYear d) (getMonth d) (getDate d) (hour slot) (minute slot) = Some ref ->
  londonOffset ref = 0 \/ hour slot < 23 ->
  convertToInstant d (timeString slot) = Ok (TimeClip (ref - londonOffset ref)).
Proof.
  intros Hin Hmo Hda Href Hcase.
  rewrite (convertToInstant_shift d slot ref Hin Hmo Hda Href).
  do 2 f_equal. unfold shift.
  assert (Hoff : londonOffset ref = 0 \/ londonOffset ref = msPerHour)
    by (unfold londonOffset; destruct (_ && _); auto).
  destruct (Z.eqb_spec (londonOffset ref) 0) as [E|E]; [lia|].
  destruct Hcase as [Hz|Hlt]; [contradiction|].
  destruct (Z.ltb_spec (hour slot) 23); [|lia].
  destruct Hoff as [Hoff|Hoff]; [contradiction|].
  rewrite Hoff. lia.
Qed.

(** In summer a slot of the last hour is moved to the same time one day
    later than the instant that shows the selected date and time. *)
Lemma convertToInstant_last_hour_of_summer d slot ref :
  In slot generateTimeSlots ->
  0 <= getMonth d <= 11 -> 1 <= getDate d <= 31 ->
  Date_UTC (getFullYear d) (getMonth d) (getDate d) (hour slot) (minute slot) = Some ref ->
  londonOffset ref = msPerHour -> hour slot = 23 ->
  convertToInstant d (timeString slot) = Ok (TimeClip (ref - msPerHour + msPerDay)).
Proof.
  intros Hin Hmo Hda Href Hoff H23.
  rewrite (convertToInstant_shift d slot ref Hin Hmo Hda Href).
  unfold shift. rewrite Hoff, H23.
  change (msPerHour =? 0) with false. change (23 <? 23) with false. cbv iota.
  do 2 f_equal. unfold msPerHour, msPerDay. lia.
Qed.

(** C1. For 15 July 2025 and the slot 11:00 PM, in the middle of summer
    time, [convertToISO8601] returns 22:00 UTC of 16 July, which
    [formatISO8601ForDisplay] shows as Wednesday, 16 July, 11:00 pm: the
    time of the slot on the day after the selected one. *)
Theorem summer_last_hour_lands_on_next_day {engine : Engine} :
  In (mkSlot "11:00 PM" 23 0) generateTimeSlots /\
  summerStart 2025 < 1752620400000 < summerEnd 2025 /\
  summerStart 2025 < 1752703200000 < summerEnd 2025 /\
  Date_UTC 2025 6 15 23 0 = Some 1752620400000 /\
  convertToInstant july15 "11:00 PM" = Ok (Some 1752703200000) /\
  convertToISO8601 july15 "11:00 PM" = Ok "2025-07-16T22:00:00.000Z" /\
  formatISO8601ForDisplay "2025-07-16T22:00:00.000Z"
  = mkDisplay "Wednesday, 16 July 2025" "11:00 pm" "Europe/London" /\
  longDateOf july15 = "Tuesday, 15 July 2025" /\
  wallClockOf (mkSlot "11:00 PM" 23 0) = "11:00 pm" /\
  roundTrips july15 (mkSlot "11:00 PM" 23 0) = false.
Proof.
  split; [vm_compute; tauto|].
  repeat split; vm_compute; reflexivity.
Qed.

End DateFacts.

(** ** Scheduling a call *)

Module ScheduleFacts.
Import Js JsDate DateUtils BookingPage.
Import DateTerms ScheduleTerms.

Lemma isEmpty_trim s : isEmpty (trim s) = false -> isEmpty s = false.
Proof. destruct s; [discriminate | reflexivity]. Qed.

Lemma handleScheduleCall_march10 {engine : Engine} cid phone now confirmed scheduleCall later fetched st :
  isEmpty cid = false ->
  isEmpty (trim phone) = false ->
  selectedDate st = Some march10 ->
  selectedTime st = Some "2:30 PM" ->
  now < halfPastTwo ->
  existingFuture st = false \/ confirmed = true ->
  exists st',
    handleScheduleCall (Some cid) (Some phone) now confirmed scheduleCall later fetched st
    = Ok (st', Some (mkScheduleCallData cid phone "2025-03-10T14:30:00.000Z")).
Proof.
  intros Hcid Hphone Hdate Htime Hnow Hconf.
  unfold handleScheduleCall, phoneToUse.
  rewrite Hcid, (isEmpty_trim _ Hphone), Hphone, Hdate, Htime.
  cbn [isEmpty].
  change (timeMatch "2:30 PM") with (Some ("2", "30", "PM")). cbv beta iota.
  change (parseInt "2") with (Some 2). change (parseInt "30") with (Some 30).
  cbn [number]. cbv beta.
  change (to24Hour (toUpperCase "PM") 2) with 14.
  replace (selectedDateTime march10 14 30) with (@Ok timeValue (Some halfPastTwo))
    by (vm_compute; reflexivity).
  cbv beta iota.
  destruct (Z.leb_spec halfPastTwo now) as [Hle|_]; [lia|].
  assert (Hgo : existingFuture st && negb confirmed = false)
    by (destruct Hconf as [-> | ->]; [reflexivity | apply andb_false_r]).
  rewrite Hgo.
  replace (toISOString (Some halfPastTwo)) with (Ok "2025-03-10T14:30:00.000Z")
    by (vm_compute; reflexivity).
  cbv beta iota zeta.
  destruct (scheduleCall (mkScheduleCallData cid phone "2025-03-10T14:30:00.000Z"));
    eexists; reflexivity.
Qed.

(** C4. The date 2025-03-10 with the label 2:30 PM is converted to the
    instant 2025-03-10T14:30:00Z, Europe/London standing at UTC+0 then:
    by [convertToISO8601], and by [handleScheduleCall], which sends that
    instant to the API whenever it reaches the request. *)
Theorem schedule_2025_03_10_half_past_two {engine : Engine} :
  forall cid phone now confirmed scheduleCall later fetched st,
    isEmpty cid = false ->
    isEmpty (trim phone) = false ->
    selectedDate st = Some march10 ->
    selectedTime st = Some "2:30 PM" ->
    now < halfPastTwo ->
    existingFuture st = false \/ confirmed = true ->
    londonOffset halfPastTwo = 0 /\
    Date_parse "2025-03-10T14:30:00Z" = Some halfPastTwo /\
    convertToInstant march10 "2:30 PM" = Ok (Some halfPastTwo) /\
    convertToISO8601 march10 "2:30 PM" = Ok "2025-03-10T14:30:00.000Z" /\
    parseISO8601 "2025-03-10T14:30:00.000Z" = Some halfPastTwo /\
    selectedDateTime march10 14 30 = Ok (Some halfPastTwo) /\
    exists st',
      handleScheduleCall (Some cid) (Some phone) now confirmed scheduleCall later fetched st
      = Ok (st', Some (mkScheduleCallData cid phone "2025-03-10T14:30:00.000Z")).
Proof.
  intros cid phone now confirmed scheduleCall later fetched st H1 H2 H3 H4 H5 H6.
  repeat (split; [vm_compute; reflexivity|]).
  now apply handleScheduleCall_march10.
Qed.

(** In summer the two conversions part: for 15 July 2025, 2:30 PM (13:30
    UTC), [convertToISO8601] gives 13:30 UTC and the conversion of
    [handleScheduleCall] 15:30 UTC. *)
Example summer_conversions_differ :
  convertToISO8601 (mkLocalDate 2025 6 15) "2:30 PM" = Ok "2025-07-15T13:30:00.000Z" /\
  selectedDateTime (mkLocalDate 2025 6 15) 14 30 = Ok (Date_parse "2025-07-15T15:30:00Z").
Proof. split; vm_compute; reflexivity. Qed.

Lemma schedule_2025_03_10_half_past_two_witness :
  londonOffset halfPastTwo = 0 /\
  Date_parse "2025-03-10T14:30:00Z" = Some halfPastTwo /\
  convertToInstant march10 "2:30 PM" = Ok (Some halfPastTwo) /\
  convertToISO8601 march10 "2:30 PM" = Ok "2025-03-10T14:30:00.000Z" /\
  parseISO8601 (engine := standardOnly) "2025-03-10T14:30:00.000Z" = Some halfPastTwo /\
  selectedDateTime march10 14 30 = Ok (Some halfPastTwo) /\
  exists st',
    handleScheduleCall (engine := standardOnly) (Some "candidate-1") (Some "+447700123456") 1741000000000 false
      (fun _ => Ok [("id", Api.JStr "call-1")]) 1741000000500 (Ok None) readyState
    = Ok (st', Some (mkScheduleCallData "candidate-1" "+447700123456"
                       "2025-03-10T14:30:00.000Z")).
Proof.
  apply (schedule_2025_03_10_half_past_two (engine := standardOnly)
           "candidate-1" "+447700123456" 1741000000000 false
           (fun _ => Ok [("id", Api.JStr "call-1")]) 1741000000500 (Ok None) readyState).
  - reflexivity.
  - reflexivity.
  - reflexivity.
  - reflexivity.
  - reflexivity.
  - left. reflexivity.
Defined.

End ScheduleFacts.

(** ** Canceling a scheduled call *)

Module CancelFacts.
Import Js JsDate DateUtils BookingPage.
Import CancelTerms.

Lemma loadScheduledCall_selection {engine : Engine} candidateId now fetched st :
  selectedDate (loadScheduledCall candidateId now fetched st) = selectedDate st /\
  selectedTime (loadScheduledCall candidateId now fetched st) = selectedTime st.
Proof.
  unfold loadScheduledCall.
  destruct (present candidateId); cbn [negb]; [|split; reflexivity].
  destruct fetched as [data|e]; [|split; reflexivity].
  destruct (present _); split; reflexivity.
Qed.

(** C6. When the cancel request answers with [canceled_count] 0, the error
    is set to No scheduled calls found to cancel and the selected date and
    time stay as they were; the handler changes them only when
    [canceled_count] is greater than 0, and then it clears both. *)
Theorem handleCancelScheduledCall_selection {engine : Engine} :
  forall candidateId confirmed canceled now fetched st,
    let st' := handleCancelScheduledCall candidateId confirmed canceled now fetched st in
    (present candidateId = true -> confirmed = true ->
     forall result, canceled = Ok result -> canceled_count result = 0 ->
       error st' = Some "No scheduled calls found to cancel" /\
       selectedDate st' = selectedDate st /\
       selectedTime st' = selectedTime st) /\
    (selectedDate st' <> selectedDate st \/ selectedTime st' <> selectedTime st ->
     exists result, canceled = Ok result /\ 0 < canceled_count result) /\
    (present candidateId = true -> confirmed = true ->
     forall result, canceled = Ok result -> 0 < canceled_count result ->
       selectedDate st' = None /\ selectedTime st' = None).
Proof.
  intros candidateId confirmed canceled now fetched st st'.
  unfold handleCancelScheduledCall in st'.
  split; [|split].
  - intros Hp -> result -> H0. subst st'. rewrite Hp, H0. repeat split.
  - intros Hchg. subst st'.
    destruct (present candidateId); cbn [negb] in Hchg; [|exfalso; tauto].
    destruct confirmed; cbn [negb] in Hchg; [|exfalso; tauto].
    destruct canceled as [result|e]; [|exfalso; cbn in Hchg; tauto].
    exists result. split; [reflexivity|].
    destruct (Z.ltb_spec 0 (canceled_count result)); [assumption|].
    exfalso. cbn in Hchg. tauto.
  - intros Hp -> result -> Hpos. subst st'. rewrite Hp.
    apply Z.ltb_lt in Hpos. rewrite Hpos. split; reflexivity.
Qed.

Lemma handleCancelScheduledCall_selection_witness :
  let st' := handleCancelScheduledCall (engine := standardOnly) (Some "candidate-1") true
               (Ok (mkCancelResult 0)) 1741000000000 (Ok None) pickedState in
  error st' = Some "No scheduled calls found to cancel" /\
  selectedDate st' = Some (mkLocalDate 2025 2 10) /\
  selectedTime st' = Some "2:30 PM".
Proof.
  exact (proj1 (handleCancelScheduledCall_selection (engine := standardOnly) (Some "candidate-1") true
                  (Ok (mkCancelResult 0)) 1741000000000 (Ok None) pickedState)
               eq_refl eq_refl (mkCancelResult 0) eq_refl eq_refl).
Defined.

End CancelFacts.

(** ** More on the API client *)

Module ApiClientFacts.
Import Js Api.
Import ApiTerms ApiFacts.

Lemma getAuthToken_run w : getAuthToken w = (Ok (auth_token w), w).
Proof. reflexivity. Qed.

(** Unfolding [apiRequest] after its first [fetch]. *)
Lemma apiRequest_run env endpoint options w :
  let url := API_BASE_URL env ++ endpoint in
  let headers := requestHeaders (auth_token w) options in
  let first := requestOf url options headers in
  apiRequest env endpoint options w =
  match network w (sent w) first with
  | Rejected e => (Throw e, after w [first])
  | Fulfilled response =>
      if (status response =? 401) && tokenPresent (auth_token w) then
        tryCatch
          (bindM (login env) (fun newToken =>
             fetch (requestOf url options
                      (setKey "Authorization" (bearer newToken) headers))))
          (fun _ => ret response) (after w [first])
      else (Ok response, after w [first])
  end.
Proof.
  intros url headers first. unfold apiRequest, bindM at 1 2, getAuthToken.
  fold url. fold headers. fold first. rewrite fetch_run.
  destruct (network w (sent w) first) as [response|e]; [|reflexivity].
  destruct ((status response =? 401) && tokenPresent (auth_token w)); reflexivity.
Qed.

(** X1. Whatever the network does, [apiRequest] sends the request once,
    or the request and one login, or the request, one login and the request
    once more with the token the login granted; it never sends anything
    else, and it changes the stored token only to a granted one. *)
Theorem apiRequest_sends_at_most_three :
  forall env endpoint options w,
    let url := API_BASE_URL env ++ endpoint in
    let headers := requestHeaders (auth_token w) options in
    let first := requestOf url options headers in
    let run := apiRequest env endpoint options w in
    network (snd run) = network w /\
    ((sent (snd run) = (sent w ++ [first])%list /\ auth_token (snd run) = auth_token w) \/
     (sent (snd run) = (sent w ++ [first; loginRequest env])%list /\
      auth_token (snd run) = auth_token w) \/
     (exists newToken,
        grantedToken (network w (sent w ++ [first]) (loginRequest env)) = Some newToken /\
        sent (snd run) =
          (sent w ++ [first; loginRequest env;
                      requestOf url options
                        (setKey "Authorization" (bearer newToken) headers)])%list /\
        auth_token (snd run) = Some newToken)).
Proof.
  intros env endpoint options w url headers first run.
  unfold run. rewrite apiRequest_run. fold url. fold headers. fold first.
  destruct (network w (sent w) first) as [response|e].
  2:{ split; [reflexivity|]. left. split; reflexivity. }
  destruct ((status response =? 401) && tokenPresent (auth_token w)).
  2:{ split; [reflexivity|]. left. split; reflexivity. }
  unfold tryCatch, bindM.
  pose proof (login_run env (after w [first])) as Hlogin.
  cbn [sent network after] in Hlogin.
  destruct (grantedToken (network w (sent w ++ [first]) (loginRequest env)))
    as [newToken|] eqn:Hg.
  - rewrite Hlogin, fetch_run. cbn [sent network auth_token].
    destruct (network w ((sent w ++ [first]) ++ [loginRequest env]) _);
      unfold ret, after; cbn [snd sent network auth_token];
      (split; [reflexivity|]); right; right; exists newToken;
      rewrite <- !app_assoc; repeat split.
  - destruct Hlogin as [e ->]. unfold ret, after. cbn [snd sent network auth_token].
    split; [reflexivity|]. right. left. rewrite <- app_assoc. split; reflexivity.
Qed.

(** X2. A first answer whose status is not 401 is returned as it is, after
    that single request and with the stored token untouched, whatever its
    status; and when the first [fetch] rejects, [apiRequest] throws the
    same error after that single request. *)
Theorem apiRequest_passes_other_answers :
  forall env endpoint options w,
    let first :=
      requestOf (API_BASE_URL env ++ endpoint) options
                (requestHeaders (auth_token w) options) in
    let run := apiRequest env endpoint options w in
    (forall response,
       network w (sent w) first = Fulfilled response ->
       status response <> 401 ->
       fst run = Ok response /\
       sent (snd run) = (sent w ++ [first])%list /\
       auth_token (snd run) = auth_token w) /\
    (forall e,
       network w (sent w) first = Rejected e ->
       fst run = Throw e /\
       sent (snd run) = (sent w ++ [first])%list /\
       auth_token (snd run) = auth_token w).
Proof.
  intros env endpoint options w first run. unfold run.
  rewrite apiRequest_run. cbv zeta. fold first. split.
  - intros response -> Hs.
    destruct (Z.eqb_spec (status response) 401) as [E|_]; [contradiction|].
    repeat split.
  - intros e ->. repeat split.
Qed.

Lemma apiRequest_passes_other_answers_witness :
  let w := mkWorld None [] (fun _ _ => Fulfilled (mkResponse 404 "Not Found" None)) in
  let run := apiRequest demoEnv "/schedule" noOptions w in
  fst run = Ok (mkResponse 404 "Not Found" None) /\
  sent (snd run) =
    [mkRequest "http://localhost:8000/schedule" None
       [("Content-Type", "application/json")] None] /\
  auth_token (snd run) = None.
Proof.
  apply (proj1 (apiRequest_passes_other_answers demoEnv "/schedule" noOptions
                  (mkWorld None [] (fun _ _ => Fulfilled (mkResponse 404 "Not Found" None))))
               (mkResponse 404 "Not Found" None)).
  - reflexivity.
  - discriminate.
Defined.

(** *** Objects as lists of keys and values *)

Lemma setKey_keys {V} key (v : V) obj :
  forall k, In k (map fst (setKey key v obj)) <-> k = key \/ In k (map fst obj).
Proof.
  induction obj as [|[k0 v0] rest IH]; intros k; simpl.
  - intuition.
  - destruct (String.eqb_spec k0 key) as [->|Hne]; simpl.
    + intuition.
    + rewrite IH. intuition.
Qed.

Lemma setKey_NoDup {V} key (v : V) obj :
  NoDup (map fst obj) -> NoDup (map fst (setKey key v obj)).
Proof.
  induction obj as [|[k0 v0] rest IH]; simpl; intros H.
  - constructor; [intros []|constructor].
  - inversion H as [|? ? Hnot Hrest]; subst.
    destruct (String.eqb_spec k0 key) as [->|Hne]; simpl.
    + constructor; assumption.
    + constructor; [|now apply IH].
      rewrite setKey_keys. intros [E|E]; [congruence|contradiction].
Qed.

(** With distinct keys, setting a key gives it the new value and leaves the
    other entries alone. *)
Lemma setKey_entries {V} key (v : V) obj :
  NoDup (map fst obj) ->
  forall k u, In (k, u) (setKey key v obj) <->
              (k = key /\ u = v) \/ (k <> key /\ In (k, u) obj).
Proof.
  induction obj as [|[k0 v0] rest IH]; simpl; intros H k u.
  - split.
    + intros [E|[]]. injection E as <- <-. now left.
    + intros [[-> ->]|[_ []]]. now left.
  - inversion H as [|? ? Hnot Hrest]; subst.
    destruct (String.eqb_spec k0 key) as [->|Hne]; simpl.
    + split.
      * intros [E|Hin]; [injection E as <- <-; now left|].
        right. split; [|now right].
        intros ->. apply Hnot. apply in_map_iff. now exists (key, u).
      * intros [[-> ->]|[Hk [E|Hin]]]; [now left| |now right].
        injection E as -> ->. contradiction.
    + rewrite (IH Hrest). split.
      * intros [E|[[-> ->]|[Hk Hin]]].
        -- injection E as <- <-. right. split; [assumption|now left].
        -- now left.
        -- right. split; [assumption|now right].
      * intros [[-> ->]|[Hk [E|Hin]]].
        -- right. now left.
        -- now left.
        -- right. right. now split.
Qed.

Lemma spread_NoDup {V} (obj more : list (string * V)) :
  NoDup (map fst obj) -> NoDup (map fst (spread obj more)).
Proof.
  unfold spread. revert obj.
  induction more as [|[k v] rest IH]; simpl; intros obj H; [assumption|].
  apply IH. now apply setKey_NoDup.
Qed.

Lemma spread_entries {V} (obj more : list (string * V)) :
  NoDup (map fst obj) ->
  forall k u, In (k, u) (spread obj more) ->
              In (k, u) more \/ (In (k, u) obj /\ ~ In k (map fst more)).
Proof.
  unfold spread. revert obj.
  induction more as [|[k0 v0] rest IH]; simpl; intros obj H k u Hin.
  - right. split; [assumption|intros []].
  - destruct (IH _ (setKey_NoDup k0 v0 obj H) k u Hin) as [Hr|[Hs Hn]].
    + left. now right.
    + apply (setKey_entries k0 v0 obj H) in Hs.
      destruct Hs as [[-> ->]|[Hk Ho]].
      * left. now left.
      * right. split; [assumption|]. intros [E|E]; [congruence|contradiction].
Qed.

Lemma spread_keeps {V} (obj more : list (string * V)) k u :
  NoDup (map fst obj) ->
  In (k, u) obj -> ~ In k (map fst more) -> In (k, u) (spread obj more).
Proof.
  unfold spread. revert obj.
  induction more as [|[k0 v0] rest IH]; simpl; intros obj H Hin Hn; [assumption|].
  apply IH.
  - now apply setKey_NoDup.
  - apply (setKey_entries k0 v0 obj H). right. split; [|assumption].
    intros ->. apply Hn. now left.
  - intros E. apply Hn. now right.
Qed.

Lemma spread_passes {V} (obj more : list (string * V)) k u :
  NoDup (map fst obj) -> NoDup (map fst more) ->
  In (k, u) more -> In (k, u) (spread obj more).
Proof.
  revert obj.
  induction more as [|[k0 v0] rest IH]; intros obj H Hm Hin; [contradiction|].
  cbn [map fst] in Hm. inversion Hm as [|? ? Hnot Hrest]; subst.
  change (spread obj ((k0, v0) :: rest)) with (spread (setKey k0 v0 obj) rest).
  destruct Hin as [E|Hin].
  - injection E as -> ->. apply spread_keeps.
    + now apply setKey_NoDup.
    + apply setKey_In.
    + assumption.
  - apply IH; [now apply setKey_NoDup|assumption|assumption].
Qed.

(** X3. The headers of a request never repeat a key; keys are told apart
    as an object tells them apart, letter case included.  With a stored
    token the one header keyed [Authorization] is [Bearer] and that token,
    even when the caller passed an [Authorization] of its own; without one,
    an [Authorization] header is there only if the caller passed it.  The
    [Content-Type] is [application/json] unless the caller passed
    another.  Every header the caller passed is sent with the caller's
    value, an [Authorization] that the stored token replaces apart, so that
    a [Content-Type] of the caller is the one sent; and nothing is sent
    besides the caller's headers, the default [Content-Type] and the
    token's [Authorization]. *)
Theorem requestHeaders_entries :
  forall token options,
    let headers := requestHeaders token options in
    NoDup (map fst headers) /\
    (forall t, token = Some t -> isEmpty t = false ->
       forall v, In ("Authorization", v) headers <-> v = bearer t) /\
    (tokenPresent token = false ->
       forall v, In ("Authorization", v) headers ->
                 In ("Authorization", v) (o_headers options)) /\
    (forall v, In ("Content-Type", v) headers ->
               v = "application/json" \/ In ("Content-Type", v) (o_headers options)) /\
    (~ In "Content-Type" (map fst (o_headers options)) ->
     In ("Content-Type", "application/json") headers) /\
    (NoDup (map fst (o_headers options)) ->
     forall k v, In (k, v) (o_headers options) ->
                 (k = "Authorization" -> tokenPresent token = false) ->
                 In (k, v) headers) /\
    (forall k v, In (k, v) headers ->
       In (k, v) (o_headers options) \/
       (k, v) = ("Content-Type", "application/json") \/
       (exists t, token = Some t /\ isEmpty t = false /\
                  (k, v) = ("Authorization", bearer t))).
Proof.
  intros token options headers.
  set (base := spread [("Content-Type", "application/json")] (o_headers options)).
  assert (H0 : NoDup (map fst [("Content-Type", "application/json")]))
    by (constructor; [intros []|constructor]).
  assert (Hb : NoDup (map fst base)) by now apply spread_NoDup.
  assert (Hbase : forall k u, In (k, u) base ->
            In (k, u) (o_headers options) \/
            ((k, u) = ("Content-Type", "application/json") /\
             ~ In k (map fst (o_headers options)))).
  { intros k u Hin. apply spread_entries in Hin; [|assumption].
    destruct Hin as [Hin|[[E|[]] Hn]]; [now left|]. right. split; [now symmetry|assumption]. }
  assert (Hh : (tokenPresent token = false /\ headers = base) \/
               exists t, token = Some t /\ isEmpty t = false /\
                         headers = setKey "Authorization" (bearer t) base).
  { unfold headers, requestHeaders, tokenPresent. fold base.
    destruct token as [t|]; [|now left].
    destruct (isEmpty t) eqn:E; [now left|]. right. now exists t. }
  split; [|split; [|split; [|split; [|split; [|split]]]]].
  - destruct Hh as [[_ ->]|(t & _ & _ & ->)]; [assumption|now apply setKey_NoDup].
  - intros t -> Ht v. destruct Hh as [[Hp _]|(t' & Et & _ & ->)].
    + simpl in Hp. rewrite Ht in Hp. discriminate.
    + injection Et as <-. rewrite (setKey_entries _ _ _ Hb). split.
      * intros [[_ ->]|[Hk _]]; [reflexivity|contradiction].
      * intros ->. now left.
  - intros Hno v Hin. destruct Hh as [[_ Hh]|(t & -> & Ht & _)].
    + rewrite Hh in Hin. destruct (Hbase _ _ Hin) as [Ho|[E _]]; [assumption|discriminate].
    + simpl in Hno. now rewrite Ht in Hno.
  - intros v Hin. destruct Hh as [[_ Hh]|(t & _ & _ & Hh)]; rewrite Hh in Hin.
    + destruct (Hbase _ _ Hin) as [Ho|[E _]]; [now right|].
      injection E as ->. now left.
    + apply (setKey_entries _ _ _ Hb) in Hin.
      destruct Hin as [[E _]|[_ Hin]]; [discriminate|].
      destruct (Hbase _ _ Hin) as [Ho|[E _]]; [now right|].
      injection E as ->. now left.
  - intros Hn.
    assert (Hin : In ("Content-Type", "application/json") base).
    { apply spread_keeps; [assumption|now left|assumption]. }
    destruct Hh as [[_ ->]|(t & _ & _ & ->)]; [assumption|].
    apply (setKey_entries _ _ _ Hb). right. split; [discriminate|assumption].
  - intros Hnd k v Hin Hauth.
    assert (Hinb : In (k, v) base) by now apply spread_passes.
    destruct Hh as [[_ ->]|(t & -> & Ht & ->)]; [assumption|].
    apply (setKey_entries _ _ _ Hb). right. split; [|assumption].
    intros ->. specialize (Hauth eq_refl). simpl in Hauth.
    rewrite Ht in Hauth. discriminate Hauth.
  - intros k v Hin. destruct Hh as [[_ Hh]|(t & Et & Ht & Hh)]; rewrite Hh in Hin.
    + destruct (Hbase _ _ Hin) as [Ho|[E _]]; [now left|right; now left].
    + apply (setKey_entries _ _ _ Hb) in Hin.
      destruct Hin as [[-> ->]|[_ Hin]].
      * right. right. exists t. repeat split; assumption.
      * destruct (Hbase _ _ Hin) as [Ho|[E _]]; [now left|right; now left].
Qed.

Lemma requestHeaders_entries_witness :
  let options :=
    mkOptions (Some "POST")
      [("Authorization", "Basic xyz"); ("Content-Type", "text/plain")] None in
  In ("Authorization", bearer "abc") (requestHeaders (Some "abc") options) /\
  ~ In ("Authorization", "Basic xyz") (requestHeaders (Some "abc") options) /\
  In ("Content-Type", "text/plain") (requestHeaders (Some "abc") options).
Proof.
  intros options.
  pose proof (requestHeaders_entries (Some "abc") options) as H. cbv zeta in H.
  destruct H as (_ & H & _ & _ & _ & Hpass & _).
  specialize (H "abc" eq_refl eq_refl).
  split; [|split].
  - apply (proj2 (H (bearer "abc"))). reflexivity.
  - intros Hin. apply (proj1 (H "Basic xyz")) in Hin. discriminate Hin.
  - apply Hpass.
    + repeat constructor; simpl; intuition discriminate.
    + right. left. reflexivity.
    + discriminate.
Defined.

(** X4. [login] sends exactly one request.  It returns a token exactly
    when the answer grants one, and then that token is stored; in every
    other case it throws and leaves the stored token as it was.  When the
    answer is a response that is not ok, the error thrown carries its
    status, unless the [detail] of its body does not convert to a string:
    then the TypeError of the conversion is thrown. *)
Theorem login_outcome :
  forall env w,
    let answer := network w (sent w) (loginRequest env) in
    let run := login env w in
    sent (snd run) = (sent w ++ [loginRequest env])%list /\
    network (snd run) = network w /\
    (forall tok, fst run = Ok tok <-> grantedToken answer = Some tok) /\
    (forall tok, fst run = Ok tok -> auth_token (snd run) = Some tok) /\
    ((exists e, fst run = Throw e) -> auth_token (snd run) = auth_token w) /\
    (forall r, answer = Fulfilled r -> ok r = false ->
       (unprintableDetail r = false ->
        exists e, fst run = Throw e /\ Js.status e = Some (status r)) /\
       (unprintableDetail r = true -> fst run = Throw cannotConvert)).
Proof.
  intros env w answer run. unfold run, answer.
  pose proof (login_run env w) as H.
  destruct (grantedToken (network w (sent w) (loginRequest env))) as [tok|] eqn:Hg.
  - rewrite H. cbn [fst snd sent network auth_token].
    split; [reflexivity|]. split; [reflexivity|]. split; [|split; [|split]].
    + intros tok'. split; intros E; injection E as <-; reflexivity.
    + intros tok' E. injection E as <-. reflexivity.
    + intros [e E]. discriminate E.
    + intros r Hr Hok. rewrite Hr in Hg. simpl in Hg. rewrite Hok in Hg. discriminate.
  - destruct H as [e H]. rewrite H. unfold after. cbn [fst snd sent network auth_token].
    split; [reflexivity|]. split; [reflexivity|].
    split; [split; discriminate|]. split; [discriminate|]. split; [reflexivity|].
    intros r Hr Hok. unfold login, bindM in H. rewrite fetch_run, Hr in H.
    rewrite Hok in H. cbn [negb] in H. unfold lift, throw in H.
    pose proof (handleApiError_outcome r) as Ho.
    split; intros Hu; rewrite Hu in Ho.
    + destruct Ho as [e' [He' Hs]]. rewrite He' in H.
      injection H as <-. exists e'. split; [reflexivity|assumption].
    + rewrite Ho in H. injection H as <-. reflexivity.
Qed.

Lemma login_outcome_witness :
  exists e,
    fst (login demoEnv
           (mkWorld (Some "stale") []
              (fun _ _ => Fulfilled (mkResponse 503 "Service Unavailable" None))))
    = Throw e /\ Js.status e = Some 503.
Proof.
  pose proof (login_outcome demoEnv
                (mkWorld (Some "stale") []
                   (fun _ _ => Fulfilled (mkResponse 503 "Service Unavailable" None))))
    as H.
  cbv zeta in H. destruct H as (_ & _ & _ & _ & _ & H).
  apply (proj1 (H (mkResponse 503 "Service Unavailable" None) eq_refl eq_refl)).
  reflexivity.
Defined.

(** X5. The application is rendered whatever the login does.  With a
    token in store nothing is sent at the start; without one, exactly the
    login request is sent, and afterwards a token is stored exactly when the
    login granted one. *)
Theorem main_always_renders :
  forall env w,
    let run := Startup.main env w in
    fst run = Ok true /\
    (tokenPresent (auth_token w) = true -> snd run = w) /\
    (tokenPresent (auth_token w) = false ->
       sent (snd run) = (sent w ++ [loginRequest env])%list /\
       match grantedToken (network w (sent w) (loginRequest env)) with
       | Some tok => auth_token (snd run) = Some tok
       | None => auth_token (snd run) = auth_token w
       end).
Proof.
  intros env w run.
  assert (Hmain : run = (Ok true,
                         if tokenPresent (auth_token w) then w else snd (login env w))).
  { unfold run, Startup.main, tryCatch, ensureAuthenticated, bindM, getAuthToken,
      tokenPresent.
    destruct (auth_token w) as [t|]; [destruct (isEmpty t)|]; cbn [negb];
      try reflexivity; destruct (login env w) as [[tok|e] w1]; reflexivity. }
  rewrite Hmain. cbn [fst snd]. split; [reflexivity|]. split.
  - intros ->. reflexivity.
  - intros ->. pose proof (login_run env w) as Hrun.
    destruct (grantedToken _) as [tok|].
    + rewrite Hrun. split; reflexivity.
    + destruct Hrun as [e ->]. split; reflexivity.
Qed.

Lemma main_always_renders_witness :
  Startup.main demoEnv demoWorld = (Ok true, demoWorld).
Proof.
  pose proof (main_always_renders demoEnv demoWorld) as H. cbv zeta in H.
  destruct H as (H1 & H2 & _).
  rewrite (surjective_pairing (Startup.main demoEnv demoWorld)).
  rewrite H1, (H2 eq_refl). reflexivity.
Defined.

(** X6. [checkScheduledCall] follows the response [apiRequest] returns: a
    404 gives [null] and no error; any other response that is not ok is
    thrown as an error carrying its status, unless the [detail] of its body
    does not convert to a string: then the TypeError of the conversion is
    thrown; an ok response gives its JSON body, or throws when the body is
    no JSON. *)
Theorem checkScheduledCall_outcome :
  forall env candidateId w response w',
    apiRequest env ("/schedule/candidates/" ++ candidateId ++ "/scheduled-call")
               noOptions w = (Ok response, w') ->
    snd (checkScheduledCall env candidateId w) = w' /\
    (status response = 404 -> fst (checkScheduledCall env candidateId w) = Ok None) /\
    (ok response = false -> status response <> 404 ->
       (unprintableDetail response = false ->
        exists e, fst (checkScheduledCall env candidateId w) = Throw e /\
                  Js.status e = Some (status response)) /\
       (unprintableDetail response = true ->
        fst (checkScheduledCall env candidateId w) = Throw cannotConvert)) /\
    (ok response = true ->
       forall data, jsonBody response = Some data ->
                    fst (checkScheduledCall env candidateId w) = Ok (Some data)) /\
    (ok response = true -> jsonBody response = None ->
       exists e, fst (checkScheduledCall env candidateId w) = Throw e).
Proof.
  intros env candidateId w response w' Hreq.
  assert (Hc : checkScheduledCall env candidateId w =
    (if negb (ok response) then
       if status response =? 404 then Ok None
       else match handleApiError response with Ok e => Throw e | Throw e => Throw e end
     else match response_json response with
          | Ok data => Ok (Some data)
          | Throw e' => Throw e'
          end, w')).
  { unfold checkScheduledCall, bindM at 1. rewrite Hreq.
    destruct (ok response); cbn [negb].
    - unfold bindM, lift. destruct (response_json response); reflexivity.
    - destruct (status response =? 404); [reflexivity|].
      unfold bindM, lift, throw. destruct (handleApiError response); reflexivity. }
  rewrite Hc. cbn [fst snd]. unfold response_json.
  split; [reflexivity|]. split; [|split; [|split]].
  - intros H404. assert (Hok : ok response = false) by (unfold ok; rewrite H404; reflexivity).
    rewrite Hok, H404. reflexivity.
  - intros Hok Hne. rewrite Hok. cbn [negb].
    destruct (Z.eqb_spec (status response) 404) as [E|_]; [contradiction|].
    pose proof (handleApiError_outcome response) as Ho.
    split; intros Hu; rewrite Hu in Ho.
    + destruct Ho as [e [-> Hs]]. exists e. split; [reflexivity|assumption].
    + rewrite Ho. reflexivity.
  - intros Hok data Hd. rewrite Hok, Hd. reflexivity.
  - intros Hok Hd. rewrite Hok, Hd. eexists. reflexivity.
Qed.

Lemma checkScheduledCall_outcome_witness :
  fst (checkScheduledCall demoEnv "candidate-1"
         (mkWorld None [] (fun _ _ => Fulfilled (mkResponse 404 "Not Found" None))))
  = Ok None.
Proof.
  apply (proj1 (proj2 (checkScheduledCall_outcome demoEnv "candidate-1"
           (mkWorld None [] (fun _ _ => Fulfilled (mkResponse 404 "Not Found" None)))
           (mkResponse 404 "Not Found" None) _ eq_refl))).
  reflexivity.
Defined.

End ApiClientFacts.

(** ** More on phone numbers *)

Module PhoneInputFacts.
Import Js Phone PhoneInput.
Import PhoneTerms PhoneFacts.

Lemma inputValue_hasNone c : hasNone isWhiteSpace (inputValue c) = true.
Proof. apply removeAll_hasNone. Qed.

Lemma enteredDigits_inputValue c : enteredDigits c = inputValue c.
Proof. unfold enteredDigits. fold (inputValue c). apply trim_fixed, inputValue_hasNone. Qed.

Lemma inputValue_prefixed v :
  hasNone isWhiteSpace v = true -> inputValue ("+44" ++ v) = v.
Proof.
  intros H. unfold inputValue.
  change (removePrefix "+44" ("+44" ++ v)) with v. now apply removeAll_fixed.
Qed.

Lemma onBlur_value c : inputValue (onBlur c) = inputValue c.
Proof.
  unfold onBlur.
  rewrite (removeAll_fixed _ _ (inputValue_hasNone c)).
  destruct (isEmpty (inputValue c)); [reflexivity|].
  apply inputValue_prefixed, inputValue_hasNone.
Qed.

Lemma isEmpty_length s : isEmpty s = negb (0 <? String.length s)%nat.
Proof. destruct s; reflexivity. Qed.

(** X7. The validation line under the phone input and the confirm button
    agree: with no submission in flight the button is enabled exactly when
    the line reads as valid, and it is disabled when the line is absent. *)
Theorem validationHint_agrees_with_button :
  forall c : string,
    confirmDisabled false false c =
    match validationHint c with
    | Some valid => negb valid
    | None => true
    end.
Proof.
  intros c. unfold confirmDisabled, validationHint. cbn [orb].
  rewrite enteredDigits_inputValue. fold (inputValue c).
  rewrite (isEmpty_length (inputValue c)).
  destruct c as [|a r].
  - reflexivity.
  - cbn [isEmpty negb andb].
    destruct (0 <? String.length (inputValue (String a r)))%nat; reflexivity.
Qed.

(** X8. Leaving the phone input changes neither the digits it shows nor the
    verdict of the button and of the validation line, and doing it twice is
    the same as doing it once.  Typing keeps the shown value to at most 11
    digits. *)
Theorem phone_input_keeps_its_value :
  forall c : string,
    inputValue (onBlur c) = inputValue c /\
    (forall isLoading isTriggeringCall,
       confirmDisabled isLoading isTriggeringCall (onBlur c)
       = confirmDisabled isLoading isTriggeringCall c) /\
    validationHint (onBlur c) = validationHint c /\
    onBlur (onBlur c) = onBlur c /\
    (forall value,
       allDigits (inputValue c) = true ->
       (String.length (inputValue c) <= 11)%nat ->
       allDigits (inputValue (phoneInput_onChange value c)) = true /\
       (String.length (inputValue (phoneInput_onChange value c)) <= 11)%nat).
Proof.
  intros c. pose proof (onBlur_value c) as Hv.
  split; [exact Hv|]. split; [|split; [|split]].
  - intros l t. unfold confirmDisabled.
    now rewrite !enteredDigits_inputValue, Hv.
  - unfold validationHint. fold (inputValue (onBlur c)). fold (inputValue c).
    rewrite Hv. unfold onBlur.
    rewrite (removeAll_fixed _ _ (inputValue_hasNone c)).
    destruct (isEmpty (inputValue c)) eqn:E; [reflexivity|].
    destruct c as [|a r]; [discriminate E|]. reflexivity.
  - unfold onBlur at 1. rewrite Hv. unfold onBlur.
    rewrite (removeAll_fixed _ _ (inputValue_hasNone c)).
    destruct (isEmpty (inputValue c)); reflexivity.
  - intros value Hd Hl. unfold phoneInput_onChange.
    set (v := removeAll (fun ch => negb (isDigit ch)) value).
    destruct (Nat.leb_spec (String.length v) 11) as [Hle|_]; [|now split].
    assert (Hv' : allDigits v = true).
    { unfold v. clear. induction value as [|a r IH]; [reflexivity|].
      simpl. destruct (isDigit a) eqn:E; simpl; [now rewrite E|assumption]. }
    assert (Hi : inputValue v = v).
    { unfold inputValue, removePrefix.
      destruct v as [|a r]; [reflexivity|].
      assert (Ha : isDigit a = true) by (simpl in Hv'; now apply andb_true_iff in Hv').
      assert (Hp : startsWith (String a r) "+44" = false).
      { cbn [startsWith]. destruct (Ascii.eqb_spec "+" a) as [<-|]; [discriminate Ha|reflexivity]. }
      rewrite Hp. apply removeAll_fixed. now apply allDigits_hasNone. }
    rewrite Hi. now split.
Qed.

Lemma phone_input_keeps_its_value_witness :
  allDigits (inputValue (phoneInput_onChange "07700 123456" "")) = true /\
  (String.length (inputValue (phoneInput_onChange "07700 123456" "")) <= 11)%nat.
Proof.
  apply (proj2 (proj2 (proj2 (proj2 (phone_input_keeps_its_value ""))))).
  - reflexivity.
  - simpl. lia.
Defined.

(** X9. [formatPhoneNumber] returns a plus sign followed by digits and plus
    signs only, and leaves alone a string that already is one.  The number
    [handleConfirmSchedule] builds from digits typed into the input is such
    a string, so the API receives exactly the number that was validated. *)
Theorem formatPhoneNumber_shape :
  forall phone : string,
    startsWith (Api.formatPhoneNumber phone) "+" = true /\
    hasNone dropped (Api.formatPhoneNumber phone) = true /\
    (startsWith phone "+" = true -> hasNone dropped phone = true ->
     Api.formatPhoneNumber phone = phone) /\
    (allDigits (enteredDigits phone) = true ->
     Api.formatPhoneNumber (normalizePhone phone) = normalizePhone phone).
Proof.
  intros phone.
  assert (Hfix : forall p, startsWith p "+" = true -> hasNone dropped p = true ->
                           Api.formatPhoneNumber p = p).
  { intros p Hp Hd. unfold Api.formatPhoneNumber. fold dropped.
    rewrite (removeAll_fixed _ _ Hd), Hp. reflexivity. }
  split; [|split; [|split]].
  - unfold Api.formatPhoneNumber. fold dropped.
    destruct (startsWith (removeAll dropped phone) "+") eqn:E; [exact E|reflexivity].
  - unfold Api.formatPhoneNumber. fold dropped.
    destruct (startsWith (removeAll dropped phone) "+").
    + apply removeAll_hasNone.
    + change (hasNone dropped ("+" ++ removeAll dropped phone))
        with (hasNone dropped (removeAll dropped phone)).
      apply removeAll_hasNone.
  - apply Hfix.
  - intros Hd. apply Hfix; [reflexivity|].
    unfold normalizePhone.
    change (hasNone dropped ("+44" ++ removeLeading isZero (enteredDigits phone)))
      with (hasNone dropped (removeLeading isZero (enteredDigits phone))).
    apply removeLeading_hasNone.
    clear - Hd. induction (enteredDigits phone) as [|a r IH]; [reflexivity|].
    simpl in Hd. apply andb_true_iff in Hd. destruct Hd as [Ha Hr].
    simpl. unfold dropped at 1. rewrite Ha. simpl. now apply IH.
Qed.

Lemma formatPhoneNumber_shape_witness :
  Api.formatPhoneNumber (normalizePhone "07700123456") = normalizePhone "07700123456".
Proof.
  apply (proj2 (proj2 (proj2 (formatPhoneNumber_shape "07700123456")))).
  reflexivity.
Defined.

(** X10. The phone number of a status answer is brought to one form: the
    national spelling with its trunk zero, the international one without
    the plus sign and the one with it all give +44 and the national
    number; doing it again changes nothing. *)
Theorem withCountryCode_canonical :
  forall n : string,
    BookingPage.withCountryCode ("0" ++ n) = "+44" ++ n /\
    BookingPage.withCountryCode ("44" ++ n) = "+44" ++ n /\
    BookingPage.withCountryCode ("+44" ++ n) = "+44" ++ n /\
    BookingPage.withCountryCode (BookingPage.withCountryCode n)
    = BookingPage.withCountryCode n.
Proof.
  intros n. repeat split.
  unfold BookingPage.withCountryCode.
  destruct (startsWith n "44" && negb (startsWith n "+44")) eqn:E1.
  - reflexivity.
  - destruct (startsWith n "0") eqn:E2.
    + reflexivity.
    + now rewrite E1, E2.
Qed.

End PhoneInputFacts.

(** ** More on the booking page *)

Module BookingFlowFacts.
Import Js JsDate DateUtils Phone BookingPage BookingFlows.
Import FlowTerms.

Lemma loadScheduledCall_keepsForm {engine : Engine} candidateId now fetched st :
  keepsForm st (loadScheduledCall candidateId now fetched st).
Proof.
  unfold loadScheduledCall, keepsForm.
  destruct (present candidateId); cbn [negb]; [|repeat split].
  destruct fetched as [data|e]; [destruct (present _)|]; repeat split.
Qed.

(** X11. [loadScheduledCall] touches the scheduled call, the two phone
    numbers and [isCheckingCall] only.  With a candidate it leaves
    [isCheckingCall] false; when the request fails it clears the scheduled
    call and keeps the phone numbers; without a candidate it does
    nothing. *)
Theorem loadScheduledCall_frame {engine : Engine} :
  forall candidateId now fetched st,
    let st' := loadScheduledCall candidateId now fetched st in
    keepsForm st st' /\
    (present candidateId = true -> isCheckingCall st' = false) /\
    (present candidateId = true -> forall e, fetched = Throw e ->
       scheduledCallInfo st' = None /\
       candidatePhoneNumber st' = candidatePhoneNumber st /\
       confirmedPhoneNumber st' = confirmedPhoneNumber st) /\
    (present candidateId = false -> st' = st).
Proof.
  intros candidateId now fetched st st'. subst st'. unfold loadScheduledCall, keepsForm.
  destruct (present candidateId); cbn [negb].
  - split; [|split; [|split]].
    + destruct fetched as [data|e]; [destruct (present _)|]; repeat split.
    + intros _. destruct fetched as [data|e]; [destruct (present _)|]; reflexivity.
    + intros _ e ->. repeat split.
    + discriminate.
  - repeat split; discriminate.
Qed.

Lemma loadScheduledCall_frame_witness :
  scheduledCallInfo
    (loadScheduledCall (engine := standardOnly) (Some "candidate-1") 0 (Throw (Js.Error "Failed to fetch"))
       (setScheduledCallInfo (Some (mkInfo (Some 5) true None)) initialState)) = None.
Proof.
  apply (proj1 (proj2 (proj2 (loadScheduledCall_frame (engine := standardOnly) (Some "candidate-1") 0
           (Throw (Js.Error "Failed to fetch"))
           (setScheduledCallInfo (Some (mkInfo (Some 5) true None)) initialState))))
         eq_refl (Js.Error "Failed to fetch") eq_refl).
Defined.

Ltac split_bool H :=
  repeat match type of H with
  | (if ?c then _ else _) = _ => let E := fresh "E" in destruct c eqn:E; try discriminate H
  | match ?c with _ => _ end = _ => let E := fresh "E" in destruct c eqn:E; try discriminate H
  end.



(** The state [handleScheduleCall] ends in once it has sent the call. *)
Lemma handleScheduleCall_sent_state {engine : Engine}
    candidateId phoneNumberToUse now confirmed scheduleCall later fetched st st' data :
  handleScheduleCall candidateId phoneNumberToUse now confirmed scheduleCall
                     later fetched st = Ok (st', Some data) ->
  st' =
  match scheduleCall data with
  | Ok result =>
      let booking :=
        Api.setKey "status" (Api.JStr "SCHEDULED")
          (Api.setKey "scheduled_at" (Api.JStr (scheduled_datetime data)) result) in
      setIsLoading false
        (setShowConfirmationModal false
           (loadScheduledCall candidateId later fetched
              (setIsSubmitted true
                 (setBookingData (Some booking) (setError None (setIsLoading true st))))))
  | Throw err =>
      setIsLoading false
        (setError (Some (messageOr err "Failed to schedule call. Please try again."))
           (setError None (setIsLoading true st)))
  end.
Proof.
  intros H. unfold handleScheduleCall in H.
  destruct candidateId as [cid|]; [|discriminate H].
  destruct (isEmpty cid); [discriminate H|].
  destruct (isEmpty (trim (phoneToUse phoneNumberToUse st))); [discriminate H|].
  destruct (selectedDate st) as [date|]; [|discriminate H].
  destruct (selectedTime st) as [label|]; [|discriminate H].
  destruct (isEmpty label); [discriminate H|].
  destruct (timeMatch label) as [[[m1 m2] m3]|]; [|discriminate H].
  destruct (parseInt m1) as [h0|]; [|discriminate H].
  destruct (parseInt m2) as [minutes|]; [|discriminate H].
  cbn [number] in H.
  destruct (selectedDateTime date (to24Hour (toUpperCase m3) h0) minutes)
    as [instant|e]; [|discriminate H].
  destruct (match instant with Some t => t <=? now | None => false end);
    [discriminate H|].
  destruct (existingFuture st && negb confirmed); [discriminate H|].
  destruct (toISOString instant) as [iso|e]; [|discriminate H].
  cbv zeta in H.
  destruct (scheduleCall (mkScheduleCallData cid (phoneToUse phoneNumberToUse st) iso))
    as [result|err] eqn:Ecall; injection H as <- <-; rewrite Ecall; reflexivity.
Qed.

Lemma lookup_In key (obj : list (string * Api.json)) :
  NoDup (map fst obj) ->
  forall v, Api.lookup key obj = Some v <-> In (key, v) obj.
Proof.
  induction obj as [|[k u] rest IH]; simpl; intros H v.
  - split; [discriminate|intros []].
  - inversion H as [|? ? Hnot Hrest]; subst.
    specialize (IH Hrest).
    destruct (Api.lookup key rest) as [v'|] eqn:El.
    + assert (Hin : In (key, v') rest) by now apply IH.
      assert (Hk : k <> key).
      { intros ->. apply Hnot. apply in_map_iff. now exists (key, v'). }
      split.
      * intros E. injection E as <-. now right.
      * intros [E|Hv]; [injection E as E1 _; contradiction|].
        apply IH in Hv. exact Hv.
    + destruct (String.eqb_spec k key) as [->|Hne].
      * split.
        -- intros E. injection E as <-. now left.
        -- intros [E|Hv]; [now injection E as <-|].
           apply IH in Hv. discriminate.
      * split; [discriminate|].
        intros [E|Hv]; [injection E as E1 _; contradiction|].
        apply IH in Hv. discriminate.
Qed.

Import ApiClientFacts.

Lemma lookup_setKey key (v : Api.json) obj :
  NoDup (map fst obj) ->
  Api.lookup key (Api.setKey key v obj) = Some v /\
  (forall k, k <> key -> Api.lookup k (Api.setKey key v obj) = Api.lookup k obj).
Proof.
  intros H. pose proof (setKey_NoDup key v obj H) as H'.
  split.
  - apply (lookup_In key _ H').
    apply (setKey_entries key v obj H). now left.
  - intros k Hk.
    destruct (Api.lookup k obj) as [u|] eqn:El.
    + apply (lookup_In k _ H').
      apply (setKey_entries key v obj H). right. split; [assumption|].
      now apply (lookup_In k _ H).
    + destruct (Api.lookup k (Api.setKey key v obj)) as [u|] eqn:El'; [|reflexivity].
      apply (lookup_In k _ H') in El'.
      apply (setKey_entries key v obj H) in El'.
      destruct El' as [[E _]|[_ Hin]]; [contradiction|].
      apply (lookup_In k _ H) in Hin. congruence.
Qed.

(** X13. Once [handleScheduleCall] has sent the call: if the API fails, the
    selection, the booking shown, the scheduled call, the phone numbers and
    the modal stay as they were, the error is the thrown message (or the
    fixed text when it is empty) and [isLoading] is false; if it succeeds,
    the page is marked submitted, the booking is the API's object with
    [status] set to SCHEDULED and [scheduled_at] set to the instant sent,
    the modal is closed and the selection is kept. *)
Theorem handleScheduleCall_outcome {engine : Engine} :
  forall candidateId phoneNumberToUse now confirmed scheduleCall later fetched st st' data,
    handleScheduleCall candidateId phoneNumberToUse now confirmed scheduleCall
                       later fetched st = Ok (st', Some data) ->
    (forall err, scheduleCall data = Throw err ->
       keepsBooking st st' /\
       error st' = Some (messageOr err "Failed to schedule call. Please try again.") /\
       isLoading st' = false) /\
    (forall result, scheduleCall data = Ok result ->
       NoDup (map fst result) ->
       isSubmitted st' = true /\ showConfirmationModal st' = false /\
       isLoading st' = false /\ error st' = None /\
       selectedDate st' = selectedDate st /\ selectedTime st' = selectedTime st /\
       exists booking,
         bookingData st' = Some booking /\
         Api.lookup "status" booking = Some (Api.JStr "SCHEDULED") /\
         Api.lookup "scheduled_at" booking = Some (Api.JStr (scheduled_datetime data)) /\
         (forall k, k <> "status" -> k <> "scheduled_at" ->
                    Api.lookup k booking = Api.lookup k result)).
Proof.
  intros candidateId phoneNumberToUse now confirmed scheduleCall later fetched st st' data H.
  pose proof (handleScheduleCall_sent_state _ _ _ _ _ _ _ _ _ _ H) as Hst.
  split.
  - intros err Herr. rewrite Herr in Hst. subst st'. unfold keepsBooking. repeat split.
  - intros result Hres Hnd. rewrite Hres in Hst. cbv zeta in Hst. subst st'.
    pose proof (loadScheduledCall_keepsForm candidateId later fetched
                  (setIsSubmitted true
                     (setBookingData
                        (Some (Api.setKey "status" (Api.JStr "SCHEDULED")
                                 (Api.setKey "scheduled_at"
                                    (Api.JStr (scheduled_datetime data)) result)))
                        (setError None (setIsLoading true st))))) as F.
    destruct F as (F1 & F2 & F3 & F4 & F5 & F6 & _).
    cbn [isSubmitted showConfirmationModal isLoading error selectedDate selectedTime
         bookingData setIsLoading setShowConfirmationModal].
    rewrite F1, F2, F3, F5, F6.
    repeat (split; [reflexivity|]).
    eexists. split; [reflexivity|].
    pose proof (lookup_setKey "scheduled_at" (Api.JStr (scheduled_datetime data))
                  result Hnd) as [L1 L2].
    pose proof (lookup_setKey "status" (Api.JStr "SCHEDULED") _
                  (setKey_NoDup "scheduled_at" (Api.JStr (scheduled_datetime data))
                     result Hnd)) as [L3 L4].
    split; [exact L3|]. split.
    + rewrite L4 by discriminate. exact L1.
    + intros k Hk1 Hk2. rewrite L4 by assumption. now apply L2.
Qed.

Lemma handleScheduleCall_outcome_witness :
  exists st',
    handleScheduleCall (engine := standardOnly) (Some "candidate-1") (Some "+447700123456") 1741000000000 false
      (fun _ => Throw (Js.Error "Number is barred")) 1741000000500 (Ok None) confirmState
    = Ok (st', Some (mkScheduleCallData "candidate-1" "+447700123456"
                       "2025-03-10T14:30:00.000Z")) /\
    keepsBooking confirmState st' /\
    error st' = Some "Number is barred" /\ isLoading st' = false.
Proof.
  assert (H : exists st',
    handleScheduleCall (engine := standardOnly) (Some "candidate-1") (Some "+447700123456") 1741000000000 false
      (fun _ => Throw (Js.Error "Number is barred")) 1741000000500 (Ok None) confirmState
    = Ok (st', Some (mkScheduleCallData "candidate-1" "+447700123456"
                       "2025-03-10T14:30:00.000Z"))).
  { eexists. vm_compute. reflexivity. }
  destruct H as [st' H]. exists st'. split; [exact H|].
  exact (proj1 (handleScheduleCall_outcome (engine := standardOnly) _ _ _ _ _ _ _ _ _ _ H)
               (Js.Error "Number is barred") eq_refl).
Defined.

(** X14. [handleImmediateCallConfirm] always ends with [isTriggeringCall],
    [isImmediateCall] and [isLoading] false.  If the API fails, the
    selection, the booking, the scheduled call, the phone numbers and the
    modal stay as they were and the error is the thrown message; if it
    succeeds, the page is marked submitted, the booking is the API's object
    with [status] set to TRIGGERED, and the modal is closed. *)
Theorem handleImmediateCallConfirm_outcome {engine : Engine} :
  forall candidateId phoneNumber triggerImmediateCall later fetched st,
    let data := mkImmediateCallData candidateId phoneNumber in
    let st' := handleImmediateCallConfirm candidateId phoneNumber triggerImmediateCall
                 later fetched st in
    isTriggeringCall st' = false /\ isImmediateCall st' = false /\ isLoading st' = false /\
    (forall err, triggerImmediateCall data = Throw err ->
       keepsBooking st st' /\
       error st' = Some (messageOr err "Failed to trigger call. Please try again.")) /\
    (forall result, triggerImmediateCall data = Ok result ->
       NoDup (map fst result) ->
       isSubmitted st' = true /\ showConfirmationModal st' = false /\ error st' = None /\
       exists booking,
         bookingData st' = Some booking /\
         Api.lookup "status" booking = Some (Api.JStr "TRIGGERED") /\
         (forall k, k <> "status" -> Api.lookup k booking = Api.lookup k result)).
Proof.
  intros candidateId phoneNumber trigger later fetched st data st'.
  subst st' data. unfold handleImmediateCallConfirm.
  split; [reflexivity|]. split; [reflexivity|]. split; [reflexivity|]. split.
  - intros err ->. unfold keepsBooking. repeat split.
  - intros result -> Hnd. cbv zeta.
    pose proof (loadScheduledCall_keepsForm candidateId later fetched
                  (setIsSubmitted true
                     (setBookingData
                        (Some (Api.setKey "status" (Api.JStr "TRIGGERED") result))
                        (setError None (setIsTriggeringCall true st))))) as F.
    destruct F as (F1 & F2 & F3 & F4 & F5 & F6 & _).
    cbn [isSubmitted showConfirmationModal error bookingData setIsLoading
         setIsImmediateCall setIsTriggeringCall setShowConfirmationModal].
    rewrite F3, F5, F6.
    repeat (split; [reflexivity|]).
    eexists. split; [reflexivity|].
    exact (lookup_setKey "status" (Api.JStr "TRIGGERED") result Hnd).
Qed.

Lemma handleImmediateCallConfirm_outcome_witness :
  let st' := handleImmediateCallConfirm (engine := standardOnly) (Some "candidate-1") "+447700123456"
               (fun _ => Throw (Js.Error "")) 0 (Ok None) confirmState in
  keepsBooking confirmState st' /\
  error st' = Some "Failed to trigger call. Please try again.".
Proof.
  exact (proj1 (proj2 (proj2 (proj2
           (handleImmediateCallConfirm_outcome (engine := standardOnly) (Some "candidate-1") "+447700123456"
              (fun _ => Throw (Js.Error "")) 0 (Ok None) confirmState))))
         (Js.Error "") eq_refl).
Defined.

Lemma handleConfirmSchedule_phone_valid c p :
  handleConfirmSchedule_phone c = inr p ->
  p = normalizePhone c /\ isValidUKPhone p = true /\ isEmpty p = false.
Proof.
  unfold handleConfirmSchedule_phone.
  destruct (isEmpty (enteredDigits c)); [discriminate|].
  destruct (isValidUKPhone (normalizePhone c)) eqn:E; [|discriminate].
  intros H. injection H as <-. repeat split. exact E.
Qed.

Lemma handleScheduleCall_sent_phone {engine : Engine}
    candidateId phoneNumberToUse now confirmed scheduleCall later fetched st st' data :
  handleScheduleCall candidateId phoneNumberToUse now confirmed scheduleCall
                     later fetched st = Ok (st', Some data) ->
  candidate_phone_number_ data = phoneToUse phoneNumberToUse st.
Proof.
  intros H. unfold handleScheduleCall in H.
  destruct candidateId as [cid|]; [|discriminate H].
  destruct (isEmpty cid); [discriminate H|].
  destruct (isEmpty (trim (phoneToUse phoneNumberToUse st))); [discriminate H|].
  destruct (selectedDate st) as [date|]; [|discriminate H].
  destruct (selectedTime st) as [label|]; [|discriminate H].
  destruct (isEmpty label); [discriminate H|].
  destruct (timeMatch label) as [[[m1 m2] m3]|]; [|discriminate H].
  destruct (parseInt m1) as [h0|]; [|discriminate H].
  destruct (parseInt m2) as [minutes|]; [|discriminate H].
  cbn [number] in H.
  destruct (selectedDateTime date (to24Hour (toUpperCase m3) h0) minutes)
    as [instant|e]; [|discriminate H].
  destruct (match instant with Some t => t <=? now | None => false end);
    [discriminate H|].
  destruct (existingFuture st && negb confirmed); [discriminate H|].
  destruct (toISOString instant) as [iso|e]; [|discriminate H].
  cbv zeta in H.
  destruct (scheduleCall _); injection H as <- <-; reflexivity.
Qed.

(** X15. Whatever [handleConfirmSchedule] hands to the API, a scheduled
    call or an immediate one, carries the number built from the phone input
    (the +44 prefix and the white space removed, the leading zeros removed,
    +44 in front), and that number is valid; with an input that does not
    validate nothing is sent and only the error changes. *)
Theorem handleConfirmSchedule_sends_valid_phone {engine : Engine} :
  forall candidateId now confirmed scheduleCall triggerImmediateCall later fetched st,
    let run := handleConfirmSchedule candidateId now confirmed scheduleCall
                 triggerImmediateCall later fetched st in
    let typed := confirmedPhoneNumber st in
    match snd run with
    | ScheduledSent data =>
        candidate_phone_number_ data = normalizePhone typed /\
        isValidUKPhone (candidate_phone_number_ data) = true
    | ImmediateSent data =>
        ic_candidate_phone_number data = normalizePhone typed /\
        isValidUKPhone (ic_candidate_phone_number data) = true
    | NothingSent => True
    end /\
    (isEmpty (enteredDigits typed) = true \/ isValidUKPhone (normalizePhone typed) = false ->
     snd run = NothingSent /\
     exists msg, fst run = setError (Some msg) st).
Proof.
  intros candidateId now confirmed scheduleCall trigger later fetched st run typed.
  subst run typed. unfold handleConfirmSchedule. split.
  - destruct (handleConfirmSchedule_phone (confirmedPhoneNumber st)) as [msg|p] eqn:Ep;
      [exact I|].
    destruct (handleConfirmSchedule_phone_valid _ _ Ep) as (Hp & Hv & Hne).
    destruct (isImmediateCall st).
    + cbn [snd ic_candidate_phone_number]. rewrite <- Hp. now split.
    + destruct (handleScheduleCall _ _ _ _ _ _ _ _) as [[st2 [data|]]|err] eqn:Es;
        cbn [snd]; try exact I.
      apply handleScheduleCall_sent_phone in Es.
      unfold phoneToUse in Es. rewrite Hne in Es. rewrite Es, <- Hp. now split.
  - intros Hbad. unfold handleConfirmSchedule_phone.
    destruct (isEmpty (enteredDigits (confirmedPhoneNumber st))) eqn:E1.
    + split; [reflexivity|]. eexists. reflexivity.
    + destruct Hbad as [Hb|Hb]; [discriminate|]. rewrite Hb. cbn [negb].
      split; [reflexivity|]. eexists. reflexivity.
Qed.

Lemma handleConfirmSchedule_sends_valid_phone_witness :
  snd (handleConfirmSchedule (engine := standardOnly) (Some "candidate-1") 0 false
         (fun _ => Ok []) (fun _ => Ok []) 0 (Ok None)
         (setConfirmedPhoneNumber "12345" confirmState)) = NothingSent /\
  exists msg,
    fst (handleConfirmSchedule (engine := standardOnly) (Some "candidate-1") 0 false
           (fun _ => Ok []) (fun _ => Ok []) 0 (Ok None)
           (setConfirmedPhoneNumber "12345" confirmState))
    = setError (Some msg) (setConfirmedPhoneNumber "12345" confirmState).
Proof.
  apply (proj2 (handleConfirmSchedule_sends_valid_phone (engine := standardOnly) (Some "candidate-1") 0 false
                  (fun _ => Ok []) (fun _ => Ok []) 0 (Ok None)
                  (setConfirmedPhoneNumber "12345" confirmState))).
  right. reflexivity.
Defined.

Lemma timeMatch_nonempty label m : timeMatch label = Some m -> isEmpty label = false.
Proof. destruct label; [discriminate|reflexivity]. Qed.

(** X16. When the confirm button is pressed with a valid number and
    [handleScheduleCall] then refuses the selection, because the instant is
    not after the clock or because the user declined to replace the
    existing call, nothing is sent and [isLoading], set before the call,
    is still true afterwards: the confirm button stays disabled. *)
Theorem handleConfirmSchedule_refusal_keeps_loading {engine : Engine} :
  forall cid now confirmed scheduleCall triggerImmediateCall later fetched st
         p date label m1 m2 m3 h0 minutes t,
    isImmediateCall st = false ->
    handleConfirmSchedule_phone (confirmedPhoneNumber st) = inr p ->
    isEmpty cid = false ->
    selectedDate st = Some date -> selectedTime st = Some label ->
    timeMatch label = Some (m1, m2, m3) ->
    parseInt m1 = Some h0 -> parseInt m2 = Some minutes ->
    selectedDateTime date (to24Hour (toUpperCase m3) h0) minutes = Ok (Some t) ->
    t <= now \/ (existingFuture st = true /\ confirmed = false) ->
    let run := handleConfirmSchedule (Some cid) now confirmed scheduleCall
                 triggerImmediateCall later fetched st in
    snd run = NothingSent /\
    isLoading (fst run) = true /\
    confirmButtonDisabled (fst run) = true /\
    (t <= now -> error (fst run) = Some "Cannot schedule a call in the past").
Proof.
  intros cid now confirmed scheduleCall trigger later fetched st
         p date label m1 m2 m3 h0 minutes t
         Himm Hp Hcid Hdate Hlabel Hm H1 H2 Hs Hcase run.
  destruct (handleConfirmSchedule_phone_valid _ _ Hp) as (Hpn & Hv & Hne).
  subst run. unfold handleConfirmSchedule. rewrite Hp, Himm.
  unfold handleScheduleCall, phoneToUse. rewrite Hne, Hcid.
  assert (Ht : isEmpty (trim p) = false).
  { rewrite Hpn. unfold normalizePhone.
    change (trim ("+44" ++ ?x)) with (trimEnd ("+44" ++ x)).
    reflexivity. }
  rewrite Ht.
  cbn [selectedDate selectedTime setIsLoading setError].
  rewrite Hdate, Hlabel, (timeMatch_nonempty _ _ Hm), Hm. cbv beta iota.
  rewrite H1, H2. cbn [number]. rewrite Hs. cbv beta iota.
  unfold confirmButtonDisabled.
  destruct (Z.leb_spec t now) as [Hle|Hgt].
  - cbn [fst snd isLoading isTriggeringCall setError confirmDisabled]. repeat split.
  - destruct Hcase as [Hle|[Hf ->]]; [lia|].
    unfold existingFuture in *.
    cbn [scheduledCallInfo setIsLoading setError]. rewrite Hf.
    cbn [fst snd isLoading]. repeat split. intros Hle. lia.
Qed.

Lemma handleConfirmSchedule_refusal_keeps_loading_witness :
  let run := handleConfirmSchedule (engine := standardOnly) (Some "candidate-1") 1741617000000 false
               (fun _ => Ok []) (fun _ => Ok []) 1741617000500 (Ok None) confirmState in
  snd run = NothingSent /\
  isLoading (fst run) = true /\
  confirmButtonDisabled (fst run) = true /\
  (1741617000000 <= 1741617000000 ->
   error (fst run) = Some "Cannot schedule a call in the past").
Proof.
  apply (handleConfirmSchedule_refusal_keeps_loading (engine := standardOnly) "candidate-1" 1741617000000 false
           (fun _ => Ok []) (fun _ => Ok []) 1741617000500 (Ok None) confirmState
           "+447700123456" (mkLocalDate 2025 2 10) "2:30 PM" "2" "30" "PM" 2 30
           1741617000000);
    try reflexivity.
  left. lia.
Defined.

End BookingFlowFacts.

(** ** The slot selector *)

Module SlotSelectorFacts.
Import Js JsDate DateUtils TimeSlotSelector SlotSelector.
Import SlotTerms.






Lemma fold_pushSlot validSlots : forall groups,
  fold_left pushSlot validSlots groups
  = mkGroups (popular groups ++ filter isPopular validSlots)
             (morning groups ++ filter (inPeriod 6 12) validSlots)
             (afternoon groups ++ filter (inPeriod 12 18) validSlots)
             (evening groups ++ filter (inPeriod 18 24) validSlots)
             (night groups ++ filter atNight validSlots).
Proof.
  induction validSlots as [|slot rest IH]; intros groups.
  - cbn. rewrite !app_nil_r. now destruct groups.
  - cbn [fold_left filter]. rewrite IH. unfold pushSlot, inPeriod, atNight.
    destruct (isPopular slot); cbn [negb andb popular morning afternoon evening night].
    { now rewrite <- app_assoc. }
    destruct (Z.leb_spec 6 (hour slot)), (Z.ltb_spec (hour slot) 12);
      cbn [negb andb popular morning afternoon evening night].
    all: try (destruct (Z.leb_spec 12 (hour slot)); [lia|];
              destruct (Z.leb_spec 18 (hour slot)); [lia|];
              destruct (Z.ltb_spec (hour slot) 24); [|lia];
              cbn [negb andb]; now rewrite <- app_assoc).
    all: destruct (Z.leb_spec 12 (hour slot)), (Z.ltb_spec (hour slot) 18),
           (Z.leb_spec 18 (hour slot)), (Z.ltb_spec (hour slot) 24);
      try lia; cbn [negb andb popular morning afternoon evening night];
      now rewrite <- app_assoc.
Qed.

(** X18. [groupedSlots] splits the valid slots without losing, repeating
    or reordering any: the popular group holds the slots with a popular
    label, each of the other groups the remaining slots of its hours (6 to
    11, 12 to 17, 18 to 23, and the rest), each in the order of the input,
    and the five lengths add up to the number of valid slots. *)
Theorem groupedSlots_partition :
  forall validSlots,
    let groups := groupedSlots validSlots in
    popular groups = filter isPopular validSlots /\
    morning groups = filter (inPeriod 6 12) validSlots /\
    afternoon groups = filter (inPeriod 12 18) validSlots /\
    evening groups = filter (inPeriod 18 24) validSlots /\
    night groups = filter atNight validSlots /\
    (length (popular groups) + length (morning groups) + length (afternoon groups)
     + length (evening groups) + length (night groups) = length validSlots)%nat.
Proof.
  intros validSlots groups. subst groups. unfold groupedSlots.
  rewrite fold_pushSlot. cbn [popular morning afternoon evening night app].
  repeat (split; [reflexivity|]).
  induction validSlots as [|slot rest IH]; [reflexivity|].
  cbn [filter length]. unfold inPeriod, atNight in *.
  destruct (isPopular slot); cbn [negb andb length]; [lia|].
  destruct (Z.leb_spec 6 (hour slot)), (Z.ltb_spec (hour slot) 12),
    (Z.leb_spec 12 (hour slot)), (Z.ltb_spec (hour slot) 18),
    (Z.leb_spec 18 (hour slot)), (Z.ltb_spec (hour slot) 24);
    try lia; cbn [negb andb length]; lia.
Qed.

(** X19. [toggleGroup] flips whether the named group is expanded and
    leaves every other group as it was. *)
Theorem toggleGroup_flips :
  forall groupName prev g,
    In g (toggleGroup groupName prev) <->
    (g = groupName /\ ~ In groupName prev) \/ (g <> groupName /\ In g prev).
Proof.
  intros name prev g. unfold toggleGroup.
  destruct (existsb (String.eqb name) prev) eqn:E.
  - apply existsb_exists in E. destruct E as (x & Hx & Hxe).
    apply String.eqb_eq in Hxe. subst x.
    rewrite filter_In. split.
    + intros [Hin Hne]. right. split; [|exact Hin].
      intros ->. rewrite String.eqb_refl in Hne. discriminate.
    + intros [[-> Hn]|[Hne Hin]]; [contradiction|].
      split; [exact Hin|]. apply negb_true_iff. now apply String.eqb_neq.
  - assert (Hn : ~ In name prev).
    { intros Hin. apply Bool.not_true_iff_false in E. apply E.
      apply existsb_exists. exists name. split; [exact Hin|apply String.eqb_refl]. }
    rewrite in_app_iff. cbn [In]. split.
    + intros [Hin|[<-|[]]].
      * right. split; [|exact Hin]. intros ->. contradiction.
      * now left.
    + intros [[-> _]|[_ Hin]]; [right; now left|now left].
Qed.

End SlotSelectorFacts.

(** ** The two conversions of a selection to an instant *)

Module ConversionFacts.
Import Js JsDate DateUtils TimeSlotSelector BookingPage.
Import DateTerms DateFacts.

Lemma londonOffset_cases t : londonOffset t = 0 \/ londonOffset t = msPerHour.
Proof. unfold londonOffset. destruct (_ && _); auto. Qed.

Lemma Date_UTC_fields y mo d h m ref :
  Date_UTC y mo d h m = Some ref ->
  exists day, ref = day * msPerDay + h * msPerHour + m * msPerMinute.
Proof.
  unfold Date_UTC, TimeClip. intros H.
  destruct (Z.abs _ <=? _); [|discriminate]. injection H as <-. eauto.
Qed.

(** X20. For every selected date and each of the 96 slots whose
    reference instant, which reads the selected date and time at offset 0,
    is not before 1996, [convertToISO8601] prints the reference instant
    moved back by the offset London has at that instant: this holds in
    winter, and in summer for the slots before 23:00.  In summer the slots
    from 23:00 on are printed one day later than that. *)
Theorem convertToISO8601_by_london_offset :
  forall d slot ref,
    In slot generateTimeSlots ->
    0 <= getMonth d <= 11 -> 1 <= getDate d <= 31 ->
    Date_UTC (getFullYear d) (getMonth d) (getDate d) (hour slot) (minute slot) = Some ref ->
    ruleStart <= ref ->
    (londonOffset ref = 0 \/ hour slot < 23 ->
     convertToISO8601 d (timeString slot) = toISOString (TimeClip (ref - londonOffset ref))) /\
    (londonOffset ref = msPerHour -> 23 <= hour slot ->
     convertToISO8601 d (timeString slot)
     = toISOString (TimeClip (ref - londonOffset ref + msPerDay))).
Proof.
  intros d slot ref Hin Hmo Hda Href Hrule.
  unfold convertToISO8601.
  rewrite (convertToInstant_shift d slot ref Hin Hmo Hda Href).
  destruct (slot_label slot Hin) as (_ & _ & _ & _ & _ & _ & _ & _ & Hh & _).
  unfold shift. split.
  - intros Hcase. do 2 f_equal.
    destruct (londonOffset_cases ref) as [E|E]; rewrite E.
    + cbn [Z.eqb]. lia.
    + change (msPerHour =? 0) with false. cbv iota.
      destruct Hcase as [Hz|Hlt]; [rewrite E in Hz; discriminate Hz|].
      destruct (Z.ltb_spec (hour slot) 23); lia.
  - intros E H23. rewrite E.
    change (msPerHour =? 0) with false. cbv iota.
    destruct (Z.ltb_spec (hour slot) 23); [lia|].
    do 2 f_equal. unfold msPerHour, msPerDay. lia.
Qed.

Lemma convertToISO8601_by_london_offset_witness :
  convertToISO8601 july15 (timeString (mkSlot "2:30 PM" 14 30))
  = toISOString (TimeClip (1752589800000 - londonOffset 1752589800000)).
Proof.
  apply (proj1 (convertToISO8601_by_london_offset july15 (mkSlot "2:30 PM" 14 30)
                  1752589800000
                  ltac:(vm_compute; do 58 right; left; reflexivity)
                  ltac:(cbn; lia) ltac:(cbn; lia) ltac:(vm_compute; reflexivity)
                  ltac:(unfold ruleStart; lia))).
  right. cbn. lia.
Defined.

Lemma Date_UTC_clip y mo d h m ref :
  Date_UTC y mo d h m = Some ref -> TimeClip ref = Some ref.
Proof.
  unfold Date_UTC. generalize (MakeDay (if (0 <=? y) && (y <=? 99) then 1900 + y else y)
                                 mo d * msPerDay + h * msPerHour + m * msPerMinute).
  intros x. unfold TimeClip. destruct (Z.abs x <=? _) eqn:E; [|discriminate].
  intros H. injection H as <-. now rewrite E.
Qed.

Lemma selectedDateTime_shift d h m ref :
  0 <= h < 24 -> 0 <= m < 60 ->
  Date_UTC (getFullYear d) (getMonth d) (getDate d) h m = Some ref ->
  selectedDateTime d h m = Ok (TimeClip (ref - shift ref h)).
Proof.
  intros Hh Hm Href. unfold selectedDateTime. cbv zeta. rewrite Href.
  destruct (london_parts ref) as (parts & -> & -> & ->).
  destruct (Date_UTC_fields _ _ _ _ _ _ Href) as [day Hday].
  pose proof (london_fields day h m Hh Hm) as F.
  cbv zeta in F. rewrite <- Hday in F. destruct F as (Fh & Fm & Fs).
  destruct (two_digits (cHour (londonCivil ref))) as [-> _]; [lia|].
  destruct (two_digits (cMinute (londonCivil ref))) as [-> _]; [lia|].
  cbn [number]. rewrite Fs. reflexivity.
Qed.

(** X21. The conversion inside [handleScheduleCall] subtracts the
    difference that [convertToISO8601] adds.  For a selection whose
    reference instant, which reads it at offset 0, is not before 1996: in
    winter it gives the reference instant, as [convertToISO8601] does; in
    summer before 23:00 it gives one hour after that instant, two hours
    after the one [convertToISO8601] gives; in summer from 23:00 on it
    gives 23 hours before it. *)
Theorem selectedDateTime_by_london_offset :
  forall d h m ref,
    0 <= h < 24 -> 0 <= m < 60 ->
    Date_UTC (getFullYear d) (getMonth d) (getDate d) h m = Some ref ->
    ruleStart <= ref ->
    (londonOffset ref = 0 -> selectedDateTime d h m = Ok (Some ref)) /\
    (londonOffset ref = msPerHour -> h < 23 ->
     selectedDateTime d h m = Ok (TimeClip (ref + msPerHour))) /\
    (londonOffset ref = msPerHour -> h = 23 ->
     selectedDateTime d h m = Ok (TimeClip (ref - 23 * msPerHour))).
Proof.
  intros d h m ref Hh Hm Href Hrule.
  rewrite (selectedDateTime_shift d h m ref Hh Hm Href). unfold shift.
  split; [|split].
  - intros ->. cbn [Z.eqb]. rewrite Z.sub_0_r.
    f_equal. exact (Date_UTC_clip _ _ _ _ _ _ Href).
  - intros -> Hlt. change (msPerHour =? 0) with false. cbv iota.
    destruct (Z.ltb_spec h 23); [|lia]. do 2 f_equal.
  - intros -> ->. change (msPerHour =? 0) with false.
    change (23 <? 23) with false. cbv iota. reflexivity.
Qed.

Lemma selectedDateTime_by_london_offset_witness :
  selectedDateTime july15 14 30 = Ok (TimeClip (1752589800000 + msPerHour)).
Proof.
  apply (proj1 (proj2 (selectedDateTime_by_london_offset july15 14 30 1752589800000
                         ltac:(lia) ltac:(lia) ltac:(vm_compute; reflexivity)
                         ltac:(unfold ruleStart; lia)))).
  - vm_compute; reflexivity.
  - lia.
Defined.

End ConversionFacts.

(** ** The calendar of the runtime *)

Module CalendarFacts.
Import Js JsDate.
Import CalendarTerms.

Lemma yoe_bounds doe yoe :
  0 <= doe < 146097 ->
  yoe = (doe - doe / 1460 + doe / 36524 - doe / 146096) / 365 ->
  0 <= yoe < 400 /\ 0 <= doe - (365 * yoe + yoe / 4 - yoe / 100) < 366 /\
  (doe - (365 * yoe + yoe / 4 - yoe / 100) = 365 ->
   yoe mod 4 = 3 /\ (yoe mod 100 <> 99 \/ yoe = 399)).
Proof. intros H ->. Z.div_mod_to_equations. lia. Qed.

Lemma yoe_inv yoe doy :
  0 <= yoe < 400 -> 0 <= doy <= 365 ->
  (doy = 365 -> yoe mod 4 = 3 /\ (yoe mod 100 <> 99 \/ yoe = 399)) ->
  let doe := yoe * 365 + yoe / 4 - yoe / 100 + doy in
  (doe - doe / 1460 + doe / 36524 - doe / 146096) / 365 = yoe /\ 0 <= doe < 146097.
Proof. intros H1 H2 H3 doe. subst doe. Z.div_mod_to_equations. lia. Qed.

Lemma month_of_mp mp m :
  0 <= mp <= 11 -> m = (if mp <? 10 then mp + 3 else mp - 9) ->
  1 <= m <= 12 /\ (if 2 <? m then m - 3 else m + 9) = mp /\
  (m <=? 2) = negb (mp <? 10).
Proof.
  intros H ->. destruct (Z.ltb_spec mp 10).
  - destruct (Z.ltb_spec 2 (mp + 3)); [|lia]. destruct (Z.leb_spec (mp + 3) 2); [lia|].
    repeat split; lia.
  - destruct (Z.ltb_spec 2 (mp - 9)); [lia|]. destruct (Z.leb_spec (mp - 9) 2); [|lia].
    repeat split; lia.
Qed.

Lemma civilFromDays_fields z y m d :
  civilFromDays z = (y, m, d) ->
  exists era yoe mp,
    0 <= yoe < 400 /\ 0 <= mp <= 11 /\
    y = yoe + era * 400 + (if m <=? 2 then 1 else 0) /\
    m = (if mp <? 10 then mp + 3 else mp - 9) /\
    1 <= d /\
    let doy := (153 * mp + 2) / 5 + d - 1 in
    0 <= doy <= 365 /\
    (5 * doy + 2) / 153 = mp /\
    (doy = 365 -> yoe mod 4 = 3 /\ (yoe mod 100 <> 99 \/ yoe = 399)) /\
    z = era * 146097 + (yoe * 365 + yoe / 4 - yoe / 100 + doy) - 719468.
Proof.
  unfold civilFromDays. cbv beta iota zeta.
  remember (z + 719468) as z' eqn:Ez.
  remember (z' / 146097) as era eqn:Eera.
  remember (z' - era * 146097) as doe eqn:Edoe.
  remember ((doe - doe / 1460 + doe / 36524 - doe / 146096) / 365) as yoe eqn:Eyoe.
  remember (doe - (365 * yoe + yoe / 4 - yoe / 100)) as doy eqn:Edoy.
  remember ((5 * doy + 2) / 153) as mp eqn:Emp.
  intros H.
  pose proof (f_equal (fun p => fst (fst p)) H) as Hy.
  pose proof (f_equal (fun p => snd (fst p)) H) as Hm.
  pose proof (f_equal snd H) as Hd.
  cbn [fst snd] in Hy, Hm, Hd. clear H.
  assert (Hdoe : 0 <= doe < 146097).
  { subst doe era. pose proof (Z.mod_pos_bound z' 146097 ltac:(lia)) as B.
    rewrite Z.mod_eq in B by lia. lia. }
  destruct (yoe_bounds doe yoe Hdoe Eyoe) as (Hyoe & Hdoy & Hleap).
  rewrite <- Edoy in Hdoy, Hleap.
  assert (Hmp : 0 <= mp <= 11) by (subst mp; Z.div_mod_to_equations; lia).
  exists era, yoe, mp.
  split; [exact Hyoe|]. split; [exact Hmp|].
  split; [now subst y m|]. split; [now subst m|].
  assert (Hd1 : (153 * mp + 2) / 5 + d - 1 = doy) by lia.
  split; [subst d mp; Z.div_mod_to_equations; lia|].
  cbv zeta. rewrite Hd1.
  split; [lia|]. split; [now subst mp|]. split; [exact Hleap|]. lia.
Qed.

Lemma daysFromCivil_fields y m d :
  1 <= m <= 12 ->
  exists era yoe mp,
    0 <= yoe < 400 /\ 0 <= mp <= 11 /\
    y = yoe + era * 400 + (if m <=? 2 then 1 else 0) /\
    m = (if mp <? 10 then mp + 3 else mp - 9) /\
    daysFromCivil y m d
    = era * 146097 + (yoe * 365 + yoe / 4 - yoe / 100 + ((153 * mp + 2) / 5 + d - 1))
      - 719468.
Proof.
  intros Hm. unfold daysFromCivil. cbv zeta.
  remember (if m <=? 2 then y - 1 else y) as y' eqn:Ey.
  remember (if 2 <? m then m - 3 else m + 9) as mp eqn:Emp.
  exists (y' / 400), (y' - y' / 400 * 400), mp.
  pose proof (Z.mod_pos_bound y' 400 ltac:(lia)) as B.
  rewrite Z.mod_eq in B by lia.
  split; [lia|].
  assert (Hmp : 0 <= mp <= 11 /\ m = (if mp <? 10 then mp + 3 else mp - 9)).
  { subst mp. destruct (Z.ltb_spec 2 m).
    - destruct (Z.ltb_spec (m - 3) 10); lia.
    - destruct (Z.ltb_spec (m + 9) 10); lia. }
  destruct Hmp as [Hmp Hm'].
  split; [exact Hmp|]. split.
  { subst y'. destruct (m <=? 2); lia. }
  split; [exact Hm'|]. reflexivity.
Qed.

Lemma daysFromCivil_day y m d : daysFromCivil y m d = daysFromCivil y m 1 + d - 1.
Proof. unfold daysFromCivil. cbv zeta. lia. Qed.

Ltac calc_months :=
  repeat match goal with
  | |- context [?a / 12] =>
      let v := eval vm_compute in (a / 12) in change (a / 12) with v
  | |- context [?a mod 12] =>
      let v := eval vm_compute in (a mod 12) in change (a mod 12) with v
  end;
  repeat match goal with
  | |- context [?a + ?b <=? 2] =>
      let v := eval vm_compute in (a + b <=? 2) in change (a + b <=? 2) with v
  | |- context [2 <? ?a + ?b] =>
      let v := eval vm_compute in (2 <? a + b) in change (2 <? a + b) with v
  end;
  cbv iota;
  repeat match goal with
  | |- context [(153 * ?a + 2) / 5] =>
      let v := eval vm_compute in ((153 * a + 2) / 5) in
      change ((153 * a + 2) / 5) with v
  end.

Lemma daysInMonth_table y m : 1 <= m <= 12 -> daysInMonth y m = monthLength y m.
Proof.
  intros Hm. unfold daysInMonth, monthLength, leapYear.
  assert (Hc : m = 1 \/ m = 2 \/ m = 3 \/ m = 4 \/ m = 5 \/ m = 6 \/ m = 7 \/ m = 8 \/
               m = 9 \/ m = 10 \/ m = 11 \/ m = 12) by lia.
  unfold daysFromCivil.
  repeat (destruct Hc as [-> | Hc]); [| | | | | | | | | | | subst m];
    cbn [Z.eqb Z.leb Z.ltb Z.compare Pos.compare Pos.compare_cont orb andb negb
         Pos.eqb];
    cbv zeta; calc_months.
  all: try match goal with
       | |- context [?a mod 4 =? 0] =>
           destruct (Z.eqb_spec (a mod 4) 0), (Z.eqb_spec (a mod 100) 0),
             (Z.eqb_spec (a mod 400) 0); cbn [andb orb negb]
       end.
  all: Z.div_mod_to_equations; lia.
Qed.

(** The day number of a date whose fields are given through the era. *)
Lemma daysFromCivil_of_fields era yoe mp d :
  0 <= yoe < 400 -> 0 <= mp <= 11 ->
  let m := if mp <? 10 then mp + 3 else mp - 9 in
  daysFromCivil (yoe + era * 400 + (if m <=? 2 then 1 else 0)) m d
  = era * 146097 + (yoe * 365 + yoe / 4 - yoe / 100 + ((153 * mp + 2) / 5 + d - 1))
    - 719468.
Proof.
  intros Hy Hmp m.
  destruct (month_of_mp mp m Hmp eq_refl) as (Hm1 & Hm2 & Hm3).
  unfold daysFromCivil. cbv zeta. rewrite Hm2, Hm3.
  assert (Hy' : (if negb (mp <? 10)
                 then yoe + era * 400 + (if negb (mp <? 10) then 1 else 0) - 1
                 else yoe + era * 400 + (if negb (mp <? 10) then 1 else 0))
                = yoe + era * 400) by (destruct (mp <? 10); cbn [negb]; lia).
  rewrite Hy'.
  assert (He : (yoe + era * 400) / 400 = era)
    by (symmetry; apply (Z.div_unique _ _ era yoe); lia).
  rewrite He.
  replace (yoe + era * 400 - era * 400) with yoe by lia.
  reflexivity.
Qed.

(** The civil date of a day number given through the era. *)
Lemma civilFromDays_of_fields era yoe mp d :
  0 <= yoe < 400 -> 0 <= mp <= 11 -> 1 <= d ->
  let doy := (153 * mp + 2) / 5 + d - 1 in
  doy <= 365 -> (5 * doy + 2) / 153 = mp ->
  (doy = 365 -> yoe mod 4 = 3 /\ (yoe mod 100 <> 99 \/ yoe = 399)) ->
  let m := if mp <? 10 then mp + 3 else mp - 9 in
  civilFromDays (era * 146097 + (yoe * 365 + yoe / 4 - yoe / 100 + doy) - 719468)
  = (yoe + era * 400 + (if m <=? 2 then 1 else 0), m, d).
Proof.
  intros Hy Hmp Hd doy Hdoy Hmonth Hleap m.
  assert (Hdoy0 : 0 <= doy) by (subst doy; Z.div_mod_to_equations; lia).
  destruct (yoe_inv yoe doy Hy ltac:(lia) Hleap) as [Hyoe Hdoe].
  cbv zeta in Hyoe, Hdoe.
  remember (yoe * 365 + yoe / 4 - yoe / 100 + doy) as doe eqn:Edoe.
  unfold civilFromDays. cbv beta iota zeta.
  replace (era * 146097 + doe - 719468 + 719468) with (doe + era * 146097) by lia.
  assert (He : (doe + era * 146097) / 146097 = era)
    by (symmetry; apply (Z.div_unique _ _ era doe); lia).
  rewrite He.
  replace (doe + era * 146097 - era * 146097) with doe by lia.
  rewrite Hyoe.
  replace (doe - (365 * yoe + yoe / 4 - yoe / 100)) with doy by lia.
  rewrite Hmonth. fold m.
  f_equal. subst doy. lia.
Qed.

(** Day number to date and back. *)
Lemma daysFromCivil_civilFromDays z y m d :
  civilFromDays z = (y, m, d) ->
  daysFromCivil y m d = z /\ 1 <= m <= 12 /\ 1 <= d <= monthLength y m.
Proof.
  intros H.
  destruct (civilFromDays_fields z y m d H)
    as (era & yoe & mp & Hy & Hmp & Ey & Em & Hd & Hdoy & Hmonth & Hleap & Ez).
  destruct (month_of_mp mp m Hmp Em) as (Hm1 & Hm2 & Hm3).
  split; [|split; [exact Hm1|split; [exact Hd|]]].
  - pose proof (daysFromCivil_of_fields era yoe mp d Hy Hmp) as F.
    cbv zeta in F. rewrite <- Em, <- Ey in F. rewrite F, Ez. reflexivity.
  - unfold monthLength, leapYear.
    assert (Hc : mp = 0 \/ mp = 1 \/ mp = 2 \/ mp = 3 \/ mp = 4 \/ mp = 5 \/ mp = 6 \/
                 mp = 7 \/ mp = 8 \/ mp = 9 \/ mp = 10 \/ mp = 11 \/ False) by lia.
    repeat (destruct Hc as [-> | Hc]); [| | | | | | | | | | | | contradiction];
      cbn in Em; subst m; cbn [Z.eqb Z.leb Z.compare Pos.compare Pos.compare_cont
                               orb andb negb Pos.eqb] in *.
    all: try (Z.div_mod_to_equations; lia).
    destruct (Z.eqb_spec (y mod 4) 0), (Z.eqb_spec (y mod 100) 0),
      (Z.eqb_spec (y mod 400) 0); cbn [andb orb negb];
      Z.div_mod_to_equations; lia.
Qed.

(** Date to day number and back. *)
Lemma civilFromDays_daysFromCivil y m d :
  1 <= m <= 12 -> 1 <= d <= monthLength y m ->
  civilFromDays (daysFromCivil y m d) = (y, m, d).
Proof.
  intros Hm Hd.
  destruct (daysFromCivil_fields y m d Hm) as (era & yoe & mp & Hy & Hmp & Ey & Em & Ez).
  rewrite Ez.
  pose proof (civilFromDays_of_fields era yoe mp d Hy Hmp ltac:(lia)) as F.
  cbv zeta in F. rewrite <- Em, <- Ey in F. apply F; clear F.
  all: unfold monthLength, leapYear in Hd.
  all: assert (Hc : mp = 0 \/ mp = 1 \/ mp = 2 \/ mp = 3 \/ mp = 4 \/ mp = 5 \/ mp = 6 \/
                    mp = 7 \/ mp = 8 \/ mp = 9 \/ mp = 10 \/ mp = 11 \/ False) by lia.
  all: repeat (destruct Hc as [-> | Hc]); [| | | | | | | | | | | | contradiction];
      cbn in Em; subst m; cbn [Z.eqb Z.leb Z.compare Pos.compare Pos.compare_cont
                               orb andb negb Pos.eqb] in *.
  all: try (Z.div_mod_to_equations; lia).
  all: destruct (Z.eqb_spec (y mod 4) 0), (Z.eqb_spec (y mod 100) 0),
      (Z.eqb_spec (y mod 400) 0); cbn [andb orb negb] in Hd;
      Z.div_mod_to_equations; lia.
Qed.

End CalendarFacts.

(** ** Printing an instant and reading it back *)

Module PrintFacts.
Import Js JsDate.
Import CalendarTerms DisplayTerms CalendarFacts.

Ltac each_digit d :=
  destruct d as [|d|d|d|d|d|d|d|d|d|d].

Lemma size_nonneg d : 0 <= size d.
Proof. unfold size. lia. Qed.

Lemma of_uint_acc_value d : forall acc,
  Z.pos (Pos.of_uint_acc d acc) = Z.pos acc * 10 ^ size d + valueOf d.
Proof.
  unfold valueOf, size.
  induction d as [|d IH|d IH|d IH|d IH|d IH|d IH|d IH|d IH|d IH|d IH]; intros acc;
    cbn [Pos.of_uint_acc Pos.of_uint Decimal.nb_digits];
    rewrite ?Nat2Z.inj_succ, ?Z.pow_succ_r by lia;
    try (cbn [Z.of_N Z.of_nat Z.pow]; lia);
    rewrite ?IH; cbn [Z.of_N]; rewrite ?(IH 1%positive), ?(IH 2%positive),
      ?(IH 3%positive), ?(IH 4%positive), ?(IH 5%positive), ?(IH 6%positive),
      ?(IH 7%positive), ?(IH 8%positive), ?(IH 9%positive); lia.
Qed.

(** The value of a numeral, from its first digit. *)
Lemma valueOf_digit d :
  valueOf (Decimal.D0 d) = valueOf d /\
  valueOf (Decimal.D1 d) = 1 * 10 ^ size d + valueOf d /\
  valueOf (Decimal.D2 d) = 2 * 10 ^ size d + valueOf d /\
  valueOf (Decimal.D3 d) = 3 * 10 ^ size d + valueOf d /\
  valueOf (Decimal.D4 d) = 4 * 10 ^ size d + valueOf d /\
  valueOf (Decimal.D5 d) = 5 * 10 ^ size d + valueOf d /\
  valueOf (Decimal.D6 d) = 6 * 10 ^ size d + valueOf d /\
  valueOf (Decimal.D7 d) = 7 * 10 ^ size d + valueOf d /\
  valueOf (Decimal.D8 d) = 8 * 10 ^ size d + valueOf d /\
  valueOf (Decimal.D9 d) = 9 * 10 ^ size d + valueOf d.
Proof.
  repeat split; try reflexivity;
    unfold valueOf at 1; cbn [Pos.of_uint Z.of_N]; rewrite of_uint_acc_value; lia.
Qed.

Lemma valueOf_bounds d : 0 <= valueOf d < 10 ^ size d.
Proof.
  induction d as [|d IH|d IH|d IH|d IH|d IH|d IH|d IH|d IH|d IH|d IH];
    [unfold valueOf, size; cbn; lia|..];
    destruct (valueOf_digit d) as (E0 & E1 & E2 & E3 & E4 & E5 & E6 & E7 & E8 & E9);
    rewrite ?E0, ?E1, ?E2, ?E3, ?E4, ?E5, ?E6, ?E7, ?E8, ?E9;
    unfold size in *; cbn [Decimal.nb_digits];
    rewrite Nat2Z.inj_succ, Z.pow_succ_r by lia; lia.
Qed.

(** A numeral without a leading zero has at least the value of its
    first place. *)
Lemma valueOf_lower d :
  Decimal.unorm d = d -> d = Decimal.D0 Decimal.Nil \/ 10 ^ (size d - 1) <= valueOf d.
Proof.
  intros H. each_digit d.
  - exfalso. revert H. cbn. discriminate.
  - left. unfold Decimal.unorm in H. cbn [Decimal.nzhead] in H.
    destruct (Decimal.nzhead d) eqn:E; try (exfalso; congruence).
    + congruence.
    + exfalso. injection H as H. rewrite <- H in E.
      exact (DecimalFacts.nzhead_nonzero _ _ E).
  - right. destruct (valueOf_digit d) as (_ & E & _). rewrite E.
    pose proof (valueOf_bounds d) as B. unfold size in *. cbn [Decimal.nb_digits].
    rewrite Nat2Z.inj_succ, <- Z.add_1_r, Z.add_simpl_r. lia.
  - right. destruct (valueOf_digit d) as (_ & _ & E & _). rewrite E.
    pose proof (valueOf_bounds d) as B. unfold size in *. cbn [Decimal.nb_digits].
    rewrite Nat2Z.inj_succ, <- Z.add_1_r, Z.add_simpl_r. lia.
  - right. destruct (valueOf_digit d) as (_ & _ & _ & E & _). rewrite E.
    pose proof (valueOf_bounds d) as B. unfold size in *. cbn [Decimal.nb_digits].
    rewrite Nat2Z.inj_succ, <- Z.add_1_r, Z.add_simpl_r. lia.
  - right. destruct (valueOf_digit d) as (_ & _ & _ & _ & E & _). rewrite E.
    pose proof (valueOf_bounds d) as B. unfold size in *. cbn [Decimal.nb_digits].
    rewrite Nat2Z.inj_succ, <- Z.add_1_r, Z.add_simpl_r. lia.
  - right. destruct (valueOf_digit d) as (_ & _ & _ & _ & _ & E & _). rewrite E.
    pose proof (valueOf_bounds d) as B. unfold size in *. cbn [Decimal.nb_digits].
    rewrite Nat2Z.inj_succ, <- Z.add_1_r, Z.add_simpl_r. lia.
  - right. destruct (valueOf_digit d) as (_ & _ & _ & _ & _ & _ & E & _). rewrite E.
    pose proof (valueOf_bounds d) as B. unfold size in *. cbn [Decimal.nb_digits].
    rewrite Nat2Z.inj_succ, <- Z.add_1_r, Z.add_simpl_r. lia.
  - right. destruct (valueOf_digit d) as (_ & _ & _ & _ & _ & _ & _ & E & _). rewrite E.
    pose proof (valueOf_bounds d) as B. unfold size in *. cbn [Decimal.nb_digits].
    rewrite Nat2Z.inj_succ, <- Z.add_1_r, Z.add_simpl_r. lia.
  - right. destruct (valueOf_digit d) as (_ & _ & _ & _ & _ & _ & _ & _ & E & _).
    rewrite E.
    pose proof (valueOf_bounds d) as B. unfold size in *. cbn [Decimal.nb_digits].
    rewrite Nat2Z.inj_succ, <- Z.add_1_r, Z.add_simpl_r. lia.
  - right. destruct (valueOf_digit d) as (_ & _ & _ & _ & _ & _ & _ & _ & _ & E).
    rewrite E.
    pose proof (valueOf_bounds d) as B. unfold size in *. cbn [Decimal.nb_digits].
    rewrite Nat2Z.inj_succ, <- Z.add_1_r, Z.add_simpl_r. lia.
Qed.

Lemma takeDigits_numeral d : forall rest,
  takeDigits (Decimal.nb_digits d) (NilEmpty.string_of_uint d ++ rest)
  = Some (valueOf d, rest).
Proof.
  induction d as [|d IH|d IH|d IH|d IH|d IH|d IH|d IH|d IH|d IH|d IH]; intros rest;
    [reflexivity|..];
    destruct (valueOf_digit d) as (E0 & E1 & E2 & E3 & E4 & E5 & E6 & E7 & E8 & E9);
    cbn [Decimal.nb_digits NilEmpty.string_of_uint append takeDigits];
    match goal with
    | |- context [isDigit ?c] => change (isDigit c) with true; cbv iota
    end;
    rewrite IH;
    match goal with
    | |- context [digitValue ?c] =>
        let v := eval vm_compute in (digitValue c) in change (digitValue c) with v
    end;
    fold (size d);
    rewrite ?E0, ?E1, ?E2, ?E3, ?E4, ?E5, ?E6, ?E7, ?E8, ?E9;
    repeat f_equal; lia.
Qed.

Lemma length_numeral d :
  String.length (NilEmpty.string_of_uint d) = Decimal.nb_digits d.
Proof.
  induction d; cbn [NilEmpty.string_of_uint String.length Decimal.nb_digits]; congruence.
Qed.

Lemma takeDigits_zeros k : forall n s,
  takeDigits (k + n) (repeat0 k ++ s) = takeDigits n s.
Proof.
  induction k as [|k IH]; intros n s; [reflexivity|].
  cbn [Nat.add repeat0 append takeDigits]. change (isDigit "0") with true. cbv iota.
  rewrite IH. destruct (takeDigits n s) as [[v rest]|]; [|reflexivity].
  change (digitValue "0") with 0. now rewrite Z.mul_0_l.
Qed.

(** [String(v)] is the numeral of [v]. *)
Lemma String_numeral v :
  0 <= v ->
  exists d,
    String_ v = NilEmpty.string_of_uint d /\ valueOf d = v /\ Decimal.unorm d = d /\
    d <> Decimal.Nil.
Proof.
  intros Hv. exists (N.to_uint (Z.to_N v)).
  assert (Hn : N.to_uint (Z.to_N v) <> Decimal.Nil).
  { destruct (Z.to_N v); cbn [N.to_uint]; [discriminate|].
    apply DecimalPos.Unsigned.to_uint_nonnil. }
  split; [|split; [|split]].
  - unfold String_. destruct v as [|p|p]; [reflexivity| |lia].
    cbn [Z.to_int Z.to_N N.to_uint NilZero.string_of_int]. unfold NilZero.string_of_uint.
    pose proof (DecimalPos.Unsigned.to_uint_nonnil p) as Hp.
    destruct (Pos.to_uint p); [contradiction|reflexivity..].
  - unfold valueOf. change (Pos.of_uint (N.to_uint (Z.to_N v)))
      with (N.of_uint (N.to_uint (Z.to_N v))).
    rewrite DecimalN.Unsigned.of_to. lia.
  - rewrite <- (DecimalN.Unsigned.to_of (N.to_uint (Z.to_N v))).
    now rewrite DecimalN.Unsigned.of_to.
  - exact Hn.
Qed.

Lemma pow10_lt a b : 10 ^ a < 10 ^ b -> 0 <= a -> a < b.
Proof.
  intros H Ha. destruct (Z.lt_ge_cases a b) as [L|G]; [exact L|].
  exfalso. assert (0 <= b \/ b < 0) as [Hb|Hb] by lia.
  - pose proof (Z.pow_le_mono_r 10 b a ltac:(lia) G). lia.
  - rewrite (Z.pow_neg_r 10 b Hb) in H. pose proof (Z.pow_pos_nonneg 10 a ltac:(lia) Ha).
    lia.
Qed.

Lemma append_assoc3 (a b c : string) : (a ++ b) ++ c = a ++ (b ++ c).
Proof. induction a as [|x a IH]; [reflexivity|]. cbn [append]. now rewrite IH. Qed.

(** [n] digits printed with [padStart] are read back by the date parser. *)
Lemma takeDigits_pad n v rest :
  (1 <= n)%nat -> 0 <= v < 10 ^ Z.of_nat n ->
  takeDigits n (pad n v ++ rest) = Some (v, rest).
Proof.
  intros Hn Hv.
  destruct (String_numeral v ltac:(lia)) as (d & Es & Ev & Eu & Hd).
  unfold pad, padStart0. rewrite Es, length_numeral.
  assert (Hsize : (Decimal.nb_digits d <= n)%nat).
  { destruct (valueOf_lower d Eu) as [-> | L]; [cbn; lia|].
    rewrite Ev in L. unfold size in L.
    assert (10 ^ (Z.of_nat (Decimal.nb_digits d) - 1) < 10 ^ Z.of_nat n) by lia.
    assert (0 < Decimal.nb_digits d)%nat.
    { destruct d; [contradiction|cbn; lia..]. }
    apply pow10_lt in H; lia. }
  replace n with ((n - Decimal.nb_digits d) + Decimal.nb_digits d)%nat at 1 by lia.
  rewrite append_assoc3, takeDigits_zeros, takeDigits_numeral.
  now rewrite Ev.
Qed.

(** A year of four digits is printed as [padStart] would print it. *)
Lemma String_year y : 1000 <= y <= 9999 -> String_ y = pad 4 y.
Proof.
  intros Hy.
  destruct (String_numeral y ltac:(lia)) as (d & Es & Ev & Eu & Hd).
  unfold pad, padStart0. rewrite Es, length_numeral.
  pose proof (valueOf_bounds d) as B. rewrite Ev in B. unfold size in B.
  assert (H4 : (4 <= Decimal.nb_digits d)%nat).
  { assert (10 ^ 3 < 10 ^ Z.of_nat (Decimal.nb_digits d)) by (change (10 ^ 3) with 1000; lia).
    apply pow10_lt in H; lia. }
  replace (4 - Decimal.nb_digits d)%nat with 0%nat by lia. reflexivity.
Qed.

Lemma takeDigits_pad2 v rest :
  0 <= v < 100 -> takeDigits 2 (pad 2 v ++ rest) = Some (v, rest).
Proof. intros H. apply takeDigits_pad; [lia|]. change (10 ^ Z.of_nat 2) with 100. lia. Qed.

Lemma takeDigits_pad3 v rest :
  0 <= v < 1000 -> takeDigits 3 (pad 3 v ++ rest) = Some (v, rest).
Proof. intros H. apply takeDigits_pad; [lia|]. change (10 ^ Z.of_nat 3) with 1000. lia. Qed.

Lemma takeDigits_pad4 v rest :
  0 <= v < 10000 -> takeDigits 4 (pad 4 v ++ rest) = Some (v, rest).
Proof. intros H. apply takeDigits_pad; [lia|]. change (10 ^ Z.of_nat 4) with 10000. lia. Qed.

Lemma fractionOk_all : forallb fractionOk (map Z.of_nat (seq 0 1000)) = true.
Proof. vm_compute. reflexivity. Qed.

Lemma in_range v n : 0 <= v < Z.of_nat n -> In v (map Z.of_nat (seq 0 n)).
Proof.
  intros H. apply in_map_iff. exists (Z.to_nat v). split; [lia|]. apply in_seq. lia.
Qed.

Lemma parseSeconds_printed ss ms :
  0 <= ss < 60 -> 0 <= ms < 1000 ->
  parseSeconds (":" ++ pad 2 ss ++ "." ++ pad 3 ms ++ "Z") = Some (ss * 1000 + ms, "Z").
Proof.
  intros Hs Hms.
  change (":" ++ pad 2 ss ++ "." ++ pad 3 ms ++ "Z")
    with (String ":" (pad 2 ss ++ String "." (pad 3 ms ++ "Z"))).
  cbn [parseSeconds]. rewrite takeDigits_pad2 by lia. cbn [bind].
  pose proof fractionOk_all as A. rewrite forallb_forall in A.
  specialize (A ms (in_range ms 1000 ltac:(lia))). unfold fractionOk in A. cbv zeta in A.
  apply andb_true_iff in A. destruct A as [A1 A2].
  apply Nat.eqb_eq in A1. apply String.eqb_eq in A2.
  rewrite A1, A2. cbn [Nat.eqb Nat.min Nat.sub].
  rewrite (takeDigits_pad3 ms "Z") by lia. cbn [bind].
  f_equal. f_equal. change (10 ^ Z.of_nat 0) with 1. lia.
Qed.

Lemma expect_app c rest : expect c (String c "" ++ rest) = Some rest.
Proof. cbn [append expect]. now rewrite Ascii.eqb_refl. Qed.

Lemma civilOf_fields t :
  let c := civilOf t in
  0 <= cHour c < 24 /\ 0 <= cMinute c < 60 /\ 0 <= cSecond c < 60 /\
  0 <= cMilli c < 1000 /\
  civilFromDays (t / msPerDay) = (cYear c, cMonth c, cDay c) /\
  cWeekDay c = weekDay (t / msPerDay) /\
  t = t / msPerDay * msPerDay + cHour c * msPerHour + cMinute c * msPerMinute
      + cSecond c * 1000 + cMilli c.
Proof.
  unfold civilOf. destruct (civilFromDays (t / msPerDay)) as [[y m] d].
  cbn [cYear cMonth cDay cHour cMinute cSecond cMilli cWeekDay].
  unfold msPerDay, msPerHour, msPerMinute.
  repeat split; try (Z.div_mod_to_equations; lia).
Qed.

Lemma Ok_inj {A} (a b : A) : Ok a = Ok b -> a = b.
Proof. intros H. exact (f_equal (fun r => match r with Ok x => x | Throw _ => a end) H). Qed.

Lemma Date_parse_toISOString t iso :
  0 <= cYear (civilOf t) <= 9999 ->
  toISOString (Some t) = Ok iso -> Date_parse iso = TimeClip t.
Proof.
  intros Hy H. unfold toISOString in H. cbv zeta in H.
  destruct (civilOf_fields t) as (Hh & Hmi & Hs & Hms & Hc & _ & Ht).
  cbv zeta in Hh, Hmi, Hs, Hms, Hc, Ht.
  destruct (daysFromCivil_civilFromDays _ _ _ _ Hc) as (Hday & Hmo & Hd).
  set (c := civilOf t) in *.
  assert (Hyb : (0 <=? cYear c) && (cYear c <=? 9999) = true).
  { apply andb_true_iff. split; apply Z.leb_le; lia. }
  rewrite Hyb in H. apply Ok_inj in H. subst iso.
  unfold Date_parse.
  rewrite takeDigits_pad4 by lia. cbn [bind]. rewrite expect_app. cbn [bind].
  assert (Hd31 : cDay c <= 31).
  { unfold monthLength in Hd. destruct (cMonth c =? 2); [destruct (leapYear _)|
      destruct (_ || _)]; lia. }
  rewrite takeDigits_pad2 by lia. cbn [bind]. rewrite expect_app. cbn [bind].
  rewrite takeDigits_pad2 by lia. cbn [bind]. rewrite expect_app. cbn [bind].
  rewrite takeDigits_pad2 by lia. cbn [bind]. rewrite expect_app. cbn [bind].
  rewrite takeDigits_pad2 by lia. cbn [bind].
  rewrite parseSeconds_printed by lia. cbn [bind].
  change (parseOffset "Z") with (Some 0). cbn [bind].
  rewrite daysInMonth_table by lia.
  assert (Hok : (1 <=? cMonth c) && (cMonth c <=? 12) && (1 <=? cDay c)
                && (cDay c <=? monthLength (cYear c) (cMonth c))
                && (cHour c <? 24) && (cMinute c <? 60)
                && (cSecond c * 1000 + cMilli c <? 60000) = true).
  { repeat (apply andb_true_iff; split);
      try (apply Z.leb_le; lia); apply Z.ltb_lt; lia. }
  rewrite Hok. f_equal. rewrite Hday.
  unfold msPerDay, msPerHour, msPerMinute in *. lia.
Qed.

End PrintFacts.

(** ** What the display shows of a converted selection *)

Module DisplayFacts.
Import Js JsDate DateUtils TimeSlotSelector BookingPage BookingFlows.
Import DateTerms FlowTerms CalendarTerms DisplayTerms.
Import DateFacts ConversionFacts CalendarFacts PrintFacts.

Lemma year_of_day z y m d :
  civilFromDays z = (y, m, d) -> -719528 <= z <= 2932896 -> 0 <= y <= 9999.
Proof.
  intros H Hz.
  destruct (civilFromDays_fields z y m d H)
    as (era & yoe & mp & Hy & Hmp & Ey & Em & Hd & Hdoy & Hmonth & Hleap & Ez).
  cbv zeta in Hdoy, Hmonth, Hleap, Ez.
  destruct (month_of_mp mp m Hmp Em) as (_ & _ & Hm3).
  rewrite Hm3 in Ey. clear Hleap.
  destruct (Z.ltb_spec mp 10); cbn [negb] in Ey; Z.div_mod_to_equations; lia.
Qed.

Lemma day_of_year y m d :
  1 <= m <= 12 -> 1 <= d <= monthLength y m -> 0 <= y <= 9999 ->
  -719528 <= daysFromCivil y m d <= 2932896 /\
  (100 <= y -> -719528 < daysFromCivil y m d).
Proof.
  intros Hm Hd Hy.
  assert (Hd31 : d <= 31).
  { unfold monthLength in Hd. destruct (m =? 2); [destruct (leapYear _)|
      destruct (_ || _)]; lia. }
  destruct (daysFromCivil_fields y m d Hm) as (era & yoe & mp & Hyoe & Hmp & Ey & Em & Ez).
  rewrite Ez. clear Ez.
  destruct (month_of_mp mp m Hmp Em) as (_ & _ & Hm3).
  rewrite Hm3 in Ey.
  destruct (Z.ltb_spec mp 10); cbn [negb] in Ey; Z.div_mod_to_equations; lia.
Qed.

Lemma TimeClip_small t : year0 <= t < year10000 -> TimeClip t = Some t.
Proof.
  unfold year0, year10000, TimeClip. intros H.
  destruct (Z.leb_spec (Z.abs t) 8640000000000000); [reflexivity|lia].
Qed.

Lemma fourDigitYear t : year0 <= t < year10000 -> 0 <= cYear (civilOf t) <= 9999.
Proof.
  unfold year0, year10000. intros H.
  destruct (civilOf_fields t) as (_ & _ & _ & _ & Hc & _).
  cbv zeta in Hc. apply (year_of_day _ _ _ _ Hc).
  unfold msPerDay. Z.div_mod_to_equations. lia.
Qed.

(** A printed instant is read back. *)
Lemma parse_printed {engine : Engine} t iso :
  year0 <= t < year10000 -> toISOString (Some t) = Ok iso ->
  parseISO8601 iso = Some t.
Proof.
  intros Ht Hiso. unfold parseISO8601, new_Date.
  rewrite (Date_parse_toISOString t iso (fourDigitYear t Ht) Hiso).
  now rewrite (TimeClip_small t Ht).
Qed.

(** What [formatISO8601ForDisplay] shows of a printed instant. *)
Lemma display_of_printed {engine : Engine} t iso :
  year0 <= t < year10000 -> toISOString (Some t) = Ok iso ->
  formatISO8601ForDisplay iso = shownInLondon t.
Proof.
  intros Ht Hiso. unfold formatISO8601ForDisplay. cbv zeta.
  now rewrite (parse_printed t iso Ht Hiso).
Qed.

Lemma Some_inj {A} (a b : A) : Some a = Some b -> a = b.
Proof. intros H. exact (f_equal (fun r => match r with Some x => x | None => a end) H). Qed.

Lemma toISOString_total t : exists iso, toISOString (Some t) = Ok iso.
Proof. unfold toISOString. eexists. reflexivity. Qed.

Lemma MakeDay_month y m d :
  0 <= m <= 11 -> MakeDay y m d = daysFromCivil y (m + 1) d.
Proof.
  intros H. unfold MakeDay. rewrite Z.div_small, Z.mod_small by lia.
  rewrite Z.add_0_r. symmetry. apply daysFromCivil_day.
Qed.

(** The fields of an instant given by its day, hour and minute. *)
Lemma civilOf_at day h mi y m d :
  0 <= h < 24 -> 0 <= mi < 60 -> civilFromDays day = (y, m, d) ->
  civilOf (day * msPerDay + h * msPerHour + mi * msPerMinute)
  = mkCivil y m d h mi 0 0 (weekDay day).
Proof.
  intros Hh Hmi Hc. unfold civilOf. cbv zeta.
  unfold msPerDay, msPerHour, msPerMinute.
  assert (E1 : (day * 86400000 + h * 3600000 + mi * 60000) / 86400000 = day)
    by (Z.div_mod_to_equations; lia).
  assert (E2 : (day * 86400000 + h * 3600000 + mi * 60000) mod 86400000
               = h * 3600000 + mi * 60000)
    by (Z.div_mod_to_equations; lia).
  rewrite E1, E2, Hc.
  f_equal; Z.div_mod_to_equations; lia.
Qed.

(** The reference instant of a valid date reads that date at offset 0. *)
Lemma civilOf_reference d h mi ref :
  validDate d = true -> 0 <= h < 24 -> 0 <= mi < 60 ->
  Date_UTC (getFullYear d) (getMonth d) (getDate d) h mi = Some ref ->
  let day := daysFromCivil (getFullYear d) (getMonth d + 1) (getDate d) in
  ref = day * msPerDay + h * msPerHour + mi * msPerMinute /\
  -719528 < day <= 2932896 /\
  civilFromDays day = (getFullYear d, getMonth d + 1, getDate d) /\
  civilOf ref = mkCivil (getFullYear d) (getMonth d + 1) (getDate d) h mi 0 0 (weekDay day).
Proof.
  intros Hv Hh Hmi Href day. unfold validDate in Hv.
  repeat (apply andb_true_iff in Hv; destruct Hv as [Hv ?]).
  repeat match goal with
  | H : (_ <=? _) = true |- _ => apply Z.leb_le in H
  end.
  rewrite daysInMonth_table in * by lia.
  assert (Eref : ref = day * msPerDay + h * msPerHour + mi * msPerMinute).
  { unfold Date_UTC in Href.
    destruct (Z.leb_spec (getFullYear d) 99); [lia|]. rewrite andb_false_r in Href.
    rewrite MakeDay_month in Href by lia. fold day in Href.
    unfold TimeClip in Href. destruct (_ <=? _); [|discriminate].
    now apply Some_inj in Href. }
  split; [exact Eref|].
  destruct (day_of_year (getFullYear d) (getMonth d + 1) (getDate d)) as [B1 B2]; try lia.
  fold day in B1, B2. split; [lia|].
  assert (Hc : civilFromDays day = (getFullYear d, getMonth d + 1, getDate d))
    by (apply civilFromDays_daysFromCivil; lia).
  split; [exact Hc|].
  rewrite Eref. now apply civilOf_at.
Qed.

Lemma shownInLondon_at day h mi y m d :
  0 <= h < 24 -> 0 <= mi < 60 -> civilFromDays day = (y, m, d) ->
  forall t,
    t + londonOffset t = day * msPerDay + h * msPerHour + mi * msPerMinute ->
    shownInLondon t
    = mkDisplay (enGB_longDate (weekDay day) y m d) (enGB_time12 h mi) "Europe/London".
Proof.
  intros Hh Hmi Hc t Ht.
  unfold shownInLondon, toLocaleDateString_London, toLocaleTimeString_London, londonCivil.
  cbv zeta. rewrite Ht, (civilOf_at day h mi y m d Hh Hmi Hc). reflexivity.
Qed.

(** X23. For a date of the calendar in the years 1996 to 9999 and each
    of the 96 slots, in winter
    and in summer before 23:00, when London has the same offset at the
    instant [convertToISO8601] returns as at the reference instant (the
    selected time exists on the London clock), [formatISO8601ForDisplay]
    shows of the converted string the selected date and the time of the
    slot. *)
Theorem convertToISO8601_round_trip {engine : Engine} :
  forall d slot ref,
    In slot generateTimeSlots ->
    validDate d = true ->
    Date_UTC (getFullYear d) (getMonth d) (getDate d) (hour slot) (minute slot) = Some ref ->
    londonOffset ref = 0 \/ hour slot < 23 ->
    londonOffset (ref - londonOffset ref) = londonOffset ref ->
    exists iso,
      convertToISO8601 d (timeString slot) = Ok iso /\
      formatISO8601ForDisplay iso
      = mkDisplay (longDateOf d) (wallClockOf slot) "Europe/London".
Proof.
  intros d slot ref Hin Hv Href Hcase Hstable.
  destruct (slot_label slot Hin) as (_ & _ & _ & _ & _ & _ & _ & _ & Hh & Hmi).
  destruct (civilOf_reference d (hour slot) (minute slot) ref Hv Hh Hmi Href)
    as (Eref & Hday & Hc & _).
  cbv zeta in Eref, Hday, Hc.
  set (day := daysFromCivil (getFullYear d) (getMonth d + 1) (getDate d)) in *.
  set (t := ref - londonOffset ref).
  assert (Ht : year0 <= t < year10000).
  { subst t. destruct (londonOffset_cases ref) as [-> | ->];
      unfold year0, year10000, msPerDay, msPerHour, msPerMinute in *; lia. }
  destruct (toISOString_total t) as [iso Hiso].
  exists iso. split.
  - unfold convertToISO8601.
    assert (Hvd : validDate d = true) by exact Hv.
    unfold validDate in Hvd.
    repeat (apply andb_true_iff in Hvd; destruct Hvd as [Hvd ?]).
    repeat match goal with
    | H : (_ <=? _) = true |- _ => apply Z.leb_le in H
    end.
    rewrite daysInMonth_table in * by lia.
    assert (Hd31 : getDate d <= 31).
    { match goal with H : getDate d <= monthLength _ _ |- _ =>
        unfold monthLength in H; destruct (_ =? 2); [destruct (leapYear _)|
          destruct (_ || _)]; lia end. }
    rewrite (convertToInstant_before_last_hour d slot ref Hin ltac:(lia) ltac:(lia)
               Href Hcase).
    fold t. rewrite (TimeClip_small t Ht). exact Hiso.
  - rewrite (display_of_printed t iso Ht Hiso).
    rewrite (shownInLondon_at day (hour slot) (minute slot) _ _ _ Hh Hmi Hc).
    + reflexivity.
    + subst t. rewrite Hstable. lia.
Qed.

Lemma convertToISO8601_round_trip_witness :
  exists iso,
    convertToISO8601 july15 "2:30 PM" = Ok iso /\
    formatISO8601ForDisplay (engine := standardOnly) iso
    = mkDisplay (longDateOf july15) (wallClockOf (mkSlot "2:30 PM" 14 30)) "Europe/London".
Proof.
  apply (convertToISO8601_round_trip (engine := standardOnly) july15 (mkSlot "2:30 PM" 14 30) 1752589800000).
  - vm_compute; do 58 right; left; reflexivity.
  - vm_compute; reflexivity.
  - vm_compute; reflexivity.
  - right. cbn. lia.
  - vm_compute; reflexivity.
Defined.


Lemma shift_winter ref h : londonOffset ref = 0 -> shift ref h = 0.
Proof. unfold shift. intros ->. reflexivity. Qed.

Lemma shift_summer ref h :
  londonOffset ref = msPerHour -> h < 23 -> shift ref h = - msPerHour.
Proof.
  unfold shift. intros -> Hh. change (msPerHour =? 0) with false. cbv iota.
  destruct (Z.ltb_spec h 23); [reflexivity|lia].
Qed.



End DisplayFacts.

(** ** The date picker *)

Module DatePickerFacts.
Import Js JsDate.
Import CalendarTerms CalendarFacts.
Import DatePicker.

Lemma fields_of d :
  exists y m day,
    civilFromDays d = (y, m, day) /\ getFullYear d = y /\ getMonth d = m - 1 /\
    getDate d = day /\ 1 <= m <= 12 /\ 1 <= day <= monthLength y m /\
    daysFromCivil y m day = d.
Proof.
  unfold getFullYear, getMonth, getDate.
  destruct (civilFromDays d) as [[y m] day] eqn:E.
  destruct (daysFromCivil_civilFromDays d y m day E) as (H1 & H2 & H3).
  exists y, m, day. repeat split; trivial; lia.
Qed.

Lemma monthLength_bounds y m : 28 <= monthLength y m <= 31.
Proof.
  unfold monthLength. destruct (m =? 2); [destruct (leapYear y)|destruct (_ || _)]; lia.
Qed.

(** [new Date(y, m, d)] for a month in range or next to it. *)
Lemma newDate_fields y m d :
  100 <= y -> -1 <= m <= 12 ->
  let y' := y + m / 12 in
  let m' := m mod 12 + 1 in
  1 <= d <= monthLength y' m' ->
  newDate y m d = daysFromCivil y' m' d /\
  getFullYear (newDate y m d) = y' /\ getMonth (newDate y m d) = m' - 1 /\
  getDate (newDate y m d) = d.
Proof.
  intros Hy Hm y' m' Hd. unfold newDate.
  destruct (Z.leb_spec y 99); [lia|]. rewrite andb_false_r.
  assert (Hm' : 1 <= m' <= 12) by (subst m'; Z.div_mod_to_equations; lia).
  assert (E : MakeDay y m d = daysFromCivil y' m' d).
  { unfold MakeDay. fold y' m'. symmetry. apply daysFromCivil_day. }
  rewrite E. split; [reflexivity|].
  unfold getFullYear, getMonth, getDate.
  rewrite (civilFromDays_daysFromCivil y' m' d Hm' Hd). repeat split.
Qed.

Lemma upTo_nth n i :
  1 <= i <= n -> nth_error (upTo n) (Z.to_nat (i - 1)) = Some i.
Proof.
  intros H. unfold upTo. rewrite nth_error_map.
  rewrite nth_error_seq.
  destruct (Nat.ltb_spec (Z.to_nat (i - 1)) (Z.to_nat n)); [|lia].
  cbn [option_map]. f_equal. lia.
Qed.

Lemma upTo_length n : length (upTo n) = Z.to_nat n.
Proof. unfold upTo. now rewrite length_map, length_seq. Qed.

Lemma weekDay_bounds d : 0 <= weekDay d < 7.
Proof. unfold weekDay. apply Z.mod_pos_bound. lia. Qed.

(** The month shown, through the first day of it. *)
Lemma month_shown cm :
  100 <= getFullYear cm ->
  let y := getFullYear cm in
  let m := getMonth cm in
  0 <= m <= 11 /\
  getDate (newDate y (m + 1) 0) = monthLength y (m + 1) /\
  forall i, 1 <= i <= monthLength y (m + 1) ->
    newDate y m i = newDate y m 1 + i - 1 /\
    getFullYear (newDate y m i) = y /\ getMonth (newDate y m i) = m /\
    getDate (newDate y m i) = i.
Proof.
  intros Hy y m.
  destruct (fields_of cm) as (y0 & m0 & d0 & _ & Ey & Em & _ & Hm0 & _).
  assert (Hm : 0 <= m <= 11) by (subst m; lia).
  split; [exact Hm|].
  assert (Hdiv : m / 12 = 0 /\ m mod 12 = m) by (Z.div_mod_to_equations; lia).
  destruct Hdiv as [Hdiv Hmod].
  pose proof (monthLength_bounds y (m + 1)) as HL.
  assert (Hcell : forall i, 1 <= i <= monthLength y (m + 1) ->
            newDate y m i = daysFromCivil y (m + 1) i /\
            getFullYear (newDate y m i) = y /\ getMonth (newDate y m i) = m /\
            getDate (newDate y m i) = i).
  { intros i Hi.
    pose proof (newDate_fields y m i Hy ltac:(lia)) as F. cbv zeta in F.
    rewrite Hdiv, Hmod, Z.add_0_r in F.
    destruct (F Hi) as (F1 & F2 & F3 & F4). repeat split; trivial; lia. }
  split.
  - assert (E : newDate y (m + 1) 0 = daysFromCivil y (m + 1) (monthLength y (m + 1))).
    { unfold newDate. destruct (Z.leb_spec y 99); [lia|]. rewrite andb_false_r.
      unfold MakeDay.
      rewrite (daysFromCivil_day y (m + 1) (monthLength y (m + 1))).
      rewrite <- (daysInMonth_table y (m + 1)) by lia.
      unfold daysInMonth. lia. }
    rewrite E. unfold getDate.
    rewrite (civilFromDays_daysFromCivil y (m + 1) (monthLength y (m + 1))
               ltac:(lia) ltac:(lia)).
    reflexivity.
  - intros i Hi. destruct (Hcell i Hi) as (C1 & C2 & C3 & C4).
    destruct (Hcell 1 ltac:(lia)) as (D1 & _).
    repeat split; trivial.
    rewrite C1, D1. rewrite (daysFromCivil_day y (m + 1) i). lia.
Qed.

(** X25. The grid of a month: as many empty cells as the day of the week
    of the first of the month, then one cell for each day of the month, in
    order.  The cell of the [i]-th is a date of the month shown, and its
    place in the list, counted from 0, is its day of the week modulo 7. *)
Theorem getDaysInMonth_grid :
  forall currentMonth,
    100 <= getFullYear currentMonth ->
    let y := getFullYear currentMonth in
    let m := getMonth currentMonth in
    let days := getDaysInMonth currentMonth in
    let start := getDay (newDate y m 1) in
    Z.of_nat (length days) = start + monthLength y (m + 1) /\
    (forall k, Z.of_nat k < start -> nth_error days k = Some None) /\
    (forall i, 1 <= i <= monthLength y (m + 1) ->
       exists day,
         nth_error days (Z.to_nat (start + i - 1)) = Some (Some day) /\
         getFullYear day = y /\ getMonth day = m /\ getDate day = i /\
         getDay day = (start + i - 1) mod 7).
Proof.
  intros cm Hy y m days start.
  destruct (month_shown cm Hy) as (Hm & HL & Hcell). fold y m in HL, Hcell.
  pose proof (monthLength_bounds y (m + 1)) as HLb.
  assert (Hs : 0 <= start < 7) by apply weekDay_bounds.
  assert (Edays : days = (repeat None (Z.to_nat start)
                    ++ map (fun i => Some (newDate y m i))
                           (upTo (monthLength y (m + 1))))%list).
  { subst days. unfold getDaysInMonth. cbv zeta. fold y m. rewrite HL. reflexivity. }
  rewrite Edays. split; [|split].
  - rewrite length_app, repeat_length, length_map, upTo_length. lia.
  - intros k Hk. rewrite nth_error_app1 by (rewrite repeat_length; lia).
    apply nth_error_repeat. lia.
  - intros i Hi. exists (newDate y m i).
    destruct (Hcell i Hi) as (C1 & C2 & C3 & C4).
    split; [|repeat split; trivial].
    + rewrite nth_error_app2 by (rewrite repeat_length; lia).
      rewrite repeat_length.
      replace (Z.to_nat (start + i - 1) - Z.to_nat start)%nat with (Z.to_nat (i - 1))
        by lia.
      rewrite nth_error_map, (upTo_nth _ i Hi). reflexivity.
    + rewrite C1. subst start. unfold getDay, weekDay.
      generalize (newDate y m 1). intros first.
      Z.div_mod_to_equations. lia.
Qed.

Lemma getDaysInMonth_grid_witness :
  Z.of_nat (length (getDaysInMonth 20284))
  = getDay (newDate (getFullYear 20284) (getMonth 20284) 1)
    + monthLength (getFullYear 20284) (getMonth 20284 + 1).
Proof.
  apply (proj1 (getDaysInMonth_grid 20284 ltac:(vm_compute; discriminate))).
Defined.

(** X26. Month navigation, from a month of a year after 100: the next
    month is the following month of the year, or January of the next year
    after December; the previous month is the month before, or December of
    the year before; both start at the first day, and going one way and
    back gives the first day of the month one started from. *)
Theorem month_navigation :
  forall currentMonth,
    100 < getFullYear currentMonth ->
    let y := getFullYear currentMonth in
    let m := getMonth currentMonth in
    let next := goToNextMonth currentMonth in
    let prev := goToPreviousMonth currentMonth in
    (getFullYear next, getMonth next, getDate next)
    = (if m =? 11 then (y + 1, 0, 1) else (y, m + 1, 1)) /\
    (getFullYear prev, getMonth prev, getDate prev)
    = (if m =? 0 then (y - 1, 11, 1) else (y, m - 1, 1)) /\
    goToPreviousMonth next = newDate y m 1 /\
    goToNextMonth prev = newDate y m 1 /\
    (getFullYear (newDate y m 1), getMonth (newDate y m 1), getDate (newDate y m 1))
    = (y, m, 1).
Proof.
  intros cm Hy. cbv zeta.
  destruct (month_shown cm ltac:(lia)) as (Hm & _ & _).
  unfold goToNextMonth, goToPreviousMonth.
  remember (getFullYear cm) as y eqn:Ey.
  remember (getMonth cm) as m eqn:Em.
  clear Ey Em cm.
  assert (Hone : forall y0 m0, 100 <= y0 -> -1 <= m0 <= 12 ->
            getFullYear (newDate y0 m0 1) = y0 + m0 / 12 /\
            getMonth (newDate y0 m0 1) = m0 mod 12 /\
            getDate (newDate y0 m0 1) = 1).
  { intros y0 m0 Hy0 Hm0.
    pose proof (newDate_fields y0 m0 1 Hy0 Hm0) as F. cbv zeta in F.
    pose proof (monthLength_bounds (y0 + m0 / 12) (m0 mod 12 + 1)) as B.
    destruct (F ltac:(lia)) as (_ & F2 & F3 & F4). repeat split; trivial; lia. }
  assert (Hsame : forall y1 m1 y2 m2, 100 <= y1 -> 100 <= y2 ->
            y1 + m1 / 12 = y2 + m2 / 12 -> m1 mod 12 = m2 mod 12 ->
            newDate y1 m1 1 = newDate y2 m2 1).
  { intros y1 m1 y2 m2 H1 H2 E1 E2. unfold newDate.
    destruct (Z.leb_spec y1 99); [lia|]. destruct (Z.leb_spec y2 99); [lia|].
    rewrite !andb_false_r. unfold MakeDay. now rewrite E1, E2. }
  destruct (Hone y (m + 1) ltac:(lia) ltac:(lia)) as (N1 & N2 & N3).
  destruct (Hone y (m - 1) ltac:(lia) ltac:(lia)) as (P1 & P2 & P3).
  destruct (Hone y m ltac:(lia) ltac:(lia)) as (C1 & C2 & C3).
  rewrite N1, N2, N3, P1, P2, P3, C1, C2, C3.
  assert (A0 : m / 12 = 0 /\ m mod 12 = m) by (Z.div_mod_to_equations; lia).
  destruct A0 as [A1 A2].
  split; [|split; [|split; [|split]]].
  - destruct (Z.eqb_spec m 11) as [E|E].
    + rewrite E. reflexivity.
    + assert (A : (m + 1) / 12 = 0 /\ (m + 1) mod 12 = m + 1)
        by (Z.div_mod_to_equations; lia).
      destruct A as [-> ->]. now rewrite Z.add_0_r.
  - destruct (Z.eqb_spec m 0) as [E|E].
    + rewrite E. reflexivity.
    + assert (A : (m - 1) / 12 = 0 /\ (m - 1) mod 12 = m - 1)
        by (Z.div_mod_to_equations; lia).
      destruct A as [-> ->]. now rewrite Z.add_0_r.
  - apply Hsame; Z.div_mod_to_equations; lia.
  - apply Hsame; Z.div_mod_to_equations; lia.
  - now rewrite A1, A2, Z.add_0_r.
Qed.

Lemma month_navigation_witness :
  goToPreviousMonth (goToNextMonth 20284)
  = newDate (getFullYear 20284) (getMonth 20284) 1.
Proof.
  apply (proj1 (proj2 (proj2 (month_navigation 20284 ltac:(vm_compute; reflexivity))))).
Defined.

End DatePickerFacts.

(** ** The booking form *)

Module LegacyFacts.
Import Js JsDate DateUtils BookingPage.
Import LegacyFlows LegacyTerms.
Import BookingFlowFacts.

Lemma loadedAndPicked_phone {engine : Engine} cid now data date time st phone :
  isEmpty cid = false ->
  candidate_phone_number data = Some phone -> isEmpty phone = false ->
  let st' := loadedAndPicked (Some cid) now data date time st in
  candidatePhoneNumber st' = Some (withCountryCode phone) /\
  confirmedPhoneNumber st' = removePrefix "+44" (withCountryCode phone).
Proof.
  intros Hc Hp Hne st'. subst st'.
  unfold loadedAndPicked, handleTimeSelect, handleDateSelect, loadScheduledCall.
  cbn [present]. rewrite Hc. cbn [negb]. rewrite Hp. cbn [present]. rewrite Hne.
  cbn [negb]. split; reflexivity.
Qed.

(** X27. Submitting the form for a candidate whose phone number is
    known goes through [handleScheduleCall] with the content of the phone
    field as it is.  After the status of the candidate was loaded, that is
    the candidate's number without its +44: this is the number handed to
    the API. *)
Theorem handleSubmit_sends_number_without_country_code {engine : Engine} :
  forall cid clientId durationMinutes name email convertToISO8601 getUserTimezone
         createBooking now confirmed scheduleCall later fetched
         now0 status phone date time st0 st' data,
    isEmpty cid = false ->
    candidate_phone_number status = Some phone -> isEmpty phone = false ->
    let st := loadedAndPicked (Some cid) now0 status date time st0 in
    handleSubmit (Some cid) clientId durationMinutes name email convertToISO8601
                 getUserTimezone createBooking now confirmed scheduleCall later fetched st
    = Ok (st', CallScheduled data) ->
    candidatePhoneNumber st = Some (withCountryCode phone) /\
    candidate_phone_number_ data = removePrefix "+44" (withCountryCode phone) /\
    (forall n, withCountryCode phone = "+44" ++ n -> candidate_phone_number_ data = n).
Proof.
  intros cid clientId durationMinutes name email convert tz createBooking now confirmed
         scheduleCall later fetched now0 status phone date time st0 st' data
         Hc Hp Hne st H.
  destruct (loadedAndPicked_phone cid now0 status date time st0 phone Hc Hp Hne)
    as [Hcand Hconf].
  cbv zeta in Hcand, Hconf. fold st in Hcand, Hconf.
  assert (Hsent : candidate_phone_number_ data = removePrefix "+44" (withCountryCode phone)).
  { unfold handleSubmit in H. cbv zeta in H.
    destruct (present (Some cid) && present (candidatePhoneNumber st)).
    - destruct (handleScheduleCall (Some cid) None now confirmed scheduleCall later
                  fetched (setError None st)) as [[st2 [d|]]|e] eqn:E;
        try discriminate H.
      assert (d = data) by congruence. subst d.
      rewrite (handleScheduleCall_sent_phone _ _ _ _ _ _ _ _ _ _ E).
      unfold phoneToUse. cbn [confirmedPhoneNumber setError]. exact Hconf.
    - destruct (truthyNumber clientId); [|discriminate H].
      exfalso. unfold handleLegacyBooking in H.
      destruct (negb (present (Some cid)) || negb (truthyNumber clientId));
        [discriminate H|].
      destruct (selectedDate (setError None st)) as [d0|]; [|discriminate H].
      destruct (selectedTime (setError None st)) as [t0|]; [|discriminate H].
      destruct (negb (isEmpty t0) && negb (isEmpty name) && negb (isEmpty email));
        [|discriminate H].
      destruct (convert d0 t0); [|discriminate H].
      cbv zeta in H. destruct (createBooking _); discriminate H. }
  split; [exact Hcand|]. split; [exact Hsent|].
  intros n Hn. rewrite Hsent, Hn. reflexivity.
Qed.

Lemma handleSubmit_sends_number_without_country_code_witness :
  candidate_phone_number_
    (mkScheduleCallData "candidate-1" "7700123456" "2025-03-10T14:30:00.000Z")
  = removePrefix "+44" (withCountryCode "+447700123456").
Proof.
  assert (H : exists st',
    handleSubmit (engine := standardOnly) (Some "candidate-1") (Some 7) (Some 5) "" "" DateUtils.convertToISO8601
      getUserTimezone (fun _ => Ok []) 1741000000000 false
      (fun _ => Ok [("id", Api.JStr "call-1")]) 1741000000500 (Ok None)
      (loadedAndPicked (engine := standardOnly) (Some "candidate-1") 1741000000000
         (statusWithPhone "+447700123456") (mkLocalDate 2025 2 10) "2:30 PM" initialState)
    = Ok (st', CallScheduled
                 (mkScheduleCallData "candidate-1" "7700123456"
                    "2025-03-10T14:30:00.000Z"))).
  { eexists. vm_compute. reflexivity. }
  destruct H as [st' H].
  exact (proj1 (proj2 (handleSubmit_sends_number_without_country_code (engine := standardOnly)
                         "candidate-1" _ _ _ _ _ _ _ _ _ _ _ _ _
                         (statusWithPhone "+447700123456") "+447700123456" _ _ _ _ _
                         eq_refl eq_refl eq_refl H))).
Defined.

End LegacyFacts.

(** ** The date utilities of the viewer's zone *)

Module ViewerFacts.
Import Js JsDate DateUtils.
Import ViewerDateUtils ViewerTerms.
Import DateTerms CalendarTerms DisplayTerms CalendarFacts PrintFacts.

Lemma parseOffset_printed sg hh mm :
  sg = "+"%char \/ sg = "-"%char -> 0 <= hh < 24 -> 0 <= mm < 60 ->
  parseOffset (String sg (pad 2 hh ++ ":" ++ pad 2 mm))
  = Some ((if Ascii.eqb sg "-" then -1 else 1) * (hh * msPerHour + mm * msPerMinute)).
Proof.
  intros Hsg Hh Hm.
  assert (E : pad 2 hh ++ ":" ++ pad 2 mm = pad 2 hh ++ ":" ++ pad 2 mm ++ "").
  { f_equal. f_equal. clear. induction (pad 2 mm) as [|c r IH]; [reflexivity|].
    cbn [append]. now rewrite <- IH. }
  rewrite E.
  destruct Hsg as [-> | ->]; cbn [parseOffset Ascii.eqb Bool.eqb orb];
    rewrite takeDigits_pad2 by lia; cbn [bind]; rewrite expect_app; cbn [bind];
    rewrite takeDigits_pad2 by lia; cbn [bind isEmpty andb];
    destruct (Z.ltb_spec hh 24); try lia; destruct (Z.ltb_spec mm 60); try lia;
    reflexivity.
Qed.

(** X28. The string the viewer-zone [convertToISO8601] prints for a
    well-formed local date and time names the instant whose reading at
    offset 0 is the local reading moved by [getTimezoneOffset()] minutes:
    it is read back by the date parser as that instant, for zones ahead of
    UTC and behind it. *)
Theorem viewer_convertToISO8601_names_the_instant :
  forall (D : Type) (setHours : D -> option Z -> option Z -> LocalDateTime)
         (date : D) timeString m1 m2 m3 y m d h mi s o,
    timeMatch timeString = Some (m1, m2, m3) ->
    setHours date (to24HourN (toUpperCase m3) (parseInt m1)) (parseInt m2)
    = mkLocalDateTime (Some y) (Some m) (Some d) (Some h) (Some mi) (Some s) (Some o) ->
    wellFormed y m d h mi s o = true ->
    exists iso,
      convertToISO8601 setHours date timeString = Ok iso /\
      Date_parse iso
      = Some (daysFromCivil y (m + 1) d * msPerDay + h * msPerHour + mi * msPerMinute
              + s * 1000 + o * msPerMinute).
Proof.
  intros D setHours date timeString m1 m2 m3 y m d h mi s o Hm Hldt Hw.
  unfold wellFormed in Hw.
  repeat (apply andb_true_iff in Hw; destruct Hw as [Hw ?]).
  repeat match goal with
  | H : (_ <=? _) = true |- _ => apply Z.leb_le in H
  | H : (_ <? _) = true |- _ => apply Z.ltb_lt in H
  end.
  rewrite daysInMonth_table in * by lia.
  eexists. split.
  { unfold convertToISO8601. rewrite Hm. cbv zeta. rewrite Hldt.
    cbn [getFullYear getMonth getDate getHours getMinutes getSeconds getTimezoneOffset
         mapN StringN]. reflexivity. }
  rewrite (String_year y) by lia.
  set (hh := Z.abs o / 60). set (mm := Z.abs o mod 60).
  assert (Hhh : 0 <= hh < 24) by (subst hh; Z.div_mod_to_equations; lia).
  assert (Hmm : 0 <= mm < 60) by (subst mm; Z.div_mod_to_equations; lia).
  assert (Hd31 : d <= 31).
  { match goal with H : d <= monthLength _ _ |- _ =>
      unfold monthLength in H; destruct (_ =? 2); [destruct (leapYear _)|
        destruct (_ || _)]; lia end. }
  fold (pad 2 (m + 1)) (pad 2 d) (pad 2 h) (pad 2 mi) (pad 2 s) (pad 2 hh) (pad 2 mm).
  unfold Date_parse.
  rewrite takeDigits_pad4 by lia. cbn [bind]. rewrite expect_app. cbn [bind].
  rewrite takeDigits_pad2 by lia. cbn [bind]. rewrite expect_app. cbn [bind].
  rewrite takeDigits_pad2 by lia. cbn [bind]. rewrite expect_app. cbn [bind].
  rewrite takeDigits_pad2 by lia. cbn [bind]. rewrite expect_app. cbn [bind].
  rewrite takeDigits_pad2 by lia. cbn [bind].
  assert (Hok : (1 <=? m + 1) && (m + 1 <=? 12) && (1 <=? d)
                && (d <=? monthLength y (m + 1))
                && (h <? 24) && (mi <? 60) && (s * 1000 <? 60000) = true).
  { repeat (apply andb_true_iff; split);
      try (apply Z.leb_le; lia); apply Z.ltb_lt; lia. }
  assert (Hclip : forall x, Z.abs x < 1440 * 60000 ->
            TimeClip (daysFromCivil y (m + 1) d * msPerDay + h * msPerHour
                      + mi * msPerMinute + s * 1000 + x)
            = Some (daysFromCivil y (m + 1) d * msPerDay + h * msPerHour
                    + mi * msPerMinute + s * 1000 + x)).
  { intros x Hx.
    destruct (DisplayFacts.day_of_year y (m + 1) d) as [B _]; try lia.
    unfold TimeClip, msPerDay, msPerHour, msPerMinute.
    destruct (Z.leb_spec (Z.abs (daysFromCivil y (m + 1) d * 86400000 + h * 3600000
                                 + mi * 60000 + s * 1000 + x)) 8640000000000000);
      [reflexivity|lia]. }
  destruct (Z.leb_spec o 0) as [Ho|Ho].
  - change (":" ++ pad 2 s ++ "+" ++ pad 2 hh ++ ":" ++ pad 2 mm)
      with (String ":" (pad 2 s ++ String "+" (pad 2 hh ++ ":" ++ pad 2 mm))).
    cbn [parseSeconds]. rewrite takeDigits_pad2 by lia. cbn [bind].
    rewrite (parseOffset_printed "+" hh mm (or_introl eq_refl) Hhh Hmm).
    cbn [bind Ascii.eqb Bool.eqb]. rewrite daysInMonth_table by lia. rewrite Hok.
    rewrite <- (Hclip (o * msPerMinute)) by (unfold msPerMinute; lia).
    f_equal. subst hh mm. unfold msPerHour, msPerMinute.
    Z.div_mod_to_equations. lia.
  - change (":" ++ pad 2 s ++ "-" ++ pad 2 hh ++ ":" ++ pad 2 mm)
      with (String ":" (pad 2 s ++ String "-" (pad 2 hh ++ ":" ++ pad 2 mm))).
    cbn [parseSeconds]. rewrite takeDigits_pad2 by lia. cbn [bind].
    rewrite (parseOffset_printed "-" hh mm (or_intror eq_refl) Hhh Hmm).
    cbn [bind Ascii.eqb Bool.eqb]. rewrite daysInMonth_table by lia. rewrite Hok.
    rewrite <- (Hclip (o * msPerMinute)) by (unfold msPerMinute; lia).
    f_equal. subst hh mm. unfold msPerHour, msPerMinute.
    Z.div_mod_to_equations. lia.
Qed.

Lemma viewer_convertToISO8601_names_the_instant_witness :
  exists iso,
    convertToISO8601 plusThree july15 "2:30 PM" = Ok iso /\
    Date_parse iso
    = Some (daysFromCivil 2025 (6 + 1) 15 * msPerDay + 14 * msPerHour + 30 * msPerMinute
            + 0 * 1000 + -180 * msPerMinute).
Proof.
  apply (viewer_convertToISO8601_names_the_instant LocalDate plusThree july15 "2:30 PM"
           "2" "30" "PM" 2025 6 15 14 30 0 (-180)); vm_compute; reflexivity.
Defined.

End ViewerFacts.

(** ** When a call is handed to the API *)

Module AcceptanceFacts.
Import Js JsDate DateUtils TimeSlotSelector BookingPage BookingFlows.
Import DateTerms FlowTerms CalendarTerms DisplayTerms.
Import DateFacts ScheduleFacts ConversionFacts CalendarFacts PrintFacts DisplayFacts.

(** X29. With a candidate, a phone number that is not blank, a date of
    the calendar in the years 1996 to 9999 and one of the 96 slots before
    23:00, [handleScheduleCall]
    hands the call to the API exactly when the clock is before the
    reference instant moved forward by London's offset, and the user
    agreed to replace a call if one exists.  In summer that is two hours
    after the selected time on the London clock: a selection up to two
    hours in the past is sent. *)
Theorem handleScheduleCall_accepts {engine : Engine} :
  forall cid phone now confirmed scheduleCall later fetched st d slot ref,
    isEmpty cid = false ->
    isEmpty (trim phone) = false ->
    selectedDate st = Some d -> selectedTime st = Some (timeString slot) ->
    In slot generateTimeSlots -> hour slot < 23 ->
    validDate d = true ->
    Date_UTC (getFullYear d) (getMonth d) (getDate d) (hour slot) (minute slot) = Some ref ->
    existingFuture st = false \/ confirmed = true ->
    let t := ref + londonOffset ref in
    (now < t ->
     exists st' iso,
       toISOString (Some t) = Ok iso /\
       handleScheduleCall (Some cid) (Some phone) now confirmed scheduleCall later fetched st
       = Ok (st', Some (mkScheduleCallData cid phone iso))) /\
    (t <= now ->
     handleScheduleCall (Some cid) (Some phone) now confirmed scheduleCall later fetched st
     = Ok (setError (Some "Cannot schedule a call in the past") st, None)).
Proof.
  intros cid phone now confirmed scheduleCall later fetched st d slot ref
         Hcid Hphone Hdate Htime Hin H23 Hv Href Hconf t.
  destruct (slot_label slot Hin) as (m1 & m2 & m3 & h0 & Hm & H1 & H2 & H3 & Hh & Hmi).
  destruct (civilOf_reference d (hour slot) (minute slot) ref Hv Hh Hmi Href)
    as (Eref & Hday & _ & _).
  cbv zeta in Eref, Hday.
  assert (Hshift : ref - shift ref (hour slot) = t).
  { subst t. destruct (londonOffset_cases ref) as [E|E].
    - rewrite (shift_winter ref _ E), E. lia.
    - rewrite (shift_summer ref _ E H23), E. lia. }
  assert (Ht : year0 <= t < year10000).
  { subst t. destruct (londonOffset_cases ref) as [-> | ->];
      unfold year0, year10000, msPerDay, msPerHour, msPerMinute in *; lia. }
  assert (Hsel : selectedDateTime d (to24Hour (toUpperCase m3) h0) (minute slot)
                 = Ok (Some t)).
  { rewrite H3, (selectedDateTime_shift d (hour slot) (minute slot) ref Hh Hmi Href).
    rewrite Hshift. now rewrite (TimeClip_small t Ht). }
  assert (Hlabel : isEmpty (timeString slot) = false).
  { destruct (timeString slot); [discriminate Hm|reflexivity]. }
  assert (Hrun : handleScheduleCall (Some cid) (Some phone) now confirmed scheduleCall
                   later fetched st
                 = if t <=? now
                   then Ok (setError (Some "Cannot schedule a call in the past") st, None)
                   else if existingFuture st && negb confirmed then Ok (st, None)
                   else
                     let st1 := setError None (setIsLoading true st) in
                     match toISOString (Some t) with
                     | Throw err =>
                         Ok (setIsLoading false
                               (setError (Some (messageOr err
                                    "Failed to schedule call. Please try again.")) st1),
                             None)
                     | Ok scheduledDatetime =>
                         let data := mkScheduleCallData cid phone scheduledDatetime in
                         match scheduleCall data with
                         | Ok result =>
                             let booking :=
                               Api.setKey "status" (Api.JStr "SCHEDULED")
                                 (Api.setKey "scheduled_at" (Api.JStr scheduledDatetime)
                                    result) in
                             let st2 :=
                               setIsSubmitted true (setBookingData (Some booking) st1) in
                             let st3 := loadScheduledCall (Some cid) later fetched st2 in
                             Ok (setIsLoading false (setShowConfirmationModal false st3),
                                 Some data)
                         | Throw err =>
                             Ok (setIsLoading false
                                   (setError (Some (messageOr err
                                      "Failed to schedule call. Please try again.")) st1),
                                 Some data)
                         end
                     end).
  { unfold handleScheduleCall, phoneToUse.
    rewrite Hcid, (isEmpty_trim _ Hphone), Hphone, Hdate, Htime, Hlabel, Hm.
    cbv beta iota. rewrite H1, H2. cbn [number]. cbv zeta. rewrite Hsel. reflexivity. }
  rewrite Hrun. clear Hrun. split.
  - intros Hnow. destruct (Z.leb_spec t now); [lia|].
    assert (Hgo : existingFuture st && negb confirmed = false)
      by (destruct Hconf as [-> | ->]; [reflexivity | apply andb_false_r]).
    rewrite Hgo. destruct (toISOString_total t) as [iso Hiso]. rewrite Hiso.
    cbv zeta. destruct (scheduleCall _); eexists; exists iso; split; reflexivity.
  - intros Hnow. destruct (Z.leb_spec t now); [reflexivity|lia].
Qed.

Lemma handleScheduleCall_accepts_witness :
  exists st' iso,
    toISOString (Some (1752589800000 + londonOffset 1752589800000)) = Ok iso /\
    handleScheduleCall (engine := standardOnly) (Some "candidate-1") (Some "+447700123456") 1752590000000 false
      (fun _ => Ok []) 1752590000500 (Ok None) summerState
    = Ok (st', Some (mkScheduleCallData "candidate-1" "+447700123456" iso)).
Proof.
  apply (proj1 (handleScheduleCall_accepts (engine := standardOnly) "candidate-1" "+447700123456" 1752590000000
                  false (fun _ => Ok []) 1752590000500 (Ok None) summerState
                  july15 (mkSlot "2:30 PM" 14 30) 1752589800000
                  eq_refl eq_refl eq_refl eq_refl
                  ltac:(vm_compute; do 58 right; left; reflexivity)
                  ltac:(cbn; lia)
                  ltac:(vm_compute; reflexivity) ltac:(vm_compute; reflexivity)
                  (or_introl eq_refl))).
  vm_compute. reflexivity.
Defined.

End AcceptanceFacts.
